(** * live_topstats: top players and squads, and the VIP awarded at match end

    A shallow embedding of [live_topstats.py] and the properties of its
    ranking and award logic.

    Conventions of the embedding.
    - A Python [int] is an integer of [Z].  A Python [float] is the rational
      of [Q] it stands for, and an operation on floats is the exact operation
      followed by the rounding to the nearest double ([binary64]: 53 bits,
      ties to even).  There is no largest float: the counters of a match are
      far below it.  [int(x)] truncates toward zero; [round(x, 1)] is the
      float nearest to a number with one decimal, and the model keeps that
      number.
    - A raised exception is a value: [result A] is either [Ok a] or
      [Raise e].  A function that talks to the game server threads the
      server ([rcon]) through and hands it back also when it raises.
    - The text built by [get_top] is kept as the list of the pieces appended
      to [output], one [chunk] per [output += ...]; [render] turns the list
      into the text. *)

From Stdlib Require Import ZArith QArith Qround Qabs Qpower Bool List String
  Ascii Lia Lqa.
From Stdlib Require Import DecimalString.
From Stdlib Require Import Sorted Permutation.
Import ListNotations.

Open Scope Z_scope.
Open Scope string_scope.

(** ** Exceptions *)

Inductive error : Type :=
| UnboundLocalError (name : string)
| ZeroDivisionError
| KeyError (key : string).

Inductive result (A : Type) : Type :=
| Ok (a : A)
| Raise (e : error).

Arguments Ok {A} a.
Arguments Raise {A} e.

Definition bind {A B : Type} (r : result A) (k : A -> result B) : result B :=
  match r with
  | Ok a => k a
  | Raise e => Raise e
  end.

Notation "x <- r ;; k" := (bind r (fun x => k))
  (at level 61, r at next level, right associativity).

Fixpoint mapM {A B : Type} (f : A -> result B) (l : list A) : result (list B) :=
  match l with
  | [] => Ok []
  | a :: l' => b <- f a ;; bs <- mapM f l' ;; Ok (b :: bs)
  end.

(** ** Configuration *)

(** [LANG]: 0 for english, 1 for french, 2 for german, 3 for brazilian
    portuguese. *)
Inductive language : Type := english | french | german | portuguese.

Record config : Type := {
  LANG : language;
  OFFENSEDEFENSE_RATIO : Q;
  COMBATSUPPORT_RATIO : Q;
  TOPS_CHAT : Z;
  TOPS_CHAT_DETAIL_SQUADS : Z;
  TOPS_MATCHEND : Z;
  TOPS_MATCHEND_DETAIL_SQUADS : Z;
  VIP_WINNERS : Z;
  VIP_COMMANDER_MIN_PLAYTIME_MINS : Z;
  VIP_COMMANDER_MIN_SUPPORT_SCORE : Z;
  SEED_LIMIT : Z;
  VIP_HOURS : Z
}.

(** The values the file ships with. *)
Definition shipped : config := {|
  LANG := english;
  OFFENSEDEFENSE_RATIO := 15 # 10;
  COMBATSUPPORT_RATIO := 15 # 10;
  TOPS_CHAT := 3;
  TOPS_CHAT_DETAIL_SQUADS := 0;
  TOPS_MATCHEND := 3;
  TOPS_MATCHEND_DETAIL_SQUADS := 1;
  VIP_WINNERS := 1;
  VIP_COMMANDER_MIN_PLAYTIME_MINS := 40;
  VIP_COMMANDER_MIN_SUPPORT_SCORE := 2000;
  SEED_LIMIT := 70;
  VIP_HOURS := 14
|}.

Definition with_OFFENSEDEFENSE_RATIO (w : Q) (c : config) : config := {|
  LANG := LANG c;
  OFFENSEDEFENSE_RATIO := w;
  COMBATSUPPORT_RATIO := COMBATSUPPORT_RATIO c;
  TOPS_CHAT := TOPS_CHAT c;
  TOPS_CHAT_DETAIL_SQUADS := TOPS_CHAT_DETAIL_SQUADS c;
  TOPS_MATCHEND := TOPS_MATCHEND c;
  TOPS_MATCHEND_DETAIL_SQUADS := TOPS_MATCHEND_DETAIL_SQUADS c;
  VIP_WINNERS := VIP_WINNERS c;
  VIP_COMMANDER_MIN_PLAYTIME_MINS := VIP_COMMANDER_MIN_PLAYTIME_MINS c;
  VIP_COMMANDER_MIN_SUPPORT_SCORE := VIP_COMMANDER_MIN_SUPPORT_SCORE c;
  SEED_LIMIT := SEED_LIMIT c;
  VIP_HOURS := VIP_HOURS c
|}.

Definition with_COMBATSUPPORT_RATIO (w : Q) (c : config) : config := {|
  LANG := LANG c;
  OFFENSEDEFENSE_RATIO := OFFENSEDEFENSE_RATIO c;
  COMBATSUPPORT_RATIO := w;
  TOPS_CHAT := TOPS_CHAT c;
  TOPS_CHAT_DETAIL_SQUADS := TOPS_CHAT_DETAIL_SQUADS c;
  TOPS_MATCHEND := TOPS_MATCHEND c;
  TOPS_MATCHEND_DETAIL_SQUADS := TOPS_MATCHEND_DETAIL_SQUADS c;
  VIP_WINNERS := VIP_WINNERS c;
  VIP_COMMANDER_MIN_PLAYTIME_MINS := VIP_COMMANDER_MIN_PLAYTIME_MINS c;
  VIP_COMMANDER_MIN_SUPPORT_SCORE := VIP_COMMANDER_MIN_SUPPORT_SCORE c;
  SEED_LIMIT := SEED_LIMIT c;
  VIP_HOURS := VIP_HOURS c
|}.

(** ** Stat records

    One record type serves players and squads: the dictionaries the server
    returns carry the same six counters for both.  A squad has its squad
    name under ["name"]; a player has the squad it belongs to under
    ["unit_name"]. *)

Inductive team_side : Type := allies | axis.

Definition team_eqb (a b : team_side) : bool :=
  match a, b with
  | allies, allies | axis, axis => true
  | _, _ => false
  end.

Record stat : Type := {
  name : string;
  player_id : string;
  team : team_side;
  role : string;
  unit_name : string;
  kills : Z;
  deaths : Z;
  combat : Z;
  offense : Z;
  defense : Z;
  support : Z
}.

(** What [sample[key]] can hold. *)
Inductive value : Type :=
| VStr (s : string)
| VInt (n : Z).

(** The two keys of [TRANSL] that a team is known by. *)
Definition team_name (side : team_side) : string :=
  match side with
  | allies => "allies"
  | axis => "axis"
  end.

(** [obj[key]] on the keys that the plugin reads of a record; a key the
    dictionary has not raises [KeyError]. *)
Definition getitem (obj : stat) (key : string) : result value :=
  if key =? "name" then Ok (VStr (name obj))
  else if key =? "player_id" then Ok (VStr (player_id obj))
  else if key =? "team" then Ok (VStr (team_name (team obj)))
  else if key =? "role" then Ok (VStr (role obj))
  else if key =? "unit_name" then Ok (VStr (unit_name obj))
  else if key =? "kills" then Ok (VInt (kills obj))
  else if key =? "deaths" then Ok (VInt (deaths obj))
  else if key =? "combat" then Ok (VInt (combat obj))
  else if key =? "offense" then Ok (VInt (offense obj))
  else if key =? "defense" then Ok (VInt (defense obj))
  else if key =? "support" then Ok (VInt (support obj))
  else Raise (KeyError key).

(** ** Python arithmetic *)

(** The integer nearest to [t], the even one of the two when [t] is half
    way. *)
Definition round_half_even (t : Q) : Z :=
  let f := Qfloor t in
  match (t - inject_Z f ?= 1 # 2)%Q with
  | Lt => f
  | Gt => f + 1
  | Eq => if Z.even f then f else f + 1
  end.

(** The exponent of a positive rational: [2 ^ exponent a <= a < 2 ^
    (exponent a + 1)]. *)
Definition exponent (a : Q) : Z :=
  let e := Z.log2 (Qnum a) - Z.log2 (Zpos (Qden a)) in
  if Qle_bool (2 ^ e) a then e else e - 1.

(** The exponent of the last of the 53 bits of the doubles next to [a];
    below [2 ^ -1022] the doubles are the multiples of [2 ^ -1074]. *)
Definition grid (a : Q) : Z := Z.max (exponent a - 52) (-1074).

(** The double nearest to [a], for [0 <= a]. *)
Definition nearest (a : Q) : Q :=
  (inject_Z (round_half_even (a / 2 ^ grid a)) * 2 ^ grid a)%Q.

(** The double nearest to [x], in lowest terms. *)
Definition binary64 (x : Q) : Q :=
  Qred (if Qle_bool 0 x then nearest x else - nearest (- x)).

(** [float(n)], the conversion of an [int] that meets a float. *)
Definition float_of_int (n : Z) : Q := binary64 (inject_Z n).

(** [a * b] and [a + b] on floats *)
Definition fmul (a b : Q) : Q := binary64 (a * b).

Definition fadd (a b : Q) : Q := binary64 (a + b).

(** [a / b] on floats; on two integers too, whose quotient Python rounds
    once. *)
Definition truediv (a b : Q) : result Q :=
  if Qeq_bool b 0 then Raise ZeroDivisionError else Ok (binary64 (a / b)).

(** [int(x)] *)
Definition py_int (x : Q) : Z :=
  if Qle_bool 0 x then Qfloor x else Qceiling x.

(** [round(x, 1)] on the float [x]: the decimal expansion of [x] is rounded
    to one decimal, half to even, and the result is the double nearest to
    that number [n / 10].  The model keeps [n / 10] itself: it is how the
    result prints, and up to [2 ^ 48] two such numbers are floats in the
    order they are in. *)
Definition round1 (x : Q) : Q := Qred (round_half_even (x * 10) # 10).

Definition Qltb (a b : Q) : bool := negb (Qle_bool b a).

(** ** The four metrics

    The two weights are floats of the configuration; a weight written as an
    integer gives the same scores as long as the products stay below
    [2 ^ 53]. *)

Definition ratio (obj : stat) : result Q :=
  let deaths := deaths obj in
  let deaths := if (deaths =? 0)%Z then 1 else deaths in
  computed_ratio <- truediv (inject_Z (kills obj)) (inject_Z deaths) ;;
  Ok (round1 computed_ratio).

Definition real_offdef (cfg : config) (obj : stat) : result Q :=
  if Qeq_bool (OFFENSEDEFENSE_RATIO cfg) 0 then
    Ok (inject_Z (offense obj * defense obj))
  else
    Ok (inject_Z (py_int (fmul (float_of_int (offense obj))
                               (fmul (float_of_int (defense obj))
                                     (binary64 (Qabs (OFFENSEDEFENSE_RATIO cfg))))))).

Definition teamplay (cfg : config) (obj : stat) : result Q :=
  if Qeq_bool (COMBATSUPPORT_RATIO cfg) 0 then
    Ok (inject_Z (combat obj + support obj))
  else
    Ok (inject_Z (py_int (fadd (float_of_int (combat obj))
                               (fmul (float_of_int (support obj))
                                     (binary64 (Qabs (COMBATSUPPORT_RATIO cfg))))))).

Definition killrate (obj : stat) : result Q :=
  let kills := kills obj in
  let offense := offense obj in
  let defense := defense obj in
  if (kills =? 0)%Z then Ok 0%Q
  else if (offense =? 0)%Z && (defense =? 0)%Z then Ok 0%Q
  else
    minutes <- truediv (inject_Z (offense + defense)) 20 ;;
    rate <- truediv (float_of_int kills) minutes ;;
    Ok (round1 rate).

(** ** The game server

    [rcon] is the connection the plugin is handed.  Of the server the model
    keeps what [get_top] reads: the VIP list, the number of players in game
    and the clock; [calls] logs the requests that [get_top] and the two
    functions it calls send, oldest first.  Times are seconds (UTC), and the
    clock stands still while a hook runs; an expiration of [None] is a VIP
    that never expires. *)

Record vip_item : Type := {
  vip_player_id : string;
  vip_name : string;
  vip_expiration : option Z
}.

(** The requests of [get_top], [is_vip_for_less_than_xh] and
    [give_xh_vip]; those of the hooks and of [message_all_players] are the
    [request]s further down. *)
Inductive rcon_call : Type :=
| GetStatus
| GetVipIds
| AddVip (player_id name : string) (expiration : Z).

Record rcon : Type := {
  vips : list vip_item;
  current_players : Z;
  now : Z;
  calls : list rcon_call
}.

Definition logged (c : rcon_call) (r : rcon) : rcon :=
  {| vips := vips r; current_players := current_players r; now := now r;
     calls := calls r ++ [c] |}.

(** [rcon.get_status()["current_players"]] *)
Definition get_status (r : rcon) : Z * rcon :=
  (current_players r, logged GetStatus r).

(** [rcon.get_vip_ids()] *)
Definition get_vip_ids (r : rcon) : list vip_item * rcon :=
  (vips r, logged GetVipIds r).

(** [rcon.add_vip(player_id, name, expiration)]: the server keeps one entry
    per player, the new one replaces what the player had. *)
Definition add_vip (player_id name : string) (expiration : Z) (r : rcon) : rcon :=
  let others := filter (fun item => negb (vip_player_id item =? player_id)) (vips r) in
  {| vips := others ++ [{| vip_player_id := player_id; vip_name := name;
                           vip_expiration := Some expiration |}];
     current_players := current_players r;
     now := now r;
     calls := calls r ++ [AddVip player_id name expiration] |}.

(** [timedelta(hours=h)] in seconds *)
Definition hours (h : Z) : Z := h * 3600.

(** ** is_vip_for_less_than_xh *)

(** The [for item in actual_vips] loop, with its two [return]s and the
    [return True] that follows it. *)
Fixpoint vip_scan (actual_vips : list vip_item) (player_id : string)
    (deadline : Z) : bool :=
  match actual_vips with
  | [] => true
  | item :: rest =>
      match vip_player_id item =? player_id, vip_expiration item with
      | true, Some vip_expiration =>
          if (vip_expiration <? deadline)%Z then true else false
      | _, _ => vip_scan rest player_id deadline
      end
  end.

Definition is_vip_for_less_than_xh (r : rcon) (player_id : string)
    (vip_delay_hours : Z) : bool * rcon :=
  let '(actual_vips, r) := get_vip_ids r in
  (vip_scan actual_vips player_id (now r + hours vip_delay_hours), r).

(** ** The pieces of the text *)

Inductive chunk : Type :=
| SquadMark
| FieldsLine (first : value) (side : team_side) (second third : value)
| ScoreLine (first : value) (side : team_side) (score : Q)
| MembersLine (names : list string)
| VipUntil (expiration : Z)
| AlreadyVip.

(** ** give_xh_vip *)

Definition give_xh_vip (r : rcon) (player_id player_name : string)
    (hours_awarded : Z) : chunk * rcon :=
  let combined_name := player_name ++ " Top-Player" in
  let now_plus_xh := now r + hours hours_awarded in
  let r := add_vip player_id combined_name now_plus_xh r in
  (VipUntil now_plus_xh, r).

(** ** sorted(data_bucket, key=sortkey, reverse=True)

    The keys are computed first, one call per record and in the order of
    the bucket; then the records are put in descending order of key, records
    of equal key staying in the order they had. *)

Fixpoint insert_desc (x : Q * stat) (l : list (Q * stat)) : list (Q * stat) :=
  match l with
  | [] => [x]
  | y :: l' => if Qltb (fst x) (fst y) then y :: insert_desc x l' else x :: l
  end.

Fixpoint sort_desc (l : list (Q * stat)) : list (Q * stat) :=
  match l with
  | [] => []
  | x :: l' => insert_desc x (sort_desc l')
  end.

Definition keyed (sortkey : stat -> result Q) (obj : stat) : result (Q * stat) :=
  k <- sortkey obj ;; Ok (k, obj).

Definition sorted_reverse (data_bucket : list stat) (sortkey : stat -> result Q)
    : result (list stat) :=
  decorated <- mapM (keyed sortkey) data_bucket ;;
  Ok (map snd (sort_desc decorated)).

(** [l[:n]] *)
Definition slice_to {A : Type} (n : Z) (l : list A) : list A :=
  if (n <? 0)%Z then firstn (Z.to_nat (Z.of_nat (List.length l) + n)) l
  else firstn (Z.to_nat n) l.

(** ** get_top *)

(** The three local variables that [get_top] binds under a test on
    [callmode]; [None] is a name not yet bound. *)
Record locals : Type := {
  tops_limit : option Z;
  show_members : option Z;
  server_status : option Z
}.

Definition unbound : locals :=
  {| tops_limit := None; show_members := None; server_status := None |}.

(** Reading a local variable. *)
Definition local {A : Type} (name : string) (v : option A) : result A :=
  match v with
  | Some a => Ok a
  | None => Raise (UnboundLocalError name)
  end.

Section Loop.

Variable cfg : config.
Variables callmode calltype : string.
Variable sortkey : stat -> result Q.
Variables first_data second_data third_data fourth_data : string.
Variable squadtype_allplayers : list stat.
Variable vars : locals.
Variable sorted_data : list stat.

(** The line of a record: the two branches on [fourth_data]. *)
Definition sample_line (sample : stat) : result (list chunk) :=
  if fourth_data =? "" then
    v1 <- getitem sample first_data ;;
    v2 <- getitem sample second_data ;;
    v3 <- getitem sample third_data ;;
    Ok ((if calltype =? "squad" then [SquadMark] else [])
        ++ [FieldsLine v1 (team sample) v2 v3])%list
  else
    v1 <- getitem sample first_data ;;
    score <- sortkey sample ;;
    Ok [ScoreLine v1 (team sample) score].

(** The list comprehension and the [join] of the "Squad members" loop. *)
Definition best_players (sample_vip : stat) : chunk :=
  MembersLine
    (map name
       (filter (fun data => team_eqb (team data) (team sample_vip)
                            && (unit_name data =? name sample_vip))
          squadtype_allplayers)).

(** The "Squad members" block. *)
Definition squad_members (iteration : Z) : result (list chunk) :=
  if calltype =? "squad" then
    show <- local "show_members" (show_members vars) ;;
    if (0 <? show)%Z && (iteration <=? show)%Z
    then Ok (map best_players (slice_to show sorted_data))
    else Ok []
  else Ok [].

(** What the [if sortkey(sample) != 0] block appends to [output]. *)
Definition listing (sample : stat) (iteration : Z) : result (list chunk) :=
  score <- sortkey sample ;;
  if negb (Qeq_bool score 0) then
    line <- sample_line sample ;;
    members <- squad_members iteration ;;
    Ok (line ++ members)%list
  else Ok [].

(** The condition of the "Give VIP to players" block. *)
Definition vip_gate (iteration : Z) : result bool :=
  if (callmode =? "matchend") && (calltype =? "player")
     && (0 <? VIP_WINNERS cfg)%Z && (0 <? VIP_HOURS cfg)%Z
  then
    players <- local "server_status" (server_status vars) ;;
    Ok ((SEED_LIMIT cfg <=? players)%Z
        && negb (second_data =? "kills")
        && (iteration <=? VIP_WINNERS cfg)%Z)
  else Ok false.

(** The condition of the [continue]: a commander who came in late.  The
    minutes are compared as the exact quotient, which is under the minimum
    just when the float quotient is, the minimum being far below [2 ^ 48]
    minutes. *)
Definition late_commander (sample : stat) : bool :=
  (role sample =? "armycommander")
  && (Qltb (inject_Z (offense sample + defense sample) / 20)
           (inject_Z (VIP_COMMANDER_MIN_PLAYTIME_MINS cfg))
      || (support sample <? VIP_COMMANDER_MIN_SUPPORT_SCORE cfg)%Z).

(** One turn of the [for sample in ...] loop: the value of [iteration]
    and of [output] at the end of the turn.  The [continue] leaves
    [iteration] as it was. *)
Definition turn (sample : stat) (iteration : Z) (output : list chunk)
    (r : rcon) : result (Z * list chunk) * rcon :=
  match listing sample iteration with
  | Raise e => (Raise e, r)
  | Ok lines =>
      let output := (output ++ lines)%list in
      match vip_gate iteration with
      | Raise e => (Raise e, r)
      | Ok false => (Ok (iteration + 1, output), r)
      | Ok true =>
          if late_commander sample then (Ok (iteration, output), r)
          else
            let '(less, r) :=
              is_vip_for_less_than_xh r (player_id sample) (VIP_HOURS cfg) in
            if less then
              let '(text, r) :=
                give_xh_vip r (player_id sample) (name sample) (VIP_HOURS cfg) in
              (Ok (iteration + 1, (output ++ [text])%list), r)
            else
              (Ok (iteration + 1, (output ++ [AlreadyVip])%list), r)
      end
  end.

Fixpoint loop (samples : list stat) (iteration : Z) (output : list chunk)
    (r : rcon) : result (list chunk) * rcon :=
  match samples with
  | [] => (Ok output, r)
  | sample :: rest =>
      match turn sample iteration output r with
      | (Ok (iteration, output), r) => loop rest iteration output r
      | (Raise e, r) => (Raise e, r)
      end
  end.

End Loop.

Definition get_top (cfg : config) (r : rcon) (callmode calltype : string)
    (data_bucket : list stat) (sortkey : stat -> result Q)
    (first_data second_data third_data fourth_data : string)
    (squadtype_allplayers : list stat) : result (list chunk) * rcon :=
  let vars := unbound in
  let vars :=
    if callmode =? "chat" then
      {| tops_limit := Some (TOPS_CHAT cfg);
         show_members := Some (TOPS_CHAT_DETAIL_SQUADS cfg);
         server_status := server_status vars |}
    else vars in
  let '(vars, r) :=
    if callmode =? "matchend" then
      let '(players, r) := get_status r in
      ({| tops_limit := Some (TOPS_MATCHEND cfg);
          show_members := Some (TOPS_MATCHEND_DETAIL_SQUADS cfg);
          server_status := Some players |}, r)
    else (vars, r) in
  match sorted_reverse data_bucket sortkey with
  | Raise e => (Raise e, r)
  | Ok sorted_data =>
      match local "tops_limit" (tops_limit vars) with
      | Raise e => (Raise e, r)
      | Ok limit =>
          loop cfg callmode calltype sortkey
            first_data second_data third_data fourth_data
            squadtype_allplayers vars sorted_data
            (slice_to limit sorted_data) 1 [] r
      end
  end.

(** ** stats_gather

    [team_view_stats] sorts what the server reports into five buckets;
    [stats_gather] names the squads and builds the nine listings from them,
    in this order.  The buckets are taken as they come out of those two
    steps. *)

Record team_view : Type := {
  all_commanders : list stat;
  all_players_infantry : list stat;
  all_players_armor : list stat;
  all_squads_infantry : list stat;
  all_squads_armor : list stat
}.

Record tops : Type := {
  top_commanders_teamplay : list chunk;
  top_infantry_offdef : list chunk;
  top_infantry_teamplay : list chunk;
  top_infantry_ratio : list chunk;
  top_infantry_killrate : list chunk;
  top_squads_infantry_offdef : list chunk;
  top_squads_infantry_teamplay : list chunk;
  top_squads_armor_offdef : list chunk;
  top_squads_armor_teamplay : list chunk
}.

(** Sequencing of calls that use the server. *)
Definition and_then {A B : Type} (m : result A * rcon)
    (k : A -> rcon -> result B * rcon) : result B * rcon :=
  match m with
  | (Ok a, r) => k a r
  | (Raise e, r) => (Raise e, r)
  end.

Notation "'call' x 'with' r <- m ;; k" := (and_then m (fun x r => k))
  (at level 61, x name, r name, m at next level, right associativity).

Definition stats_gather (cfg : config) (r : rcon) (callmode : string)
    (view : team_view) : result tops * rcon :=
  call t1 with r <- get_top cfg r callmode "player" (all_commanders view)
             (teamplay cfg) "name" "combat" "support" "" (all_commanders view) ;;
  call t2 with r <- get_top cfg r callmode "player" (all_players_infantry view)
             (real_offdef cfg) "name" "offense" "defense" "" (all_players_infantry view) ;;
  call t3 with r <- get_top cfg r callmode "player" (all_players_infantry view)
             (teamplay cfg) "name" "combat" "support" "" (all_players_infantry view) ;;
  call t4 with r <- get_top cfg r callmode "player" (all_players_infantry view)
             ratio "name" "kills" "deaths" "" (all_players_infantry view) ;;
  call t5 with r <- get_top cfg r callmode "player" (all_players_infantry view)
             killrate "name" "kills" "offense" "defense" (all_players_infantry view) ;;
  call t6 with r <- get_top cfg r callmode "squad" (all_squads_infantry view)
             (real_offdef cfg) "name" "offense" "defense" "" (all_players_infantry view) ;;
  call t7 with r <- get_top cfg r callmode "squad" (all_squads_infantry view)
             (teamplay cfg) "name" "combat" "support" "" (all_players_infantry view) ;;
  call t8 with r <- get_top cfg r callmode "squad" (all_squads_armor view)
             (real_offdef cfg) "name" "offense" "defense" "" (all_players_armor view) ;;
  call t9 with r <- get_top cfg r callmode "squad" (all_squads_armor view)
             (teamplay cfg) "name" "combat" "support" "" (all_players_armor view) ;;
  (Ok {| top_commanders_teamplay := t1;
         top_infantry_offdef := t2;
         top_infantry_teamplay := t3;
         top_infantry_ratio := t4;
         top_infantry_killrate := t5;
         top_squads_infantry_offdef := t6;
         top_squads_infantry_teamplay := t7;
         top_squads_armor_offdef := t8;
         top_squads_armor_teamplay := t9 |}, r).

(** ** The text

    [TRANSL[key][LANG]] for the four keys [get_top] and [give_xh_vip] use,
    and the f-strings.  The local time of the VIP announce needs the time
    zone tables: its formatting is left to [strftime_local]. *)

Definition pick (lang : language) (en fr de pt : string) : string :=
  match lang with
  | english => en
  | french => fr
  | german => de
  | portuguese => pt
  end.

Definition TRANSL_team (side : team_side) (lang : language) : string :=
  match side with
  | allies => pick lang "all" "all" "Allierte" "ALIADOS"
  | axis => pick lang "axi" "axe" "Achsenmächte" "EIXO"
  end.

Definition TRANSL_vip_until (lang : language) : string :=
  pick lang "VIP until" "VIP jusqu'au" "VIP bis" "VIP ATÉ".

Definition TRANSL_already_vip (lang : language) : string :=
  pick lang "Already VIP !" "Déjà VIP !" "bereits VIP !" "JÁ É VIP!".

Definition newline : string := String (ascii_of_nat 10) EmptyString.

Definition str_int (n : Z) : string := NilZero.string_of_int (Z.to_int n).

Definition str_value (v : value) : string :=
  match v with
  | VStr s => s
  | VInt n => str_int n
  end.

(** A score rounded to one decimal, as a float prints. *)
Definition str_score (q : Q) : string :=
  let tenths := Qfloor (q * 10) in
  let a := Z.abs tenths in
  (if (tenths <? 0)%Z then "-" else "")
  ++ str_int (a / 10) ++ "." ++ str_int (a mod 10).

Section Render.

Variable cfg : config.
Variable strftime_local : Z -> string.

Definition render_chunk (c : chunk) : string :=
  match c with
  | SquadMark => "■ "
  | FieldsLine first side second third =>
      str_value first ++ " (" ++ TRANSL_team side (LANG cfg) ++ "): "
      ++ str_value second ++ " ; " ++ str_value third ++ newline
  | ScoreLine first side score =>
      str_value first ++ " (" ++ TRANSL_team side (LANG cfg) ++ "): "
      ++ str_score score ++ newline
  | MembersLine names => String.concat "; " names ++ newline
  | VipUntil expiration =>
      TRANSL_vip_until (LANG cfg) ++ " " ++ strftime_local expiration
      ++ " !" ++ newline
  | AlreadyVip => TRANSL_already_vip (LANG cfg) ++ newline
  end.

Definition render (output : list chunk) : string :=
  String.concat "" (map render_chunk output).

End Render.

(** ** team_view_stats

    What [get_team_view] returns, as far as the plugin reads it.  A squad
    has a type, its players and its own counters; a team has a commander,
    or none, and its squads by name, in the order of the dictionary.  A team
    that is no key of the dictionary is [None]. *)

Record squad_data : Type := {
  squad_type : string;
  squad_players : list stat;
  squad_kills : Z;
  squad_deaths : Z;
  squad_combat : Z;
  squad_offense : Z;
  squad_defense : Z;
  squad_support : Z
}.

Record team_data : Type := {
  commander : option stat;
  squads : list (string * squad_data)
}.

(** The dictionary of a squad once [squad_data["team"] = team] is done and
    its players are popped. *)
Record squad_stats : Type := {
  stats_team : team_side;
  stats_type : string;
  stats_kills : Z;
  stats_deaths : Z;
  stats_combat : Z;
  stats_offense : Z;
  stats_defense : Z;
  stats_support : Z
}.

Definition detached (team : team_side) (data : squad_data) : squad_stats :=
  {| stats_team := team;
     stats_type := squad_type data;
     stats_kills := squad_kills data;
     stats_deaths := squad_deaths data;
     stats_combat := squad_combat data;
     stats_offense := squad_offense data;
     stats_defense := squad_defense data;
     stats_support := squad_support data |}.

(** The five lists that [team_view_stats] fills and returns; a squad is the
    dictionary [{squad: squad_data}]. *)
Record gathered : Type := {
  commanders : list stat;
  players_infantry : list stat;
  players_armor : list stat;
  squads_infantry : list (string * squad_stats);
  squads_armor : list (string * squad_stats)
}.

Definition nothing_gathered : gathered :=
  {| commanders := []; players_infantry := []; players_armor := [];
     squads_infantry := []; squads_armor := [] |}.

(** One turn of [for squad in get_team_view[team]["squads"]]. *)
Definition gather_squad (team : team_side) (acc : gathered)
    (item : string * squad_data) : gathered :=
  let '(squad, data) := item in
  if (squad_type data =? "infantry") || (squad_type data =? "recon") then
    {| commanders := commanders acc;
       players_infantry := players_infantry acc ++ squad_players data;
       players_armor := players_armor acc;
       squads_infantry := squads_infantry acc ++ [(squad, detached team data)];
       squads_armor := squads_armor acc |}
  else if squad_type data =? "armor" then
    {| commanders := commanders acc;
       players_infantry := players_infantry acc;
       players_armor := players_armor acc ++ squad_players data;
       squads_infantry := squads_infantry acc;
       squads_armor := squads_armor acc ++ [(squad, detached team data)] |}
  else acc.

(** One turn of [for team in ["allies", "axis"]]. *)
Definition gather_team (get_team_view : team_side -> option team_data)
    (acc : gathered) (team : team_side) : gathered :=
  match get_team_view team with
  | None => acc
  | Some info =>
      let acc :=
        match commander info with
        | Some c =>
            {| commanders := commanders acc ++ [c];
               players_infantry := players_infantry acc;
               players_armor := players_armor acc;
               squads_infantry := squads_infantry acc;
               squads_armor := squads_armor acc |}
        | None => acc
        end in
      fold_left (gather_squad team) (squads info) acc
  end.

Definition team_view_stats (get_team_view : team_side -> option team_data)
    : gathered :=
  fold_left (gather_team get_team_view) [allies; axis] nothing_gathered.

(** [{'name': key, **value}]: the squad as a record with its name.  A squad
    has no role, player id or unit name; [get_top] reads none of them for a
    squad. *)
Definition named (item : string * squad_stats) : stat :=
  let '(key, value) := item in
  {| name := key; player_id := ""; team := stats_team value; role := "";
     unit_name := "";
     kills := stats_kills value; deaths := stats_deaths value;
     combat := stats_combat value; offense := stats_offense value;
     defense := stats_defense value; support := stats_support value |}.

(** The five buckets as [stats_gather] hands them to [get_top]. *)
Definition buckets (g : gathered) : team_view :=
  {| all_commanders := commanders g;
     all_players_infantry := players_infantry g;
     all_players_armor := players_armor g;
     all_squads_infantry := map named (squads_infantry g);
     all_squads_armor := map named (squads_armor g) |}.

(** [stats_gather] from what the server reports. *)
Definition stats_gather_live (cfg : config) (r : rcon) (callmode : string)
    (get_team_view : team_side -> option team_data) : result tops * rcon :=
  stats_gather cfg r callmode (buckets (team_view_stats get_team_view)).

(** ** stats_display

    The other entries of [TRANSL], and the report.  [str_number] is [str]
    on the weight, a number of the configuration. *)

Definition TRANSL_nostatsyet (lang : language) : string :=
  pick lang "No stats yet" "Pas de stats" "noch keine Statistiken"
    "Sem estatísticas ainda".

Definition TRANSL_best_players (lang : language) : string :=
  pick lang "Best players" "Meilleurs joueurs" "Beste Spieler"
    "TOP »BAIN« PLAYERS".

Definition TRANSL_armycommander (lang : language) : string :=
  pick lang "Commander" "Commandant" "Kommandant" "TOP COMANDANTE".

Definition TRANSL_infantry (lang : language) : string :=
  pick lang "Infantry" "Infanterie" "Infanterie" "TOP INFANTARIA".

Definition TRANSL_tankers (lang : language) : string :=
  pick lang "Tankers" "Tankistes" "Panzerspieler" "TOP TANKISTA".

Definition TRANSL_best_squads (lang : language) : string :=
  pick lang "Best squads" "Meilleures squads" "Beste Mannschaften"
    "TOP ESQUADRÃO".

Definition TRANSL_offense (lang : language) : string :=
  pick lang "attack" "attaque" "Angriff" "ATAQUE".

Definition TRANSL_defense (lang : language) : string :=
  pick lang "defense" "défense" "Verteidigung" "DEFESA".

Definition TRANSL_combat (lang : language) : string :=
  pick lang "combat" "combat" "Kampf" "COMBATE".

Definition TRANSL_support (lang : language) : string :=
  pick lang "support" "soutien" "Unterstützung" "SUPORTE".

Definition TRANSL_ratio (lang : language) : string :=
  pick lang "ratio" "ratio" "Verhältnis" "PROPORÇÃO".

Definition TRANSL_killrate (lang : language) : string :=
  pick lang "kills/min" "kills/min" "Kills/min" "ABATERS/MIN".

(** [len(s) != 0] *)
Definition nonempty (s : string) : bool :=
  negb (String.length s =? 0)%nat.

Section Display.

Variable cfg : config.
Variable str_number : Q -> string.

(** The two headings of a listing: offense / defense, combat / support. *)
Definition offdef_block (top : string) : string :=
  "─ " ++ TRANSL_offense (LANG cfg) ++ " / " ++ TRANSL_defense (LANG cfg)
  ++ " ─" ++ newline ++ top ++ newline.

Definition teamplay_block (top : string) : string :=
  "─ " ++ TRANSL_combat (LANG cfg) ++ " / " ++ TRANSL_support (LANG cfg)
  ++ " ─" ++ newline ++ top ++ newline.

(** [message] at the end of the block of the players. *)
Definition display_players (top_commanders_teamplay top_infantry_offdef
    top_infantry_teamplay top_infantry_ratio top_infantry_killrate : string)
    : string :=
  let offensedefense_ratio :=
    if Qeq_bool (OFFENSEDEFENSE_RATIO cfg) 0 then 1%Q
    else Qabs (OFFENSEDEFENSE_RATIO cfg) in
  let combatsupport_ratio :=
    if Qeq_bool (COMBATSUPPORT_RATIO cfg) 0 then 1%Q
    else Qabs (COMBATSUPPORT_RATIO cfg) in
  let message := "" in
  if nonempty top_commanders_teamplay
     || nonempty top_infantry_offdef
     || nonempty top_infantry_teamplay
     || nonempty top_infantry_ratio
     || nonempty top_infantry_killrate
  then
    let message :=
      "█ " ++ TRANSL_best_players (LANG cfg) ++ " █" ++ newline ++ newline in
    let message :=
      if nonempty top_commanders_teamplay then
        message
        ++ ("▓ " ++ TRANSL_armycommander (LANG cfg) ++ " ▓" ++ newline ++ newline
            ++ "─ " ++ TRANSL_combat (LANG cfg) ++ " + ("
            ++ TRANSL_support (LANG cfg) ++ " * "
            ++ str_number combatsupport_ratio ++ ") ─" ++ newline
            ++ top_commanders_teamplay ++ newline)
      else message in
    if nonempty top_infantry_offdef
       || nonempty top_infantry_teamplay
       || nonempty top_infantry_ratio
       || nonempty top_infantry_killrate
    then
      let message :=
        message ++ ("▓ " ++ TRANSL_infantry (LANG cfg) ++ " ▓" ++ newline
                    ++ newline) in
      let message :=
        if nonempty top_infantry_offdef
        then message ++ offdef_block top_infantry_offdef else message in
      let message :=
        if nonempty top_infantry_teamplay
        then message ++ teamplay_block top_infantry_teamplay else message in
      let message :=
        if nonempty top_infantry_ratio
        then message ++ ("─ " ++ TRANSL_ratio (LANG cfg) ++ " ─" ++ newline
                         ++ top_infantry_ratio ++ newline)
        else message in
      let message :=
        if nonempty top_infantry_killrate
        then message ++ ("─ " ++ TRANSL_killrate (LANG cfg) ++ " ─" ++ newline
                         ++ top_infantry_killrate ++ newline)
        else message in
      message
    else message
  else message.

(** [message] at the end of the block of the squads. *)
Definition display_squads (message top_squads_infantry_offdef
    top_squads_infantry_teamplay top_squads_armor_offdef
    top_squads_armor_teamplay : string) : string :=
  if nonempty top_squads_infantry_offdef
     || nonempty top_squads_infantry_teamplay
     || nonempty top_squads_armor_offdef
     || nonempty top_squads_armor_teamplay
  then
    let message :=
      message ++ (newline ++ "█ " ++ TRANSL_best_squads (LANG cfg) ++ " █"
                  ++ newline ++ newline) in
    let message :=
      if nonempty top_squads_infantry_offdef
         || nonempty top_squads_infantry_teamplay
      then
        let message :=
          message ++ ("▓ " ++ TRANSL_infantry (LANG cfg) ++ " ▓" ++ newline
                      ++ newline) in
        let message :=
          if nonempty top_squads_infantry_offdef
          then message ++ offdef_block top_squads_infantry_offdef
          else message in
        let message :=
          if nonempty top_squads_infantry_teamplay
          then message ++ teamplay_block top_squads_infantry_teamplay
          else message in
        message
      else message in
    let message :=
      if nonempty top_squads_armor_offdef
         || nonempty top_squads_armor_teamplay
      then
        let message :=
          message ++ ("▓ " ++ TRANSL_tankers (LANG cfg) ++ " ▓" ++ newline
                      ++ newline) in
        let message :=
          if nonempty top_squads_armor_offdef
          then message ++ offdef_block top_squads_armor_offdef
          else message in
        let message :=
          if nonempty top_squads_armor_teamplay
          then message ++ teamplay_block top_squads_armor_teamplay
          else message in
        message
      else message in
    message
  else message.

Definition stats_display (top_commanders_teamplay top_infantry_offdef
    top_infantry_teamplay top_infantry_ratio top_infantry_killrate
    top_squads_infantry_offdef top_squads_infantry_teamplay
    top_squads_armor_offdef top_squads_armor_teamplay : string) : string :=
  let message :=
    display_players top_commanders_teamplay top_infantry_offdef
      top_infantry_teamplay top_infantry_ratio top_infantry_killrate in
  let message :=
    display_squads message top_squads_infantry_offdef
      top_squads_infantry_teamplay top_squads_armor_offdef
      top_squads_armor_teamplay in
  if (String.length message =? 0)%nat then TRANSL_nostatsyet (LANG cfg)
  else message.

End Display.

(** ** message_all_players and the two hooks

    The game server as the hooks see it: the connection of [get_top], what
    [get_team_view] and [get_playerids] return, the players whom a message
    cannot reach ([message_player] raises for them), and the messages that
    were delivered, oldest first, each with the id of the player.  The
    requests that the hooks send themselves on the connection are logged in
    [asked], oldest first; those of [get_top] are in [calls] of [link]. *)

Inductive request : Type :=
| GetTeamView
| GetPlayerIds
| MessagePlayer (player_id message : string).

Record game : Type := {
  link : rcon;
  reported : team_side -> option team_data;
  connected : list (string * string);
  unreachable : string -> bool;
  inbox : list (string * string);
  asked : list request
}.

Definition with_link (r : rcon) (g : game) : game :=
  {| link := r; reported := reported g; connected := connected g;
     unreachable := unreachable g; inbox := inbox g; asked := asked g |}.

Definition asking (q : request) (g : game) : game :=
  {| link := link g; reported := reported g; connected := connected g;
     unreachable := unreachable g; inbox := inbox g;
     asked := asked g ++ [q] |}.

(** [rcon.get_team_view()] *)
Definition get_team_view (g : game)
    : (team_side -> option team_data) * game :=
  (reported g, asking GetTeamView g).

(** [rcon.get_playerids()] *)
Definition get_playerids (g : game) : list (string * string) * game :=
  (connected g, asking GetPlayerIds g).

(** [rcon.message_player(player_id=..., message=...)]; [false] when it
    raises. *)
Definition message_player (g : game) (player_id message : string)
    : bool * game :=
  let g := asking (MessagePlayer player_id message) g in
  if unreachable g player_id then (false, g)
  else (true, {| link := link g; reported := reported g;
                 connected := connected g; unreachable := unreachable g;
                 inbox := inbox g ++ [(player_id, message)];
                 asked := asked g |}).

(** The [for player in all_players_list] loop with its [try]. *)
Fixpoint message_each (all_players_list : list (string * string))
    (message : string) (g : game) : game :=
  match all_players_list with
  | [] => g
  | player :: rest =>
      let player_name := fst player in
      let player_id := snd player in
      match message_player g player_id message with
      | (true, g) => message_each rest message g
      | (false, g) => message_each rest message g
      end
  end.

Definition message_all_players (g : game) (message : string) : game :=
  let '(all_players_list, g) := get_playerids g in
  message_each all_players_list message g.

(** [stats_gather(rcon, callmode)] with the request of [team_view_stats]. *)
Definition stats_gather_on (cfg : config) (g : game) (callmode : string)
    : result tops * game :=
  let '(view, g) := get_team_view g in
  let '(boards, r) := stats_gather_live cfg (link g) callmode view in
  (boards, with_link r g).

(** The settings of the hooks, and what they read of the log line. *)
Record hook_settings : Type := {
  ENABLE_ON_SERVERS : list string;
  CHAT_COMMAND : string
}.

Definition shipped_hooks : hook_settings :=
  {| ENABLE_ON_SERVERS := ["1"]; CHAT_COMMAND := "!top" |}.

Record struct_log : Type := {
  sub_content : option string;
  player_id_1 : option string
}.

(** How a hook ends: it returns, or [stats_gather] raises, or the message
    to the player raises. *)
Inductive outcome : Type :=
| Returned
| Raised (e : error)
| MessageFailed.

Section Hooks.

Variable cfg : config.
Variable hooks : hook_settings.
Variable strftime_local : Z -> string.
Variable str_number : Q -> string.
(** [get_server_number()] *)
Variable server_number : string.

(** [stats_display] on the nine listings of [stats_gather]. *)
Definition report (boards : tops) : string :=
  stats_display cfg str_number
    (render cfg strftime_local (top_commanders_teamplay boards))
    (render cfg strftime_local (top_infantry_offdef boards))
    (render cfg strftime_local (top_infantry_teamplay boards))
    (render cfg strftime_local (top_infantry_ratio boards))
    (render cfg strftime_local (top_infantry_killrate boards))
    (render cfg strftime_local (top_squads_infantry_offdef boards))
    (render cfg strftime_local (top_squads_infantry_teamplay boards))
    (render cfg strftime_local (top_squads_armor_offdef boards))
    (render cfg strftime_local (top_squads_armor_teamplay boards)).

Definition stats_on_chat_command (g : game) (log : struct_log)
    : outcome * game :=
  if existsb (String.eqb server_number) (ENABLE_ON_SERVERS hooks) then
    match sub_content log with
    | None => (Returned, g)
    | Some chat_message =>
        match player_id_1 log with
        | None => (Returned, g)
        | Some player_id =>
            if chat_message =? CHAT_COMMAND hooks then
              match stats_gather_on cfg g "chat" with
              | (Raise e, g) => (Raised e, g)
              | (Ok boards, g) =>
                  let message := report boards in
                  match message_player g player_id message with
                  | (true, g) => (Returned, g)
                  | (false, g) => (MessageFailed, g)
                  end
              end
            else (Returned, g)
        end
    end
  else (Returned, g).

Definition stats_on_match_end (g : game) (log : struct_log)
    : outcome * game :=
  if existsb (String.eqb server_number) (ENABLE_ON_SERVERS hooks) then
    match stats_gather_on cfg g "matchend" with
    | (Raise e, g) => (Raised e, g)
    | (Ok boards, g) =>
        let message := report boards in
        if negb (message =? TRANSL_nostatsyet (LANG cfg)) then
          (Returned, message_all_players g message)
        else (Returned, g)
    end
  else (Returned, g).

End Hooks.

(** * Vocabulary of the properties *)

(** [r] is a number with one decimal, and none is nearer to [x]. *)
Definition one_decimal (x r : Q) : Prop :=
  exists n : Z, r = Qred (n # 10) /\ (Qabs (r - x) <= 1 # 20)%Q.

(** [f] is [x] up to the rounding of one operation on floats: the 53 bits
    of a double, or the step of the smallest doubles. *)
Definition float_near (x f : Q) : Prop :=
  (Qabs (f - x) <= x * 2 ^ (-53) + 2 ^ (-1075))%Q.

(** The order of the sorted list: the key of [a] is at least the key of
    [b]. *)
Definition desc (a b : Q * stat) : Prop := (fst b <= fst a)%Q.

(** The records with their keys. *)
Definition decorate (key : stat -> Q) (l : list stat) : list (Q * stat) :=
  map (fun obj => (key obj, obj)) l.

Definition by_key_desc (key : stat -> Q) (a b : stat) : Prop := (key b <= key a)%Q.

(** The keys of a stat record. *)
Definition has_key (key : string) : bool :=
  existsb (String.eqb key)
    ["name"; "player_id"; "team"; "role"; "unit_name"; "kills"; "deaths";
     "combat"; "offense"; "defense"; "support"].

(** The lines that show a record, and the two texts about the VIP. *)
Definition is_line (c : chunk) : bool :=
  match c with
  | FieldsLine _ _ _ _ | ScoreLine _ _ _ => true
  | _ => false
  end.

Definition is_vip_text (c : chunk) : bool :=
  match c with
  | VipUntil _ | AlreadyVip => true
  | _ => false
  end.

(** A record is shown when its score is not 0. *)
Definition shown (score : Q) : bool := negb (Qeq_bool score 0).

(** The line of a record, without the mark of a squad. *)
Definition entry (sortkey : stat -> result Q)
    (first_data second_data third_data fourth_data : string)
    (sample : stat) : result chunk :=
  if fourth_data =? "" then
    v1 <- getitem sample first_data ;;
    v2 <- getitem sample second_data ;;
    v3 <- getitem sample third_data ;;
    Ok (FieldsLine v1 (team sample) v2 v3)
  else
    v1 <- getitem sample first_data ;;
    score <- sortkey sample ;;
    Ok (ScoreLine v1 (team sample) score).

(** The score of a record under a metric that returns. *)
Definition score_of (sortkey : stat -> result Q) (obj : stat) : Q :=
  match sortkey obj with
  | Ok k => k
  | Raise _ => 0%Q
  end.

(** The metric returns on every record of the bucket. *)
Definition returns (sortkey : stat -> result Q) (bucket : list stat) : Prop :=
  forall obj, In obj bucket -> exists k, sortkey obj = Ok k.

(** The bucket in the order [sorted] gives it under a metric that returns. *)
Definition ranked (sortkey : stat -> result Q) (bucket : list stat) : list stat :=
  map snd (sort_desc (decorate (score_of sortkey) bucket)).

(** The size limit of a call mode. *)
Definition mode_limit (cfg : config) (callmode : string) : option Z :=
  if callmode =? "matchend" then Some (TOPS_MATCHEND cfg)
  else if callmode =? "chat" then Some (TOPS_CHAT cfg)
  else None.

(** A line that shows two fields of a record of the bucket as they are,
    and a line that shows the score a metric gives to a record of the
    bucket. *)
Definition fields_of (second third : stat -> Z) (bucket : list stat)
    (c : chunk) : Prop :=
  exists p,
    In p bucket
    /\ c = FieldsLine (VStr (name p)) (team p) (VInt (second p)) (VInt (third p)).

Definition score_by (metric : stat -> result Q) (bucket : list stat)
    (c : chunk) : Prop :=
  exists p score,
    In p bucket /\ metric p = Ok score
    /\ c = ScoreLine (VStr (name p)) (team p) score.

(** Every line of a listing has a given form. *)
Definition lines_are (form : chunk -> Prop) (output : list chunk) : Prop :=
  forall c, In c output -> is_line c = true -> form c.

(** The local variables of [get_top] in the mode ["matchend"]. *)
Definition matchend_vars (cfg : config) (r : rcon) : locals :=
  {| tops_limit := Some (TOPS_MATCHEND cfg);
     show_members := Some (TOPS_MATCHEND_DETAIL_SQUADS cfg);
     server_status := Some (current_players r) |}.

Section TurnEnd.

Variable cfg : config.
Variables callmode calltype : string.
Variable sortkey : stat -> result Q.
Variables first_data second_data third_data fourth_data : string.
Variable squadtype_allplayers : list stat.
Variable vars : locals.
Variable sorted_data : list stat.

Local Abbreviation listing' :=
  (listing calltype sortkey first_data second_data third_data fourth_data
     squadtype_allplayers vars sorted_data).
Local Abbreviation vip_gate' := (vip_gate cfg callmode calltype second_data vars).

(** The five ways a turn can end. *)
Inductive turn_end (sample : stat) (iteration : Z) (output : list chunk)
    (r : rcon) : result (Z * list chunk) * rcon -> Prop :=
| turn_raises (e : error) :
    turn_end sample iteration output r (Raise e, r)
| turn_gate_shut (lines : list chunk) :
    listing' sample iteration = Ok lines ->
    vip_gate' iteration = Ok false ->
    turn_end sample iteration output r
      (Ok (iteration + 1, output ++ lines)%list, r)
| turn_continue (lines : list chunk) :
    listing' sample iteration = Ok lines ->
    vip_gate' iteration = Ok true ->
    late_commander cfg sample = true ->
    turn_end sample iteration output r (Ok (iteration, output ++ lines)%list, r)
| turn_gives (lines : list chunk) :
    listing' sample iteration = Ok lines ->
    vip_gate' iteration = Ok true ->
    late_commander cfg sample = false ->
    vip_scan (vips r) (player_id sample) (now r + hours (VIP_HOURS cfg)) = true ->
    turn_end sample iteration output r
      (Ok (iteration + 1,
           (output ++ lines) ++ [VipUntil (now r + hours (VIP_HOURS cfg))])%list,
       add_vip (player_id sample) (name sample ++ " Top-Player")
         (now r + hours (VIP_HOURS cfg)) (logged GetVipIds r))
| turn_already (lines : list chunk) :
    listing' sample iteration = Ok lines ->
    vip_gate' iteration = Ok true ->
    late_commander cfg sample = false ->
    vip_scan (vips r) (player_id sample) (now r + hours (VIP_HOURS cfg)) = false ->
    turn_end sample iteration output r
      (Ok (iteration + 1, (output ++ lines) ++ [AlreadyVip])%list,
       logged GetVipIds r).

End TurnEnd.

(** The squads of a team with the team, in the order of the dictionary;
    and the squads of the two teams, allies first. *)
Definition squads_of (get_team_view : team_side -> option team_data)
    (team : team_side) : list (team_side * (string * squad_data)) :=
  match get_team_view team with
  | Some info => map (pair team) (squads info)
  | None => []
  end.

Definition all_squads (get_team_view : team_side -> option team_data)
    : list (team_side * (string * squad_data)) :=
  (squads_of get_team_view allies ++ squads_of get_team_view axis)%list.

Definition commander_of (get_team_view : team_side -> option team_data)
    (team : team_side) : list stat :=
  match get_team_view team with
  | Some info =>
      match commander info with
      | Some c => [c]
      | None => []
      end
  | None => []
  end.

Definition is_infantry (g : team_side * (string * squad_data)) : bool :=
  (squad_type (snd (snd g)) =? "infantry") || (squad_type (snd (snd g)) =? "recon").

Definition is_armor (g : team_side * (string * squad_data)) : bool :=
  negb (is_infantry g) && (squad_type (snd (snd g)) =? "armor").

Definition players_in (g : team_side * (string * squad_data)) : list stat :=
  squad_players (snd (snd g)).

Definition entry_of (g : team_side * (string * squad_data))
    : string * squad_stats :=
  (fst (snd g), detached (fst g) (snd (snd g))).

(** The five lists put end to end, list by list. *)
Definition gathered_app (a b : gathered) : gathered :=
  {| commanders := commanders a ++ commanders b;
     players_infantry := players_infantry a ++ players_infantry b;
     players_armor := players_armor a ++ players_armor b;
     squads_infantry := squads_infantry a ++ squads_infantry b;
     squads_armor := squads_armor a ++ squads_armor b |}.

(** What the squads of a list bring, by their type. *)
Definition brought (gs : list (team_side * (string * squad_data))) : gathered :=
  {| commanders := [];
     players_infantry := flat_map players_in (filter is_infantry gs);
     players_armor := flat_map players_in (filter is_armor gs);
     squads_infantry := map entry_of (filter is_infantry gs);
     squads_armor := map entry_of (filter is_armor gs) |}.

(** Every player listed in a squad carries the team and the name of the
    squad; and a team has one squad of a name. *)
Definition players_tagged (get_team_view : team_side -> option team_data)
    : Prop :=
  forall g p,
    In g (all_squads get_team_view) -> In p (players_in g) ->
    team p = fst g /\ unit_name p = fst (snd g).

Definition squad_names_unique (get_team_view : team_side -> option team_data)
    : Prop :=
  forall team info,
    get_team_view team = Some info -> NoDup (map fst (squads info)).

(** ** Sample data *)

(** A player of the allies with the given name and combat score. *)
Definition rifleman (n : string) (c : Z) : stat :=
  {| name := n; player_id := n; team := allies; role := "rifleman";
     unit_name := "able"; kills := 0; deaths := 0; combat := c;
     offense := 0; defense := 0; support := 0 |}.

(** A player with the given six counters. *)
Definition scored (k d c o f s : Z) : stat :=
  {| name := "Ann"; player_id := "Ann"; team := allies; role := "rifleman";
     unit_name := "able"; kills := k; deaths := d; combat := c;
     offense := o; defense := f; support := s |}.

(** Five players whose scores are 50, 50, 30, 0 and 10. *)
Definition five_players : list stat :=
  [rifleman "Ann" 50; rifleman "Bob" 50; rifleman "Cid" 30;
   rifleman "Dan" 0; rifleman "Eve" 10].

Definition quiet_server : rcon :=
  {| vips := []; current_players := 12; now := 1700000000; calls := [] |}.

(** A player with kills and deaths and time on the field. *)
Definition sniper : stat :=
  {| name := "Fay"; player_id := "76561198000000006"; team := axis;
     role := "sniper"; unit_name := "fox"; kills := 5; deaths := 2;
     combat := 90; offense := 600; defense := 400; support := 0 |}.

Definition one_sniper : team_view :=
  {| all_commanders := []; all_players_infantry := [sniper];
     all_players_armor := []; all_squads_infantry := [];
     all_squads_armor := [] |}.

(** A server with 65 players in game, under the seed limit of 70. *)
Definition seeding_server : rcon :=
  {| vips := []; current_players := 65; now := 1700000000; calls := [] |}.

(** The shipped values with the seed limit disabled. *)
Definition no_seed_limit : config := {|
  LANG := english;
  OFFENSEDEFENSE_RATIO := 15 # 10;
  COMBATSUPPORT_RATIO := 15 # 10;
  TOPS_CHAT := 3;
  TOPS_CHAT_DETAIL_SQUADS := 0;
  TOPS_MATCHEND := 3;
  TOPS_MATCHEND_DETAIL_SQUADS := 1;
  VIP_WINNERS := 1;
  VIP_COMMANDER_MIN_PLAYTIME_MINS := 40;
  VIP_COMMANDER_MIN_SUPPORT_SCORE := 2000;
  SEED_LIMIT := 0;
  VIP_HOURS := 14
|}.

(** A server with 80 players in game and nobody on the VIP list. *)
Definition full_server : rcon :=
  {| vips := []; current_players := 80; now := 1700000000; calls := [] |}.

(** A commander who played 30 minutes, and one who played the match. *)
Definition late_officer : stat :=
  {| name := "Gus"; player_id := "76561198000000007"; team := allies;
     role := "armycommander"; unit_name := "command"; kills := 0; deaths := 1;
     combat := 900; offense := 400; defense := 200; support := 9000 |}.

Definition officer : stat :=
  {| name := "Hal"; player_id := "76561198000000008"; team := axis;
     role := "armycommander"; unit_name := "command"; kills := 2; deaths := 3;
     combat := 300; offense := 700; defense := 500; support := 6000 |}.

(** A server with 80 players in game where Ann holds a VIP that never
    expires. *)
Definition lifetime_vip_server : rcon :=
  {| vips := [{| vip_player_id := "Ann"; vip_name := "Ann";
                 vip_expiration := None |}];
     current_players := 80; now := 1700000000; calls := [] |}.

(** A player who attacked and never defended, and one who defended and
    never attacked: for both the product of offense and defense is 0. *)
Definition attacker : stat :=
  {| name := "Ida"; player_id := "76561198000000009"; team := axis;
     role := "assault"; unit_name := "dog"; kills := 3; deaths := 4;
     combat := 60; offense := 100; defense := 0; support := 20 |}.

Definition defender : stat :=
  {| name := "Jon"; player_id := "76561198000000010"; team := allies;
     role := "support"; unit_name := "easy"; kills := 1; deaths := 2;
     combat := 30; offense := 0; defense := 260; support := 150 |}.

(** The shipped values with the members of the first two squads shown on a
    chat command. *)
Definition two_squads_detailed : config := {|
  LANG := english;
  OFFENSEDEFENSE_RATIO := 15 # 10;
  COMBATSUPPORT_RATIO := 15 # 10;
  TOPS_CHAT := 3;
  TOPS_CHAT_DETAIL_SQUADS := 2;
  TOPS_MATCHEND := 3;
  TOPS_MATCHEND_DETAIL_SQUADS := 1;
  VIP_WINNERS := 1;
  VIP_COMMANDER_MIN_PLAYTIME_MINS := 40;
  VIP_COMMANDER_MIN_SUPPORT_SCORE := 2000;
  SEED_LIMIT := 70;
  VIP_HOURS := 14
|}.

(** Two squads of the allies and their three players. *)
Definition squad_of (n : string) (c s : Z) : stat :=
  {| name := n; player_id := ""; team := allies; role := "";
     unit_name := ""; kills := 0; deaths := 0; combat := c;
     offense := 0; defense := 0; support := s |}.

Definition member_of (n unit : string) : stat :=
  {| name := n; player_id := n; team := allies; role := "rifleman";
     unit_name := unit; kills := 0; deaths := 0; combat := 10;
     offense := 0; defense := 0; support := 0 |}.

Definition two_squads : list stat := [squad_of "able" 80 40; squad_of "baker" 70 20].

Definition three_members : list stat :=
  [member_of "Ann" "able"; member_of "Bob" "able"; member_of "Cid" "baker"].

(** A server with 80 players in game where Ann holds a VIP that ends in
    [h] hours. *)
Definition vip_server (h : Z) : rcon :=
  {| vips := [{| vip_player_id := "Ann"; vip_name := "Ann";
                 vip_expiration := Some (1700000000 + hours h) |}];
     current_players := 80; now := 1700000000; calls := [] |}.

(** The requests that give a VIP, and how many a server has logged; how
    many texts about a VIP an output holds. *)
Definition is_add_vip (c : rcon_call) : bool :=
  match c with
  | AddVip _ _ _ => true
  | _ => false
  end.

Definition vips_given (r : rcon) : nat :=
  List.length (filter is_add_vip (calls r)).

Definition vip_texts (output : list chunk) : nat :=
  List.length (filter is_vip_text output).

(** The VIPs that are left to give at an index of the loop. *)
Definition budget (cfg : config) (iteration : Z) : nat :=
  Z.to_nat (VIP_WINNERS cfg - iteration + 1).

(** The local variables of [get_top], and the server it goes on with, once
    the two tests on [callmode] are passed. *)
Definition mode_vars (cfg : config) (r : rcon) (callmode : string) : locals :=
  if callmode =? "matchend" then matchend_vars cfg r
  else if callmode =? "chat" then
    {| tops_limit := Some (TOPS_CHAT cfg);
       show_members := Some (TOPS_CHAT_DETAIL_SQUADS cfg);
       server_status := None |}
  else unbound.

Definition mode_rcon (r : rcon) (callmode : string) : rcon :=
  if callmode =? "matchend" then logged GetStatus r else r.

(** The six counters of a record are not negative. *)
Definition counters_nonneg (obj : stat) : Prop :=
  0 <= kills obj /\ 0 <= deaths obj /\ 0 <= combat obj
  /\ 0 <= offense obj /\ 0 <= defense obj /\ 0 <= support obj.

(** A match with two squads of the allies, an armor squad and a squad of
    an unknown type of the axis, and a commander for the allies only. *)
Definition able_squad : squad_data :=
  {| squad_type := "infantry";
     squad_players := [member_of "Ann" "able"; member_of "Bob" "able"];
     squad_kills := 0; squad_deaths := 0; squad_combat := 80;
     squad_offense := 0; squad_defense := 0; squad_support := 40 |}.

Definition baker_squad : squad_data :=
  {| squad_type := "recon";
     squad_players := [member_of "Cid" "baker"];
     squad_kills := 0; squad_deaths := 0; squad_combat := 70;
     squad_offense := 0; squad_defense := 0; squad_support := 20 |}.

Definition tank_squad : squad_data :=
  {| squad_type := "armor";
     squad_players :=
       [{| name := "Kai"; player_id := "Kai"; team := axis; role := "tankcommander";
           unit_name := "able"; kills := 4; deaths := 0; combat := 200;
           offense := 100; defense := 100; support := 0 |}];
     squad_kills := 4; squad_deaths := 0; squad_combat := 200;
     squad_offense := 100; squad_defense := 100; squad_support := 0 |}.

Definition odd_squad : squad_data :=
  {| squad_type := "artillery";
     squad_players :=
       [{| name := "Lee"; player_id := "Lee"; team := axis; role := "rifleman";
           unit_name := "dog"; kills := 9; deaths := 0; combat := 500;
           offense := 0; defense := 0; support := 0 |}];
     squad_kills := 9; squad_deaths := 0; squad_combat := 500;
     squad_offense := 0; squad_defense := 0; squad_support := 0 |}.

Definition small_match (team : team_side) : option team_data :=
  match team with
  | allies =>
      Some {| commander := Some late_officer;
              squads := [("able", able_squad); ("baker", baker_squad)] |}
  | axis =>
      Some {| commander := None;
              squads := [("able", tank_squad); ("dog", odd_squad)] |}
  end.

(** The team and the name under which a squad is listed. *)
Definition squad_key (g : team_side * (string * squad_data))
    : team_side * string :=
  (fst g, fst (snd g)).

(** A text occurs in another. *)
Definition occurs (t s : string) : Prop :=
  exists pre post, s = pre ++ t ++ post.

(** The small match seen from the hooks: three players are connected, the
    second cannot be reached. *)
Definition small_game : game :=
  {| link := full_server;
     reported := small_match;
     connected := [("Ann", "Ann"); ("Bob", "Bob"); ("Cid", "Cid")];
     unreachable := fun player_id => player_id =? "Bob";
     inbox := [];
     asked := [] |}.

Definition top_command : struct_log :=
  {| sub_content := Some "!top"; player_id_1 := Some "Cid" |}.

(** The connection after [n] requests for the status. *)
Definition status_asked (n : nat) (r : rcon) : rcon :=
  Nat.iter n (logged GetStatus) r.

(** The messages that a text sent to every player delivers. *)
Definition delivered (g : game) (all_players_list : list (string * string))
    (message : string) : list (string * string) :=
  map (fun player => (snd player, message))
    (filter (fun player => negb (unreachable g (snd player))) all_players_list).

(** The requests of [message_player], one for each player of the list. *)
Definition messages_to (all_players_list : list (string * string))
    (message : string) : list request :=
  map (fun player => MessagePlayer (snd player) message) all_players_list.

(** A server on which no match is played: no team is reported. *)
Definition idle_game : game :=
  {| link := full_server;
     reported := fun _ => None;
     connected := [("Ann", "Ann"); ("Bob", "Bob")];
     unreachable := fun _ => false;
     inbox := [];
     asked := [] |}.

Definition match_end_line : struct_log :=
  {| sub_content := None; player_id_1 := None |}.

(** The expirations that the texts "VIP until" of an output announce, and
    those of the VIPs that a list of requests gives. *)
Definition announced (output : list chunk) : list Z :=
  flat_map (fun c => match c with VipUntil e => [e] | _ => [] end) output.

Definition granted (requests : list rcon_call) : list Z :=
  flat_map (fun c => match c with AddVip _ _ e => [e] | _ => [] end) requests.

(** A request that gives a VIP gives it to a record of the pool that is no
    late commander, under its name followed by " Top-Player", until
    [VIP_HOURS] after [clock]. *)
Definition request_for (cfg : config) (pool : list stat) (clock : Z)
    (c : rcon_call) : Prop :=
  match c with
  | AddVip id label e =>
      exists sample,
        In sample pool
        /\ id = player_id sample
        /\ label = name sample ++ " Top-Player"
        /\ e = clock + hours (VIP_HOURS cfg)
        /\ late_commander cfg sample = false
  | _ => True
  end.

(** A line that shows a player of a squad that the server reports, and a
    line that shows such a squad, the squad being one that [keep]
    selects. *)
Definition player_line (get_team_view : team_side -> option team_data)
    (keep : team_side * (string * squad_data) -> bool)
    (second third : stat -> Z) (c : chunk) : Prop :=
  exists g p,
    In g (all_squads get_team_view) /\ keep g = true /\ In p (players_in g)
    /\ c = FieldsLine (VStr (name p)) (team p) (VInt (second p)) (VInt (third p)).

Definition player_score (get_team_view : team_side -> option team_data)
    (keep : team_side * (string * squad_data) -> bool)
    (metric : stat -> result Q) (c : chunk) : Prop :=
  exists g p score,
    In g (all_squads get_team_view) /\ keep g = true /\ In p (players_in g)
    /\ metric p = Ok score
    /\ c = ScoreLine (VStr (name p)) (team p) score.

Definition squad_line (get_team_view : team_side -> option team_data)
    (keep : team_side * (string * squad_data) -> bool)
    (second third : squad_data -> Z) (c : chunk) : Prop :=
  exists g,
    In g (all_squads get_team_view) /\ keep g = true
    /\ c = FieldsLine (VStr (fst (snd g))) (fst g)
             (VInt (second (snd (snd g)))) (VInt (third (snd (snd g)))).

(** * Properties *)

(** Takes the next of the calls that [stats_gather] chains. *)
Ltac next_top H :=
  match type of H with
  | and_then ?m _ = _ =>
      let t := fresh "t" in
      let r := fresh "r" in
      let Ht := fresh "Ht" in
      destruct m as [[t |] r] eqn:Ht; [| discriminate H];
      cbn [and_then] in H
  end.

(** ** The metrics *)

(** *** Rounding to the nearest integer *)

Lemma round_half_even_cases (t : Q) :
  (round_half_even t = Qfloor t
   /\ (t - inject_Z (Qfloor t) < 1 # 2
       \/ (t - inject_Z (Qfloor t) == 1 # 2 /\ Z.even (Qfloor t) = true))%Q)
  \/ (round_half_even t = Qfloor t + 1
      /\ (1 # 2 < t - inject_Z (Qfloor t)
          \/ (t - inject_Z (Qfloor t) == 1 # 2 /\ Z.even (Qfloor t) = false))%Q).
Proof.
  unfold round_half_even.
  destruct (t - inject_Z (Qfloor t) ?= 1 # 2)%Q eqn:E.
  - apply Qeq_alt in E. destruct (Z.even (Qfloor t)); [left | right]; auto.
  - apply Qlt_alt in E. left; auto.
  - apply Qgt_alt in E. right; auto.
Qed.

Lemma Qfloor_bounds (t : Q) :
  (inject_Z (Qfloor t) <= t /\ t < inject_Z (Qfloor t) + 1)%Q.
Proof.
  split; [apply Qfloor_le |].
  pose proof (Qlt_floor t) as H. rewrite inject_Z_plus in H. exact H.
Qed.

Lemma round_half_even_near (t : Q) :
  (Qabs (inject_Z (round_half_even t) - t) <= 1 # 2)%Q.
Proof.
  pose proof (Qfloor_bounds t) as [Hl Hu].
  apply Qabs_Qle_condition.
  destruct (round_half_even_cases t) as [[-> H] | [-> H]];
    rewrite ?inject_Z_plus; change (inject_Z 1) with 1%Q;
    destruct H as [H | [H _]]; split; lra.
Qed.

Lemma round_half_even_mono (t u : Q) :
  (t <= u)%Q -> round_half_even t <= round_half_even u.
Proof.
  intros Htu.
  pose proof (Qfloor_resp_le t u Htu) as Hfg.
  pose proof (Qfloor_bounds t) as [Htl Htu'].
  pose proof (Qfloor_bounds u) as [Hul Huu].
  destruct (Z.eq_dec (Qfloor t) (Qfloor u)) as [E | E].
  - destruct (round_half_even_cases t) as [[-> Ht] | [-> Ht]];
      destruct (round_half_even_cases u) as [[-> Hu] | [-> Hu]]; try lia.
    exfalso. rewrite E in *.
    destruct Ht as [Ht | [Ht Et]]; destruct Hu as [Hu | [Hu Eu]];
      try lra. congruence.
  - destruct (round_half_even_cases t) as [[-> _] | [-> _]];
      destruct (round_half_even_cases u) as [[-> _] | [-> _]]; lia.
Qed.

Lemma round_half_even_Z (n : Z) : round_half_even (inject_Z n) = n.
Proof.
  destruct (round_half_even_cases (inject_Z n)) as [[-> _] | [_ H]].
  - apply Qfloor_Z.
  - exfalso. rewrite Qfloor_Z in H. destruct H as [H | [H _]]; lra.
Qed.

Lemma round_half_even_le (t : Q) (n : Z) :
  (t <= inject_Z n)%Q -> round_half_even t <= n.
Proof.
  intros H. rewrite <- (round_half_even_Z n). now apply round_half_even_mono.
Qed.

Lemma round_half_even_ge (t : Q) (n : Z) :
  (inject_Z n <= t)%Q -> n <= round_half_even t.
Proof.
  intros H. rewrite <- (round_half_even_Z n) at 1. now apply round_half_even_mono.
Qed.

(** Powers of two. *)

Lemma pow2_pos (e : Z) : (0 < 2 ^ e)%Q.
Proof. now apply Qpower_0_lt. Qed.

Lemma pow2_plus (a b : Z) : (2 ^ (a + b) == 2 ^ a * 2 ^ b)%Q.
Proof. now apply Qpower_plus. Qed.

Lemma pow2_succ (a : Z) : (2 ^ (a + 1) == 2 * 2 ^ a)%Q.
Proof. rewrite pow2_plus. change (2 ^ 1)%Q with 2%Q. ring. Qed.

Lemma pow2_le (a b : Z) : a <= b -> (2 ^ a <= 2 ^ b)%Q.
Proof. intros H. apply Qpower_le_compat_l; [exact H | discriminate]. Qed.

Lemma pow2_lt_inv (a b : Z) : (2 ^ a < 2 ^ b)%Q -> a < b.
Proof. intros H. apply (Qpower_lt_compat_l_inv 2); [exact H | reflexivity]. Qed.

Lemma pow2_Z (n : Z) : 0 <= n -> (inject_Z (2 ^ n) == 2 ^ n)%Q.
Proof. intros H. now rewrite Zpower_Qpower. Qed.

Lemma exponent_spec (a : Q) :
  (0 < a)%Q -> (2 ^ exponent a <= a /\ a < 2 ^ (exponent a + 1))%Q.
Proof.
  intros Ha. destruct a as [n d].
  assert (Hn : 0 < n) by (unfold Qlt in Ha; cbn in Ha; lia).
  unfold exponent. cbn [Qnum Qden].
  set (p := Z.log2 n). set (q := Z.log2 (Zpos d)).
  destruct (Z.log2_spec n Hn) as [Hp1 Hp2]. fold p in Hp1, Hp2.
  destruct (Z.log2_spec (Zpos d) eq_refl) as [Hq1 Hq2]. fold q in Hq1, Hq2.
  assert (Hp0 : 0 <= p) by apply Z.log2_nonneg.
  assert (Hq0 : 0 <= q) by apply Z.log2_nonneg.
  rewrite <- Z.add_1_r in Hp2, Hq2.
  rewrite Zle_Qle in Hp1, Hq1. rewrite Zlt_Qlt in Hp2, Hq2.
  rewrite pow2_Z in Hp1, Hq1, Hp2, Hq2 by lia.
  rewrite pow2_succ in Hp2, Hq2.
  pose proof (pow2_pos p) as HA. pose proof (pow2_pos q) as HB.
  assert (HT : (2 ^ (p - q) * 2 ^ q == 2 ^ p)%Q).
  { rewrite <- pow2_plus. now replace (p - q + q) with p by lia. }
  pose proof (pow2_pos (p - q)) as HT0.
  assert (Hx : ((n # d) * inject_Z (Zpos d) == inject_Z n)%Q).
  { rewrite (Qmake_Qdiv n d). field. discriminate. }
  assert (HD : (0 < inject_Z (Zpos d))%Q) by reflexivity.
  set (x := n # d) in *. set (N := inject_Z n) in *.
  set (D := inject_Z (Zpos d)) in *.
  set (A := (2 ^ p)%Q) in *. set (B := (2 ^ q)%Q) in *.
  set (T := (2 ^ (p - q))%Q) in *.
  destruct (Qle_bool T x) eqn:E.
  - apply Qle_bool_iff in E. split; [exact E |].
    rewrite pow2_succ. fold T.
    apply Qnot_le_lt. intros Hc.
    assert (H1 : (2 * T * D <= x * D)%Q) by (apply Qmult_le_compat_r; [exact Hc | lra]).
    assert (H2 : (T * B <= T * D)%Q) by (apply Qmult_le_l; [exact HT0 | exact Hq1]).
    lra.
  - assert (E' : (x < T)%Q).
    { apply Qnot_le_lt. intros Hc. apply Qle_bool_iff in Hc. congruence. }
    replace (p - q - 1 + 1) with (p - q) by lia. fold T.
    split; [| exact E'].
    assert (HT' : (2 * 2 ^ (p - q - 1) == T)%Q).
    { rewrite <- pow2_succ. unfold T. now replace (p - q - 1 + 1) with (p - q) by lia. }
    pose proof (pow2_pos (p - q - 1)) as HU0.
    set (U := (2 ^ (p - q - 1))%Q) in *.
    apply Qnot_lt_le. intros Hc.
    assert (H1 : (x * D < U * D)%Q) by (apply Qmult_lt_compat_r; [exact HD | exact Hc]).
    assert (H2 : (U * D < U * (2 * B))%Q) by (apply Qmult_lt_l; [exact HU0 | exact Hq2]).
    assert (H3 : (U * (2 * B) == T * B)%Q) by (rewrite <- HT'; ring).
    lra.
Qed.

Lemma exponent_mono (a b : Q) :
  (0 < a)%Q -> (a <= b)%Q -> exponent a <= exponent b.
Proof.
  intros Ha Hab.
  destruct (exponent_spec a Ha) as [Hl _].
  destruct (exponent_spec b) as [_ Hu]; [lra |].
  assert (H : exponent a < exponent b + 1) by (apply pow2_lt_inv; lra).
  lia.
Qed.

Lemma scaled_le (a : Q) (g k : Z) :
  (a <= 2 ^ (g + k))%Q -> 0 <= k ->
  (inject_Z (round_half_even (a / 2 ^ g)) * 2 ^ g <= 2 ^ (g + k))%Q.
Proof.
  intros Ha Hk. pose proof (pow2_pos g) as Hg.
  assert (H : round_half_even (a / 2 ^ g) <= 2 ^ k).
  { apply round_half_even_le. rewrite pow2_Z by exact Hk.
    apply Qle_shift_div_r; [exact Hg |].
    now rewrite <- pow2_plus, Z.add_comm. }
  rewrite Zle_Qle, pow2_Z in H by exact Hk.
  rewrite pow2_plus, (Qmult_comm (2 ^ g)).
  apply Qmult_le_compat_r; [exact H | lra].
Qed.

Lemma scaled_ge (a : Q) (g k : Z) :
  (2 ^ (g + k) <= a)%Q -> 0 <= k ->
  (2 ^ (g + k) <= inject_Z (round_half_even (a / 2 ^ g)) * 2 ^ g)%Q.
Proof.
  intros Ha Hk. pose proof (pow2_pos g) as Hg.
  assert (H : 2 ^ k <= round_half_even (a / 2 ^ g)).
  { apply round_half_even_ge. rewrite pow2_Z by exact Hk.
    apply Qle_shift_div_l; [exact Hg |].
    now rewrite <- pow2_plus, Z.add_comm. }
  rewrite Zle_Qle, pow2_Z in H by exact Hk.
  rewrite pow2_plus, (Qmult_comm (2 ^ g)).
  apply Qmult_le_compat_r; [exact H | lra].
Qed.

Lemma nearest_nonneg (a : Q) : (0 <= a)%Q -> (0 <= nearest a)%Q.
Proof.
  intros Ha. unfold nearest. pose proof (pow2_pos (grid a)) as Hg.
  apply Qmult_le_0_compat; [| lra].
  change 0%Q with (inject_Z 0). rewrite <- Zle_Qle.
  apply round_half_even_ge. change (inject_Z 0) with 0%Q.
  apply Qle_shift_div_l; [exact Hg | lra].
Qed.

Lemma nearest_mono (a b : Q) :
  (0 < a)%Q -> (a <= b)%Q -> (nearest a <= nearest b)%Q.
Proof.
  intros Ha Hab. assert (Hb : (0 < b)%Q) by lra.
  pose proof (exponent_mono a b Ha Hab) as Hexp.
  destruct (exponent_spec a Ha) as [_ Hua].
  destruct (exponent_spec b Hb) as [Hlb _].
  unfold nearest.
  destruct (Z.eq_dec (grid a) (grid b)) as [E | E].
  - rewrite E. pose proof (pow2_pos (grid b)) as Hg.
    apply Qmult_le_compat_r; [| lra].
    rewrite <- Zle_Qle. apply round_half_even_mono.
    apply Qmult_le_compat_r; [exact Hab |].
    apply Qlt_le_weak, Qinv_lt_0_compat, Hg.
  - unfold grid in *.
    apply Qle_trans with (2 ^ (Z.max (exponent a - 52) (-1074) + 53))%Q.
    + apply scaled_le; [| lia].
      apply Qle_trans with (2 ^ (exponent a + 1))%Q; [lra |].
      apply pow2_le. lia.
    + apply Qle_trans with (2 ^ (Z.max (exponent b - 52) (-1074) + 52))%Q.
      * apply pow2_le. lia.
      * apply scaled_ge; [| lia].
        apply Qle_trans with (2 ^ exponent b)%Q; [| exact Hlb].
        apply pow2_le. lia.
Qed.

Lemma nearest_0 (a : Q) : (a == 0)%Q -> (nearest a == 0)%Q.
Proof.
  intros Ha. unfold nearest. pose proof (pow2_pos (grid a)) as Hg.
  assert (H : round_half_even (a / 2 ^ grid a) = 0).
  { apply Z.le_antisymm.
    - apply round_half_even_le. change (inject_Z 0) with 0%Q.
      apply Qle_shift_div_r; [exact Hg | lra].
    - apply round_half_even_ge. change (inject_Z 0) with 0%Q.
      apply Qle_shift_div_l; [exact Hg | lra]. }
  rewrite H. ring.
Qed.

Lemma nearest_mono0 (a b : Q) :
  (0 <= a)%Q -> (a <= b)%Q -> (nearest a <= nearest b)%Q.
Proof.
  intros Ha Hab.
  destruct (Qlt_le_dec 0 a) as [H | H].
  - now apply nearest_mono.
  - rewrite (nearest_0 a) by lra. apply nearest_nonneg. lra.
Qed.

Lemma Qle_bool_false (x y : Q) : Qle_bool x y = false -> (y < x)%Q.
Proof.
  intros E. apply Qnot_le_lt. intros H. apply Qle_bool_iff in H. congruence.
Qed.

Lemma binary64_nonneg (x : Q) : (0 <= x)%Q -> (0 <= binary64 x)%Q.
Proof.
  intros H. unfold binary64. rewrite Qred_correct.
  apply Qle_bool_iff in H as E. rewrite E. now apply nearest_nonneg.
Qed.

Lemma binary64_mono (x y : Q) : (x <= y)%Q -> (binary64 x <= binary64 y)%Q.
Proof.
  intros Hxy. unfold binary64. rewrite !Qred_correct.
  destruct (Qle_bool 0 x) eqn:Ex, (Qle_bool 0 y) eqn:Ey.
  - apply Qle_bool_iff in Ex. now apply nearest_mono0.
  - apply Qle_bool_iff in Ex. apply Qle_bool_false in Ey. lra.
  - apply Qle_bool_false in Ex. apply Qle_bool_iff in Ey.
    pose proof (nearest_nonneg (- x)). pose proof (nearest_nonneg y). lra.
  - apply Qle_bool_false in Ex. apply Qle_bool_false in Ey.
    assert (H : (nearest (- y) <= nearest (- x))%Q)
      by (apply nearest_mono0; lra).
    lra.
Qed.

Lemma nearest_grid (a : Q) :
  (0 < a)%Q -> (2 ^ (-1074) <= a)%Q -> (2 ^ grid a <= nearest a)%Q.
Proof.
  intros Ha Hmin. destruct (exponent_spec a Ha) as [Hl _].
  rewrite <- (Z.add_0_r (grid a)) at 1. unfold nearest.
  apply scaled_ge; [| lia].
  rewrite Z.add_0_r. unfold grid.
  destruct (Z.max_spec (exponent a - 52) (-1074)) as [[_ ->] | [_ ->]];
    [exact Hmin |].
  apply Qle_trans with (2 ^ exponent a)%Q; [apply pow2_le; lia | exact Hl].
Qed.

Lemma binary64_pos (x : Q) : (2 ^ (-1074) <= x)%Q -> (0 < binary64 x)%Q.
Proof.
  intros Hmin. pose proof (pow2_pos (-1074)) as H0.
  assert (Hx : (0 < x)%Q) by lra.
  unfold binary64. rewrite Qred_correct.
  assert (E : Qle_bool 0 x = true) by (apply Qle_bool_iff; lra).
  rewrite E. pose proof (nearest_grid x Hx Hmin). pose proof (pow2_pos (grid x)).
  lra.
Qed.

Lemma nearest_error (a : Q) :
  (0 < a)%Q -> (Qabs (nearest a - a) <= a * 2 ^ (-53) + 2 ^ (-1075))%Q.
Proof.
  intros Ha. destruct (exponent_spec a Ha) as [Hl _].
  pose proof (pow2_pos (grid a)) as Hg.
  pose proof (round_half_even_near (a / 2 ^ grid a)) as Hn.
  assert (Herr : (Qabs (nearest a - a) <= 2 ^ (grid a - 1))%Q).
  { assert (Hhalf : (2 ^ (grid a - 1) == (1 # 2) * 2 ^ grid a)%Q).
    { replace (grid a) with (grid a - 1 + 1) at 2 by lia.
      rewrite pow2_succ. ring. }
    rewrite Hhalf.
    assert (Heq : (nearest a - a
                   == (inject_Z (round_half_even (a / 2 ^ grid a))
                       - a / 2 ^ grid a) * 2 ^ grid a)%Q).
    { unfold nearest. field. lra. }
    rewrite Heq, Qabs_Qmult, (Qabs_pos (2 ^ grid a)) by lra.
    apply Qmult_le_compat_r; [exact Hn | lra]. }
  apply Qle_trans with (2 ^ (grid a - 1))%Q; [exact Herr |].
  pose proof (pow2_pos (-53)) as H53. pose proof (pow2_pos (-1075)) as Hsub.
  unfold grid.
  destruct (Z.max_spec (exponent a - 52) (-1074)) as [[_ ->] | [_ ->]].
  - change (-1074 - 1) with (-1075).
    assert (0 <= a * 2 ^ (-53))%Q by (apply Qmult_le_0_compat; lra).
    lra.
  - replace (exponent a - 52 - 1) with (exponent a + -53) by lia.
    rewrite pow2_plus.
    assert (2 ^ exponent a * 2 ^ (-53) <= a * 2 ^ (-53))%Q
      by (apply Qmult_le_compat_r; lra).
    lra.
Qed.

Lemma binary64_error (x : Q) :
  (0 <= x)%Q -> (Qabs (binary64 x - x) <= x * 2 ^ (-53) + 2 ^ (-1075))%Q.
Proof.
  intros Hx. unfold binary64. rewrite Qred_correct.
  assert (E : Qle_bool 0 x = true) by now apply Qle_bool_iff.
  rewrite E.
  destruct (Qlt_le_dec 0 x) as [H | H]; [now apply nearest_error |].
  pose proof (pow2_pos (-53)). pose proof (pow2_pos (-1075)).
  assert (E0 : (x == 0)%Q) by lra.
  assert (Heq : (nearest x - x == 0)%Q) by (rewrite (nearest_0 x E0); lra).
  rewrite Heq. cbn [Qabs Z.abs Qnum Qden].
  assert (0 <= x * 2 ^ (-53))%Q by (apply Qmult_le_0_compat; lra).
  lra.
Qed.

(** *** The numbers that are floats *)

Lemma round_half_even_eq (t : Q) (n : Z) :
  (t == inject_Z n)%Q -> round_half_even t = n.
Proof.
  intros H. apply Z.le_antisymm.
  - apply round_half_even_le. lra.
  - apply round_half_even_ge. lra.
Qed.

(** A number of at most 53 bits times a power of two that is not under the
    smallest step is a double. *)
Lemma nearest_exact (m e : Z) :
  0 < m < 2 ^ 53 -> -1074 <= e ->
  (nearest (inject_Z m * 2 ^ e) == inject_Z m * 2 ^ e)%Q.
Proof.
  intros [Hm0 Hm] He.
  pose proof (pow2_pos e) as Hpe.
  assert (Hm1 : (1 <= inject_Z m)%Q).
  { change 1%Q with (inject_Z 1). rewrite <- Zle_Qle. lia. }
  assert (Hm2 : (inject_Z m < 2 ^ 53)%Q).
  { rewrite <- pow2_Z by lia. now rewrite <- Zlt_Qlt. }
  set (x := (inject_Z m * 2 ^ e)%Q).
  assert (Hx : (0 < x)%Q) by (unfold x; apply Qmult_lt_0_compat; lra).
  destruct (exponent_spec x Hx) as [Hl _].
  assert (Hexp : exponent x < e + 53).
  { apply pow2_lt_inv. apply Qle_lt_trans with x; [exact Hl |].
    unfold x. rewrite pow2_plus, (Qmult_comm (2 ^ e)).
    apply Qmult_lt_compat_r; [exact Hpe | exact Hm2]. }
  assert (Hg : grid x <= e) by (unfold grid; lia).
  unfold nearest. fold x.
  generalize dependent (grid x). intros g Hg.
  pose proof (pow2_pos g) as Hpg.
  assert (Hsplit : (x == inject_Z (m * 2 ^ (e - g)) * 2 ^ g)%Q).
  { rewrite inject_Z_mult, pow2_Z by lia. unfold x.
    rewrite <- Qmult_assoc, <- pow2_plus.
    now replace (e - g + g) with e by lia. }
  rewrite (round_half_even_eq _ (m * 2 ^ (e - g))).
  - now rewrite Hsplit.
  - rewrite Hsplit at 1. field. lra.
Qed.

Lemma nearest_compat (a b : Q) :
  (0 <= a)%Q -> (a == b)%Q -> (nearest a == nearest b)%Q.
Proof.
  intros Ha E. apply Qle_antisym; apply nearest_mono0; lra.
Qed.

Lemma binary64_exact (m e : Z) :
  Z.abs m < 2 ^ 53 -> -1074 <= e ->
  (binary64 (inject_Z m * 2 ^ e) == inject_Z m * 2 ^ e)%Q.
Proof.
  intros Hm He. pose proof (pow2_pos e) as Hpe.
  unfold binary64. rewrite Qred_correct.
  destruct (Z.lt_trichotomy m 0) as [Hneg | [-> | Hpos]].
  - assert (Hlt : (inject_Z m * 2 ^ e < 0)%Q).
    { assert (H : (inject_Z m <= -1)%Q)
        by (change (-1)%Q with (inject_Z (-1)); rewrite <- Zle_Qle; lia).
      assert (H' : (inject_Z m * 2 ^ e <= (-1) * 2 ^ e)%Q)
        by (apply Qmult_le_compat_r; lra).
      lra. }
    destruct (Qle_bool 0 (inject_Z m * 2 ^ e)) eqn:E.
    + apply Qle_bool_iff in E. lra.
    + assert (Ho : (- (inject_Z m * 2 ^ e) == inject_Z (- m) * 2 ^ e)%Q)
        by (rewrite inject_Z_opp; ring).
      assert (Hnn : (0 <= - (inject_Z m * 2 ^ e))%Q) by lra.
      rewrite (nearest_compat _ _ Hnn Ho), nearest_exact by lia.
      rewrite inject_Z_opp. ring.
  - assert (E0 : (inject_Z 0 * 2 ^ e == 0)%Q) by ring.
    assert (E : Qle_bool 0 (inject_Z 0 * 2 ^ e) = true)
      by (apply Qle_bool_iff; lra).
    rewrite E, (nearest_0 _ E0). lra.
  - assert (E : Qle_bool 0 (inject_Z m * 2 ^ e) = true).
    { apply Qle_bool_iff. apply Qmult_le_0_compat; [| lra].
      change 0%Q with (inject_Z 0). rewrite <- Zle_Qle. lia. }
    rewrite E. apply nearest_exact; lia.
Qed.

Lemma binary64_compat (x y : Q) : (x == y)%Q -> binary64 x = binary64 y.
Proof.
  intros E. unfold binary64. apply Qred_complete.
  destruct (Qle_bool 0 x) eqn:Ex, (Qle_bool 0 y) eqn:Ey.
  - apply Qle_bool_iff in Ex. now apply nearest_compat.
  - apply Qle_bool_iff in Ex. apply Qle_bool_false in Ey. lra.
  - apply Qle_bool_false in Ex. apply Qle_bool_iff in Ey. lra.
  - apply Qle_bool_false in Ex.
    rewrite (nearest_compat (- x) (- y)); [reflexivity | lra | lra].
Qed.

Lemma Qred_inject_Z (n : Z) : Qred (inject_Z n) = inject_Z n.
Proof.
  unfold Qred, inject_Z.
  pose proof (Z.ggcd_correct_divisors n 1) as H.
  pose proof (Z.ggcd_gcd n 1) as Hg.
  destruct (Z.ggcd n 1) as [g [aa bb]]. cbn [fst snd] in *.
  rewrite Z.gcd_1_r in Hg. subst g. destruct H as [Ha Hb].
  rewrite !Z.mul_1_l in *. now subst.
Qed.

(** An integer of at most 53 bits is a float. *)
Lemma float_of_int_exact (n : Z) :
  Z.abs n < 2 ^ 53 -> float_of_int n = inject_Z n.
Proof.
  intros Hn. unfold float_of_int.
  assert (E : (binary64 (inject_Z n) == inject_Z n)%Q).
  { assert (E1 : (inject_Z n == inject_Z n * 2 ^ 0)%Q)
      by (change (2 ^ 0)%Q with 1%Q; ring).
    rewrite (binary64_compat _ _ E1), binary64_exact by lia.
    now rewrite <- E1. }
  assert (Hred : binary64 (inject_Z n) = Qred (binary64 (inject_Z n))).
  { unfold binary64. symmetry. apply Qred_complete, Qred_correct. }
  rewrite Hred, (Qred_complete _ _ E). apply Qred_inject_Z.
Qed.

(** *** Division *)

Lemma truediv_nonzero (a b : Q) :
  Qeq_bool b 0 = false -> truediv a b = Ok (binary64 (a / b)).
Proof. intros H. unfold truediv. now rewrite H. Qed.

Lemma Qeq_bool_inject_Z_0 (n : Z) : Qeq_bool (inject_Z n) 0 = (n =? 0)%Z.
Proof. unfold Qeq_bool. simpl. now rewrite Z.mul_1_r. Qed.

Lemma Qeq_bool_pos (x : Q) : (0 < x)%Q -> Qeq_bool x 0 = false.
Proof.
  intros H. destruct (Qeq_bool x 0) eqn:E; [| reflexivity].
  apply Qeq_bool_iff in E. lra.
Qed.

Lemma inject_Z_nonneg (n : Z) : 0 <= n -> (0 <= inject_Z n)%Q.
Proof. intros H. change 0%Q with (inject_Z 0). now rewrite <- Zle_Qle. Qed.

Lemma inject_Z_pos (n : Z) : 0 < n -> (1 <= inject_Z n)%Q.
Proof. intros H. change 1%Q with (inject_Z 1). rewrite <- Zle_Qle. lia. Qed.

(** The minutes of a player with some offense or defense are a float that
    is not 0. *)
Lemma minutes_pos (n : Z) : 0 < n -> (0 < binary64 (inject_Z n / 20))%Q.
Proof.
  intros H. apply binary64_pos. apply inject_Z_pos in H.
  apply Qle_trans with (2 ^ (-5))%Q; [now apply pow2_le |].
  change (2 ^ (-5))%Q with (1 # 32)%Q.
  apply Qle_shift_div_l; [reflexivity | lra].
Qed.

Lemma Qeq_bool_minutes (n : Z) :
  0 < n -> Qeq_bool (binary64 (inject_Z n / 20)) 0 = false.
Proof. intros H. now apply Qeq_bool_pos, minutes_pos. Qed.

Lemma Qdiv_nonneg (a b : Q) : (0 <= a)%Q -> (0 <= b)%Q -> (0 <= a / b)%Q.
Proof.
  intros Ha Hb. destruct (Qlt_le_dec 0 b) as [H | H].
  - apply Qle_shift_div_l; [exact H | lra].
  - assert (E : (b == 0)%Q) by lra.
    rewrite E. unfold Qdiv. change (/ 0)%Q with 0%Q. lra.
Qed.

(** [round1] gives a number with one decimal, the nearest one. *)
Lemma round1_one_decimal (x : Q) : one_decimal x (round1 x).
Proof.
  exists (round_half_even (x * 10)). split; [reflexivity |].
  unfold round1. rewrite Qred_correct.
  pose proof (round_half_even_near (x * 10)) as H.
  apply Qabs_Qle_condition in H. apply Qabs_Qle_condition.
  rewrite (Qmake_Qdiv (round_half_even (x * 10)) 10).
  set (n := inject_Z (round_half_even (x * 10))) in *.
  change (inject_Z (Z.pos 10)) with 10%Q.
  assert (E : (n / 10 - x == (n - x * 10) / 10)%Q) by field.
  rewrite E. destruct H as [H1 H2]. split.
  - apply Qle_shift_div_l; [reflexivity | lra].
  - apply Qle_shift_div_r; [reflexivity | lra].
Qed.

(** Two numbers with one decimal, of at most [2 ^ 48], are floats in the
    order they are in: keeping the number for the float that [round] returns
    changes no comparison. *)
Lemma decimals_apart (n1 n2 : Z) :
  0 <= n1 < n2 -> n2 <= 10 * 2 ^ 48 ->
  (binary64 (n1 # 10) < binary64 (n2 # 10))%Q.
Proof.
  intros [H0 H12] Hmax.
  assert (Hq : forall n, 0 <= n <= 10 * 2 ^ 48 ->
            (Qabs (binary64 (n # 10) - (n # 10)) <= 17 # 512)%Q).
  { intros n [Hn0 Hn].
    assert (Hpos : (0 <= n # 10)%Q) by (unfold Qle; cbn; lia).
    pose proof (binary64_error (n # 10) Hpos) as He.
    assert (Hle : ((n # 10) <= 2 ^ 48)%Q).
    { rewrite <- pow2_Z by lia. unfold Qle. cbn [Qnum Qden inject_Z]. lia. }
    assert (H1 : ((n # 10) * 2 ^ (-53) <= 2 ^ 48 * 2 ^ (-53))%Q)
      by (apply Qmult_le_compat_r; [exact Hle | apply Qlt_le_weak, pow2_pos]).
    rewrite <- pow2_plus in H1. change (2 ^ (48 + -53))%Q with (1 # 32)%Q in H1.
    assert (H2 : (2 ^ (-1075) <= 2 ^ (-9))%Q) by now apply pow2_le.
    change (2 ^ (-9))%Q with (1 # 512)%Q in H2.
    lra. }
  pose proof (Hq n1 ltac:(lia)) as E1. pose proof (Hq n2 ltac:(lia)) as E2.
  apply Qabs_Qle_condition in E1, E2.
  assert (Hgap : ((n1 # 10) + (1 # 10) <= (n2 # 10))%Q).
  { unfold Qle, Qplus. cbn [Qnum Qden]. lia. }
  lra.
Qed.

(** The test on the minutes of a commander: the float quotient is under a
    minimum of at most [2 ^ 48] minutes just when the exact quotient is. *)
Lemma minutes_under (n limit : Z) :
  0 <= limit <= 2 ^ 48 ->
  ((binary64 (inject_Z n / 20) < inject_Z limit)%Q
   <-> (inject_Z n / 20 < inject_Z limit)%Q).
Proof.
  intros [Hl0 Hl].
  assert (Hlim : (binary64 (inject_Z limit) == inject_Z limit)%Q).
  { change (binary64 (inject_Z limit)) with (float_of_int limit).
    rewrite float_of_int_exact by lia. reflexivity. }
  split; intros H.
  - apply Qnot_le_lt. intros Hc. apply binary64_mono in Hc. lra.
  - assert (Hn : n <= 20 * limit - 1).
    { assert (Hq : (inject_Z n < inject_Z (20 * limit))%Q).
      { rewrite inject_Z_mult. change (inject_Z 20) with 20%Q.
        unfold Qdiv in H. change (/ 20)%Q with (1 # 20)%Q in H. lra. }
      rewrite <- Zlt_Qlt in Hq. lia. }
    set (below := (inject_Z (32 * limit - 1) * 2 ^ (-5))%Q).
    assert (Hb : (binary64 below == below)%Q)
      by (apply binary64_exact; lia).
    assert (Hval : (below == inject_Z limit - (1 # 32))%Q).
    { unfold below. change (2 ^ (-5))%Q with (1 # 32)%Q.
      replace (32 * limit - 1) with (32 * limit + -1) by lia.
      rewrite inject_Z_plus, inject_Z_mult.
      change (inject_Z 32) with 32%Q. change (inject_Z (-1)) with (-1)%Q.
      ring. }
    assert (Hle : (inject_Z n / 20 <= below)%Q).
    { rewrite Hval. rewrite Zle_Qle in Hn.
      replace (20 * limit - 1) with (20 * limit + -1) in Hn by lia.
      rewrite inject_Z_plus, inject_Z_mult in Hn.
      change (inject_Z 20) with 20%Q in Hn.
      change (inject_Z (-1)) with (-1)%Q in Hn.
      apply Qle_shift_div_r; [reflexivity |]. lra. }
    apply binary64_mono in Hle. rewrite Hb in Hle. lra.
Qed.

Lemma ratio_value (obj : stat) :
  0 <= deaths obj ->
  ratio obj
  = Ok (round1 (binary64 (inject_Z (kills obj)
                          / inject_Z (Z.max (deaths obj) 1)))).
Proof.
  intros Hd. unfold ratio.
  destruct (Z.eqb_spec (deaths obj) 0) as [E | E].
  - rewrite E. reflexivity.
  - rewrite truediv_nonzero.
    + cbn [bind]. now rewrite Z.max_l by lia.
    + rewrite Qeq_bool_inject_Z_0. now apply Z.eqb_neq.
Qed.

Lemma killrate_value (obj : stat) :
  0 <= offense obj -> 0 <= defense obj ->
  killrate obj
  = (if (kills obj =? 0)%Z || ((offense obj =? 0)%Z && (defense obj =? 0)%Z)
     then Ok 0%Q
     else Ok (round1 (binary64
                        (float_of_int (kills obj)
                         / binary64 (inject_Z (offense obj + defense obj) / 20))))).
Proof.
  intros Ho Hf. unfold killrate.
  destruct (Z.eqb_spec (kills obj) 0) as [E | E]; [reflexivity |].
  destruct (Z.eqb_spec (offense obj) 0) as [Eo | Eo];
    destruct (Z.eqb_spec (defense obj) 0) as [Ef | Ef];
    cbn [andb orb]; try reflexivity.
  all: rewrite (truediv_nonzero _ 20) by reflexivity; cbn [bind].
  all: rewrite truediv_nonzero; [reflexivity |].
  all: apply Qeq_bool_minutes; lia.
Qed.

(** C6. For a record whose counters are not negative, [ratio] and
    [killrate] return and never divide by zero.  [ratio] is
    [round(kills / max(deaths, 1), 1)]: the quotient is the float next to
    the exact quotient, and the score is the number with one decimal nearest
    to that float; it is 5.0 for 5 kills and no death, 0.3 for 7 kills and
    20 deaths (the float of 0.35 is below 0.35) and 0.2 for 1 kill and 4
    deaths (0.25 is half way: to the even decimal).  [killrate] is 0 when
    there is no kill or when offense and defense are both 0 (so for 5 kills
    with offense 0 and defense 0), and
    [round(kills / ((offense + defense) / 20), 1)] otherwise, with its two
    float divisions: 0.3 for 7 kills in 20 minutes. *)
Theorem ratio_killrate_total (obj : stat) :
  0 <= kills obj -> 0 <= deaths obj -> 0 <= offense obj -> 0 <= defense obj ->
  ratio obj
  = Ok (round1 (binary64 (inject_Z (kills obj)
                          / inject_Z (Z.max (deaths obj) 1))))
  /\ (kills obj = 5 -> deaths obj = 0 -> ratio obj = Ok 5%Q)
  /\ killrate obj
     = (if (kills obj =? 0)%Z || ((offense obj =? 0)%Z && (defense obj =? 0)%Z)
        then Ok 0%Q
        else Ok (round1 (binary64
                           (float_of_int (kills obj)
                            / binary64 (inject_Z (offense obj + defense obj)
                                        / 20)))))
  /\ (kills obj = 5 -> offense obj = 0 -> defense obj = 0 -> killrate obj = Ok 0%Q)
  /\ (float_near (inject_Z (kills obj) / inject_Z (Z.max (deaths obj) 1))
        (binary64 (inject_Z (kills obj) / inject_Z (Z.max (deaths obj) 1)))
      /\ one_decimal
           (binary64 (inject_Z (kills obj) / inject_Z (Z.max (deaths obj) 1)))
           (score_of ratio obj))
  /\ (kills obj <> 0 -> offense obj + defense obj <> 0 ->
      float_near (inject_Z (offense obj + defense obj) / 20)
        (binary64 (inject_Z (offense obj + defense obj) / 20))
      /\ float_near
           (float_of_int (kills obj)
            / binary64 (inject_Z (offense obj + defense obj) / 20))
           (binary64 (float_of_int (kills obj)
                      / binary64 (inject_Z (offense obj + defense obj) / 20)))
      /\ one_decimal
           (binary64 (float_of_int (kills obj)
                      / binary64 (inject_Z (offense obj + defense obj) / 20)))
           (score_of killrate obj))
  /\ (kills obj = 7 -> deaths obj = 20 -> ratio obj = Ok (3 # 10))
  /\ (kills obj = 1 -> deaths obj = 4 -> ratio obj = Ok (1 # 5))
  /\ (kills obj = 7 -> offense obj = 150 -> defense obj = 250 ->
      killrate obj = Ok (3 # 10)).
Proof.
  intros Hk Hd Ho Hf.
  pose proof (ratio_value obj Hd) as Hratio.
  pose proof (killrate_value obj Ho Hf) as Hrate.
  assert (Hq : (0 <= inject_Z (kills obj) / inject_Z (Z.max (deaths obj) 1))%Q).
  { apply Qdiv_nonneg; apply inject_Z_nonneg; lia. }
  split; [exact Hratio |].
  split; [intros E5 E0; rewrite Hratio, E5, E0; now vm_compute |].
  split; [exact Hrate |].
  split; [intros E5 Eo Ef; rewrite Hrate, E5, Eo, Ef; reflexivity |].
  split.
  { split; [now apply binary64_error |].
    unfold score_of. rewrite Hratio. apply round1_one_decimal. }
  split.
  { intros Hk0 Hod.
    assert (Hm : (0 <= inject_Z (offense obj + defense obj) / 20)%Q).
    { apply Qdiv_nonneg; [apply inject_Z_nonneg; lia | discriminate]. }
    split; [now apply binary64_error |].
    split.
    - apply binary64_error. apply Qdiv_nonneg.
      + apply binary64_nonneg, inject_Z_nonneg, Hk.
      + now apply binary64_nonneg.
    - unfold score_of. rewrite Hrate.
      apply Z.eqb_neq in Hk0. rewrite Hk0. cbn [orb].
      destruct (Z.eqb_spec (offense obj) 0) as [Eo | Eo];
        destruct (Z.eqb_spec (defense obj) 0) as [Ef | Ef]; cbn [andb];
        try apply round1_one_decimal.
      lia. }
  split; [intros E7 E20; rewrite Hratio, E7, E20; now vm_compute |].
  split; [intros E1 E4; rewrite Hratio, E1, E4; now vm_compute |].
  intros E7 Eo Ef. rewrite Hrate, E7, Eo, Ef. now vm_compute.
Qed.

Lemma ratio_killrate_total_witness :
  ratio {| name := "Ann"; player_id := "76561198000000001"; team := allies;
           role := "rifleman"; unit_name := "able";
           kills := 5; deaths := 0; combat := 120; offense := 0;
           defense := 0; support := 40 |} = Ok 5%Q
  /\ killrate {| name := "Ann"; player_id := "76561198000000001"; team := allies;
                 role := "rifleman"; unit_name := "able";
                 kills := 5; deaths := 0; combat := 120; offense := 0;
                 defense := 0; support := 40 |} = Ok 0%Q.
Proof.
  pose proof (ratio_killrate_total
    {| name := "Ann"; player_id := "76561198000000001"; team := allies;
       role := "rifleman"; unit_name := "able";
       kills := 5; deaths := 0; combat := 120; offense := 0;
       defense := 0; support := 40 |}) as H.
  cbn [kills deaths offense defense] in H.
  destruct H as (_ & Hr & _ & Hk & _); try lia.
  split; [apply Hr | apply Hk]; reflexivity.
Defined.

Lemma Qabs_Qabs (w : Q) : Qabs (Qabs w) = Qabs w.
Proof. destruct w as [n d]. simpl. now rewrite Z.abs_idemp. Qed.

Lemma Qeq_bool_Qabs_0 (w : Q) : Qeq_bool (Qabs w) 0 = Qeq_bool w 0.
Proof.
  destruct w as [n d]. unfold Qeq_bool. simpl. rewrite !Z.mul_1_r.
  destruct n; reflexivity.
Qed.

(** C7. The sign of a weight has no effect: [real_offdef] and [teamplay]
    computed with the weight [w] are what they are with [|w|]; and with the
    weight 0 they are the plain product offense x defense and the plain sum
    combat + support. *)
Theorem weight_sign_and_zero (cfg : config) (w : Q) (obj : stat) :
  real_offdef (with_OFFENSEDEFENSE_RATIO w cfg) obj
  = real_offdef (with_OFFENSEDEFENSE_RATIO (Qabs w) cfg) obj
  /\ teamplay (with_COMBATSUPPORT_RATIO w cfg) obj
     = teamplay (with_COMBATSUPPORT_RATIO (Qabs w) cfg) obj
  /\ real_offdef (with_OFFENSEDEFENSE_RATIO 0 cfg) obj
     = Ok (inject_Z (offense obj * defense obj))
  /\ teamplay (with_COMBATSUPPORT_RATIO 0 cfg) obj
     = Ok (inject_Z (combat obj + support obj)).
Proof.
  unfold real_offdef, teamplay. simpl.
  rewrite Qeq_bool_Qabs_0, Qabs_Qabs.
  repeat split; reflexivity.
Qed.

(** A weight that is an integer: the floats of the products are the
    products themselves as long as these have at most 53 bits. *)
Lemma py_int_Z (n : Z) : py_int (inject_Z n) = n.
Proof.
  unfold py_int. destruct (Qle_bool 0 (inject_Z n));
    [apply Qfloor_Z | apply Qceiling_Z].
Qed.

Lemma real_offdef_integer_weight (cfg : config) (obj : stat) (w : Z) :
  OFFENSEDEFENSE_RATIO cfg = inject_Z w -> w <> 0 ->
  Z.abs (offense obj) < 2 ^ 53 -> Z.abs (defense obj) < 2 ^ 53 ->
  Z.abs w < 2 ^ 53 ->
  Z.abs (defense obj * Z.abs w) < 2 ^ 53 ->
  Z.abs (offense obj * (defense obj * Z.abs w)) < 2 ^ 53 ->
  real_offdef cfg obj
  = Ok (inject_Z (offense obj * (defense obj * Z.abs w))).
Proof.
  intros Ew Hw Ho Hd Hw' Hdw Hodw. unfold real_offdef. rewrite Ew.
  rewrite Qeq_bool_inject_Z_0.
  destruct (Z.eqb_spec w 0) as [E | _]; [contradiction |].
  change (Qabs (inject_Z w)) with (inject_Z (Z.abs w)).
  change (binary64 (inject_Z (Z.abs w))) with (float_of_int (Z.abs w)).
  rewrite !float_of_int_exact by lia.
  unfold fmul.
  change (inject_Z (defense obj) * inject_Z (Z.abs w))%Q
    with (inject_Z (defense obj * Z.abs w)).
  change (binary64 (inject_Z (defense obj * Z.abs w)))
    with (float_of_int (defense obj * Z.abs w)).
  rewrite float_of_int_exact by lia.
  change (inject_Z (offense obj) * inject_Z (defense obj * Z.abs w))%Q
    with (inject_Z (offense obj * (defense obj * Z.abs w))).
  change (binary64 (inject_Z (offense obj * (defense obj * Z.abs w))))
    with (float_of_int (offense obj * (defense obj * Z.abs w))).
  rewrite float_of_int_exact by lia.
  now rewrite py_int_Z.
Qed.

Lemma teamplay_integer_weight (cfg : config) (obj : stat) (w : Z) :
  COMBATSUPPORT_RATIO cfg = inject_Z w -> w <> 0 ->
  Z.abs (combat obj) < 2 ^ 53 -> Z.abs (support obj) < 2 ^ 53 ->
  Z.abs w < 2 ^ 53 ->
  Z.abs (support obj * Z.abs w) < 2 ^ 53 ->
  Z.abs (combat obj + support obj * Z.abs w) < 2 ^ 53 ->
  teamplay cfg obj
  = Ok (inject_Z (combat obj + support obj * Z.abs w)).
Proof.
  intros Ew Hw Hc Hs Hw' Hsw Hcsw. unfold teamplay. rewrite Ew.
  rewrite Qeq_bool_inject_Z_0.
  destruct (Z.eqb_spec w 0) as [E | _]; [contradiction |].
  change (Qabs (inject_Z w)) with (inject_Z (Z.abs w)).
  change (binary64 (inject_Z (Z.abs w))) with (float_of_int (Z.abs w)).
  rewrite !float_of_int_exact by lia.
  unfold fmul, fadd.
  change (inject_Z (support obj) * inject_Z (Z.abs w))%Q
    with (inject_Z (support obj * Z.abs w)).
  change (binary64 (inject_Z (support obj * Z.abs w)))
    with (float_of_int (support obj * Z.abs w)).
  rewrite float_of_int_exact by lia.
  assert (E : (inject_Z (combat obj) + inject_Z (support obj * Z.abs w)
               == inject_Z (combat obj + support obj * Z.abs w))%Q)
    by (now rewrite <- inject_Z_plus).
  rewrite (binary64_compat _ _ E).
  change (binary64 (inject_Z (combat obj + support obj * Z.abs w)))
    with (float_of_int (combat obj + support obj * Z.abs w)).
  rewrite float_of_int_exact by lia.
  now rewrite py_int_Z.
Qed.

(** A weight that is no binary fraction: the products are rounded as the
    floats are.  [6 * 0.7] is the float under 4.2, and [100 * 1.15] the
    float under 115. *)
Example offdef_weight_7_tenths :
  real_offdef (with_OFFENSEDEFENSE_RATIO (7 # 10) shipped) (scored 0 0 0 5 6 0)
  = Ok (inject_Z 20).
Proof. now vm_compute. Qed.

Example teamplay_weight_115_hundredths :
  teamplay (with_COMBATSUPPORT_RATIO (115 # 100) shipped) (scored 0 0 0 0 0 100)
  = Ok (inject_Z 114).
Proof. now vm_compute. Qed.

(** One kill for 20 deaths: the float of 0.05 is over 0.05, and the ratio
    is 0.1. *)
Example ratio_1_for_20 : ratio (scored 1 20 0 0 0 0) = Ok (1 # 10).
Proof. now vm_compute. Qed.

(** ** The sort *)

Lemma Qltb_true (a b : Q) : Qltb a b = true -> (a < b)%Q.
Proof.
  unfold Qltb. intros H. apply negb_true_iff in H.
  apply Qnot_le_lt. intros Hle. apply Qle_bool_iff in Hle. congruence.
Qed.

Lemma Qltb_false (a b : Q) : Qltb a b = false -> (b <= a)%Q.
Proof.
  unfold Qltb. intros H. apply negb_false_iff in H. now apply Qle_bool_iff.
Qed.

Lemma insert_desc_perm (x : Q * stat) (l : list (Q * stat)) :
  Permutation (x :: l) (insert_desc x l).
Proof.
  induction l as [| y l IH]; simpl; [reflexivity |].
  destruct (Qltb (fst x) (fst y)); [| reflexivity].
  rewrite perm_swap. now constructor.
Qed.

Lemma sort_desc_perm (l : list (Q * stat)) : Permutation l (sort_desc l).
Proof.
  induction l as [| x l IH]; simpl; [reflexivity |].
  rewrite <- insert_desc_perm. now constructor.
Qed.

Lemma insert_desc_sorted (x : Q * stat) (l : list (Q * stat)) :
  StronglySorted desc l -> StronglySorted desc (insert_desc x l).
Proof.
  induction l as [| y l IH]; intros Hs; simpl.
  - repeat constructor.
  - inversion Hs as [| ? ? Hl Hy]; subst.
    destruct (Qltb (fst x) (fst y)) eqn:E.
    + constructor; [now apply IH |].
      apply (Permutation_Forall (insert_desc_perm x l)).
      constructor; [| exact Hy].
      apply Qltb_true in E. now apply Qlt_le_weak.
    + apply Qltb_false in E.
      constructor; [exact Hs |].
      constructor; [exact E |].
      eapply Forall_impl; [| exact Hy].
      intros z Hz. unfold desc in *. now apply Qle_trans with (fst y).
Qed.

Lemma sort_desc_sorted (l : list (Q * stat)) : StronglySorted desc (sort_desc l).
Proof.
  induction l as [| x l IH]; simpl; [constructor | now apply insert_desc_sorted].
Qed.

(** Records of one score stay in the order they had. *)
Lemma insert_desc_stable (k : Q) (x : Q * stat) (l : list (Q * stat)) :
  filter (fun p => Qeq_bool (fst p) k) (insert_desc x l)
  = filter (fun p => Qeq_bool (fst p) k) (x :: l).
Proof.
  induction l as [| y l IH]; [reflexivity |].
  cbn [insert_desc].
  destruct (Qltb (fst x) (fst y)) eqn:E; [| reflexivity].
  cbn [filter] in *. rewrite IH.
  destruct (Qeq_bool (fst x) k) eqn:Ex; [| reflexivity].
  destruct (Qeq_bool (fst y) k) eqn:Ey; [| reflexivity].
  exfalso. apply Qltb_true in E.
  apply Qeq_bool_eq in Ex. apply Qeq_bool_eq in Ey.
  rewrite Ex, Ey in E. now apply Qlt_irrefl in E.
Qed.

Lemma sort_desc_stable (k : Q) (l : list (Q * stat)) :
  filter (fun p => Qeq_bool (fst p) k) (sort_desc l)
  = filter (fun p => Qeq_bool (fst p) k) l.
Proof.
  induction l as [| x l IH]; [reflexivity |].
  cbn [sort_desc]. rewrite insert_desc_stable.
  cbn [filter]. now rewrite IH.
Qed.

Section Sorted_reverse.

Variable sortkey : stat -> result Q.
Variable key : stat -> Q.

Lemma mapM_keyed (l : list stat) :
  (forall obj, In obj l -> sortkey obj = Ok (key obj)) ->
  mapM (keyed sortkey) l = Ok (decorate key l).
Proof.
  induction l as [| x l IH]; intros H; [reflexivity |].
  cbn [mapM]. unfold keyed at 1.
  rewrite (H x) by now left. cbn [bind].
  rewrite IH; [reflexivity |].
  intros obj Hin. apply H. now right.
Qed.

Lemma sorted_reverse_eq (l : list stat) :
  (forall obj, In obj l -> sortkey obj = Ok (key obj)) ->
  sorted_reverse l sortkey = Ok (map snd (sort_desc (decorate key l))).
Proof.
  intros H. unfold sorted_reverse. now rewrite mapM_keyed.
Qed.

Lemma decorate_snd (l : list stat) : map snd (decorate key l) = l.
Proof.
  unfold decorate. rewrite map_map. cbn [snd]. apply map_id.
Qed.

Lemma decorate_coherent (l : list stat) :
  Forall (fun p => fst p = key (snd p)) (sort_desc (decorate key l)).
Proof.
  apply (Permutation_Forall (sort_desc_perm _)).
  unfold decorate. apply Forall_forall. intros p Hin.
  apply in_map_iff in Hin. destruct Hin as (obj & <- & _). reflexivity.
Qed.

Lemma sorted_perm (l : list stat) :
  Permutation l (map snd (sort_desc (decorate key l))).
Proof.
  rewrite <- (decorate_snd l) at 1.
  apply Permutation_map, sort_desc_perm.
Qed.

Lemma coherent_sorted (L : list (Q * stat)) :
  Forall (fun p => fst p = key (snd p)) L ->
  StronglySorted desc L ->
  StronglySorted (by_key_desc key) (map snd L).
Proof.
  induction 2 as [| p L HL IH Hp]; cbn [map]; [constructor |].
  inversion H as [| ? ? Hc HcL]; subst.
  constructor; [now apply IH |].
  apply Forall_forall. intros obj Hin.
  apply in_map_iff in Hin. destruct Hin as (q & <- & Hq).
  rewrite Forall_forall in Hp, HcL.
  specialize (Hp q Hq). specialize (HcL q Hq).
  unfold desc in Hp. unfold by_key_desc. now rewrite <- Hc, <- HcL.
Qed.

Lemma coherent_filter (f : Q -> bool) (L : list (Q * stat)) :
  Forall (fun p => fst p = key (snd p)) L ->
  filter (fun obj => f (key obj)) (map snd L)
  = map snd (filter (fun p => f (fst p)) L).
Proof.
  induction 1 as [| p L Hp HL IH]; [reflexivity |].
  cbn [map filter]. rewrite <- Hp, IH.
  now destruct (f (fst p)).
Qed.

Lemma sorted_desc (l : list stat) :
  StronglySorted (by_key_desc key) (map snd (sort_desc (decorate key l))).
Proof.
  apply coherent_sorted; [apply decorate_coherent | apply sort_desc_sorted].
Qed.

Lemma sorted_stable (k : Q) (l : list stat) :
  filter (fun obj => Qeq_bool (key obj) k) (map snd (sort_desc (decorate key l)))
  = filter (fun obj => Qeq_bool (key obj) k) l.
Proof.
  rewrite (coherent_filter (fun q => Qeq_bool q k)) by apply decorate_coherent.
  rewrite sort_desc_stable.
  rewrite <- (coherent_filter (fun q => Qeq_bool q k)).
  - now rewrite decorate_snd.
  - unfold decorate. apply Forall_forall. intros p Hin.
    apply in_map_iff in Hin. destruct Hin as (obj & <- & _). reflexivity.
Qed.

End Sorted_reverse.

(** ** The loop of get_top *)

Lemma getitem_has_key (obj : stat) (key : string) :
  has_key key = true -> exists v, getitem obj key = Ok v.
Proof.
  unfold has_key, getitem. cbn [existsb].
  repeat (destruct (key =? _); [intros _; eexists; reflexivity |]).
  discriminate.
Qed.

Lemma filter_is_line_map_best (all sorted : list stat) :
  filter is_line (map (best_players all) sorted) = [].
Proof. induction sorted; [reflexivity | assumption]. Qed.

Lemma filter_is_vip_map_best (all sorted : list stat) :
  filter is_vip_text (map (best_players all) sorted) = [].
Proof. induction sorted; [reflexivity | assumption]. Qed.

Section LoopFacts.

Variable cfg : config.
Variables callmode calltype : string.
Variable sortkey : stat -> result Q.
Variables first_data second_data third_data fourth_data : string.
Variable squadtype_allplayers : list stat.
Variable vars : locals.
Variable sorted_data : list stat.

Hypothesis Hfirst : has_key first_data = true.
Hypothesis Hsecond : has_key second_data = true.
Hypothesis Hthird : has_key third_data = true.
Hypothesis Hshow : show_members vars <> None.
Hypothesis Hstatus : callmode = "matchend" -> server_status vars <> None.

Local Abbreviation entry' :=
  (entry sortkey first_data second_data third_data fourth_data).
Local Abbreviation listing' :=
  (listing calltype sortkey first_data second_data third_data fourth_data
     squadtype_allplayers vars sorted_data).
Local Abbreviation vip_gate' := (vip_gate cfg callmode calltype second_data vars).
Local Abbreviation turn' :=
  (turn cfg callmode calltype sortkey first_data second_data third_data
     fourth_data squadtype_allplayers vars sorted_data).
Local Abbreviation loop' :=
  (loop cfg callmode calltype sortkey first_data second_data third_data
     fourth_data squadtype_allplayers vars sorted_data).

Lemma sample_line_ok (sample : stat) (k : Q) :
  sortkey sample = Ok k ->
  exists e mark,
    entry' sample = Ok e
    /\ sample_line calltype sortkey first_data second_data third_data
         fourth_data sample = Ok (mark ++ [e])%list
    /\ is_line e = true
    /\ (mark = [] \/ mark = [SquadMark] /\ calltype = "squad").
Proof.
  intros Hk. unfold entry, sample_line.
  destruct (getitem_has_key sample _ Hfirst) as [v1 ->].
  destruct (getitem_has_key sample _ Hsecond) as [v2 ->].
  destruct (getitem_has_key sample _ Hthird) as [v3 ->].
  rewrite Hk. cbn [bind].
  destruct (fourth_data =? "").
  - destruct (String.eqb_spec calltype "squad") as [E | E].
    + eexists _, [SquadMark]. repeat split; auto.
    + eexists _, []. repeat split; auto.
  - eexists _, []. repeat split; auto.
Qed.

Lemma squad_members_ok (iteration : Z) :
  exists members,
    squad_members calltype squadtype_allplayers vars sorted_data iteration
    = Ok members
    /\ filter is_line members = []
    /\ filter is_vip_text members = []
    /\ (calltype <> "squad" -> members = []).
Proof.
  unfold squad_members.
  destruct (String.eqb_spec calltype "squad") as [E | E].
  - destruct (show_members vars) as [show |]; [| contradiction].
    cbn [local bind].
    destruct ((0 <? show)%Z && (iteration <=? show)%Z).
    + eexists. repeat split.
      * apply filter_is_line_map_best.
      * apply filter_is_vip_map_best.
      * contradiction.
    + exists []. repeat split; auto.
  - exists []. repeat split; auto.
Qed.

(** What the listing block appends for a record: its line when the score
    is not 0, nothing otherwise; and no text about a VIP. *)
Lemma listing_ok (sample : stat) (iteration : Z) (k : Q) :
  sortkey sample = Ok k ->
  exists lines,
    listing' sample iteration = Ok lines
    /\ map Ok (filter is_line lines)
       = map entry' (if shown k then [sample] else [])
    /\ filter is_vip_text lines = []
    /\ (shown k = false -> lines = []).
Proof.
  intros Hk. unfold listing. rewrite Hk. cbn [bind].
  fold (shown k). destruct (shown k).
  - destruct (sample_line_ok sample k Hk) as (e & mark & He & -> & Hl & Hm).
    destruct (squad_members_ok iteration) as (members & -> & Hf & Hv & _).
    cbn [bind]. eexists. split; [reflexivity |].
    rewrite !filter_app, Hf, Hv. cbn [filter]. rewrite Hl.
    cbn [map]. rewrite He.
    destruct e; try discriminate;
      destruct Hm as [-> | [-> _]]; repeat split; auto; discriminate.
  - exists []. repeat split; auto.
Qed.

Lemma vip_gate_ok (iteration : Z) : exists b, vip_gate' iteration = Ok b.
Proof.
  unfold vip_gate.
  destruct (String.eqb_spec callmode "matchend") as [E | E].
  - destruct (server_status vars) as [players |] eqn:Es.
    + cbn [local bind].
      match goal with
      | |- context [if ?c then _ else _] => destruct c
      end; eauto.
    + now apply Hstatus in E.
  - cbn [andb]. eauto.
Qed.

(** One turn returns, and appends the listing of the record and then at
    most one text about a VIP. *)
Lemma turn_ok (sample : stat) (iteration : Z) (output : list chunk)
    (r : rcon) (k : Q) :
  sortkey sample = Ok k ->
  exists lines extra iteration' r',
    listing' sample iteration = Ok lines
    /\ turn' sample iteration output r
       = (Ok (iteration', output ++ lines ++ extra)%list, r')
    /\ filter is_line extra = [].
Proof.
  intros Hk.
  destruct (listing_ok sample iteration k Hk) as (lines & Hl & _).
  exists lines. unfold turn. rewrite Hl.
  destruct (vip_gate_ok iteration) as [b Hb]. rewrite Hb.
  destruct b.
  - destruct (late_commander cfg sample).
    + exists [], iteration, r. now rewrite app_nil_r.
    + unfold is_vip_for_less_than_xh, give_xh_vip. cbn [get_vip_ids].
      destruct (vip_scan _ _ _).
      * eexists [_], _, _. rewrite app_assoc. repeat split; reflexivity.
      * eexists [_], _, _. rewrite app_assoc. repeat split; reflexivity.
  - exists [], (iteration + 1), r. now rewrite app_nil_r.
Qed.

(** The loop returns, and the lines of its output are the lines of the
    records whose score is not 0, one each and in the order of the
    records. *)
Lemma loop_ok (key : stat -> Q) (samples : list stat) :
  (forall obj, In obj samples -> sortkey obj = Ok (key obj)) ->
  forall iteration output r,
  exists output' r',
    loop' samples iteration output r = (Ok output', r')
    /\ map Ok (filter is_line output')
       = (map Ok (filter is_line output)
          ++ map entry' (filter (fun obj => shown (key obj)) samples))%list.
Proof.
  induction samples as [| sample rest IH]; intros Hkey iteration output r.
  - exists output, r. cbn. now rewrite app_nil_r.
  - assert (Hk : sortkey sample = Ok (key sample)) by (apply Hkey; now left).
    destruct (turn_ok sample iteration output r _ Hk)
      as (lines & extra & iteration' & r' & Hl & Ht & He).
    destruct (listing_ok sample iteration _ Hk) as (lines' & Hl' & Hm & _).
    rewrite Hl in Hl'. injection Hl' as <-.
    destruct (IH (fun obj H => Hkey obj (or_intror H))
                iteration' (output ++ lines ++ extra)%list r')
      as (output' & r'' & Hloop & Hlines).
    exists output', r''. cbn [loop]. rewrite Ht.
    split; [exact Hloop |].
    rewrite Hlines, !filter_app, He, app_nil_r, map_app, Hm.
    cbn [filter]. destruct (shown (key sample)); cbn [map app].
    + now rewrite <- app_assoc.
    + now rewrite app_nil_r.
Qed.

End LoopFacts.

(** ** get_top as a whole *)

Lemma returns_score (sortkey : stat -> result Q) (bucket : list stat) :
  returns sortkey bucket ->
  forall obj, In obj bucket -> sortkey obj = Ok (score_of sortkey obj).
Proof.
  intros H obj Hin. destruct (H obj Hin) as [k Hk].
  unfold score_of. now rewrite Hk.
Qed.

Lemma In_slice_to {A : Type} (n : Z) (l : list A) (x : A) :
  In x (slice_to n l) -> In x l.
Proof.
  unfold slice_to. intros H.
  destruct (n <? 0)%Z;
    match type of H with
    | In _ (firstn ?m _) => rewrite <- (firstn_skipn m l)
    end; apply in_or_app; now left.
Qed.

Lemma get_top_ok (cfg : config) (r : rcon) (callmode calltype : string)
    (bucket : list stat) (sortkey : stat -> result Q)
    (first_data second_data third_data fourth_data : string)
    (all : list stat) (limit : Z) :
  returns sortkey bucket ->
  has_key first_data = true ->
  has_key second_data = true ->
  has_key third_data = true ->
  mode_limit cfg callmode = Some limit ->
  exists output r',
    get_top cfg r callmode calltype bucket sortkey
      first_data second_data third_data fourth_data all = (Ok output, r')
    /\ map Ok (filter is_line output)
       = map (entry sortkey first_data second_data third_data fourth_data)
           (filter (fun obj => shown (score_of sortkey obj))
              (slice_to limit (ranked sortkey bucket))).
Proof.
  intros Hret H1 H2 H3 Hlimit.
  pose proof (returns_score _ _ Hret) as Hscore.
  assert (Hin : forall obj,
             In obj (slice_to limit (ranked sortkey bucket)) ->
             sortkey obj = Ok (score_of sortkey obj)).
  { intros obj Hobj. apply Hscore. apply In_slice_to in Hobj.
    eapply Permutation_in; [symmetry; apply sorted_perm | exact Hobj]. }
  unfold get_top, mode_limit in *.
  rewrite (sorted_reverse_eq sortkey (score_of sortkey) bucket Hscore).
  fold (ranked sortkey bucket).
  destruct (String.eqb_spec callmode "matchend") as [Em | Em].
  - injection Hlimit as <-.
    cbn [get_status local tops_limit].
    match goal with
    | |- context [loop _ _ _ _ _ _ _ _ _ ?vars _ ?samples 1 [] ?r1] =>
        destruct (loop_ok cfg callmode calltype sortkey first_data second_data
                    third_data fourth_data all vars (ranked sortkey bucket)
                    H1 H2 H3 ltac:(discriminate) ltac:(discriminate)
                    (score_of sortkey) samples Hin 1 [] r1)
          as (output & r' & Hloop & Hlines)
    end.
    exists output, r'. split; [| exact Hlines].
    destruct (callmode =? "chat"); exact Hloop.
  - destruct (String.eqb_spec callmode "chat") as [Ec | Ec]; [| discriminate].
    injection Hlimit as <-.
    cbn [local tops_limit].
    match goal with
    | |- context [loop _ _ _ _ _ _ _ _ _ ?vars _ ?samples 1 [] ?r1] =>
        destruct (loop_ok cfg callmode calltype sortkey first_data second_data
                    third_data fourth_data all vars (ranked sortkey bucket)
                    H1 H2 H3 ltac:(discriminate) ltac:(contradiction)
                    (score_of sortkey) samples Hin 1 [] r1)
          as (output & r' & Hloop & Hlines)
    end.
    exists output, r'. split; [exact Hloop | exact Hlines].
Qed.

Lemma teamplay_returns (cfg : config) (bucket : list stat) :
  returns (teamplay cfg) bucket.
Proof.
  intros obj _. unfold teamplay.
  destruct (Qeq_bool (COMBATSUPPORT_RATIO cfg) 0); eauto.
Qed.

Lemma real_offdef_returns (cfg : config) (bucket : list stat) :
  returns (real_offdef cfg) bucket.
Proof.
  intros obj _. unfold real_offdef.
  destruct (Qeq_bool (OFFENSEDEFENSE_RATIO cfg) 0); eauto.
Qed.

Lemma map_Ok_inj {A : Type} (l l' : list A) :
  map (@Ok A) l = map (@Ok A) l' -> l = l'.
Proof.
  revert l'. induction l as [| a l IH]; intros [| a' l'] H;
    try discriminate; [reflexivity |].
  cbn [map] in H. injection H as -> H. f_equal. now apply IH.
Qed.

(** C3. The lines of the listing are the lines of the records of the
    first [tops_limit] of the sorted bucket whose score is not 0, one line
    each and in that order; the sorted bucket holds the records of the
    bucket in descending order of score, records of equal score in the order
    the bucket has them.  So no record of score 0 has a line. *)
Theorem get_top_listing (cfg : config) (r : rcon) (callmode calltype : string)
    (bucket : list stat) (sortkey : stat -> result Q)
    (first_data second_data third_data fourth_data : string)
    (all : list stat) (limit : Z) :
  returns sortkey bucket ->
  has_key first_data = true ->
  has_key second_data = true ->
  has_key third_data = true ->
  mode_limit cfg callmode = Some limit ->
  exists sorted_data output r',
    sorted_reverse bucket sortkey = Ok sorted_data
    /\ Permutation bucket sorted_data
    /\ StronglySorted (by_key_desc (score_of sortkey)) sorted_data
    /\ (forall k,
          filter (fun obj => Qeq_bool (score_of sortkey obj) k) sorted_data
          = filter (fun obj => Qeq_bool (score_of sortkey obj) k) bucket)
    /\ get_top cfg r callmode calltype bucket sortkey
         first_data second_data third_data fourth_data all = (Ok output, r')
    /\ map Ok (filter is_line output)
       = map (entry sortkey first_data second_data third_data fourth_data)
           (filter (fun obj => negb (Qeq_bool (score_of sortkey obj) 0))
              (slice_to limit sorted_data)).
Proof.
  intros Hret H1 H2 H3 Hlimit.
  destruct (get_top_ok cfg r callmode calltype bucket sortkey first_data
              second_data third_data fourth_data all limit Hret H1 H2 H3 Hlimit)
    as (output & r' & Hget & Hlines).
  exists (ranked sortkey bucket), output, r'.
  repeat split.
  - apply sorted_reverse_eq, returns_score, Hret.
  - apply sorted_perm.
  - apply sorted_desc.
  - intros k. apply sorted_stable.
  - exact Hget.
  - exact Hlines.
Qed.

(** The five players with a limit of 3: the two who score 50, in the order
    of the bucket, then the one who scores 30. *)
Lemma get_top_listing_witness :
  exists output r',
    get_top shipped quiet_server "chat" "player" five_players
      (teamplay shipped) "name" "combat" "support" "" five_players
    = (Ok output, r')
    /\ filter is_line output
       = [FieldsLine (VStr "Ann") allies (VInt 50) (VInt 0);
          FieldsLine (VStr "Bob") allies (VInt 50) (VInt 0);
          FieldsLine (VStr "Cid") allies (VInt 30) (VInt 0)].
Proof.
  destruct (get_top_listing shipped quiet_server "chat" "player" five_players
              (teamplay shipped) "name" "combat" "support" "" five_players 3
              (teamplay_returns shipped five_players)
              eq_refl eq_refl eq_refl eq_refl)
    as (sorted_data & output & r' & Hsorted & _ & _ & _ & Hget & Hlines).
  exists output, r'. split; [exact Hget |].
  vm_compute in Hsorted. injection Hsorted as <-.
  apply map_Ok_inj. rewrite Hlines. vm_compute. reflexivity.
Defined.

(** C10. With a call mode that is neither ["chat"] nor ["matchend"],
    [get_top] returns no listing, whatever the bucket: where the metric
    returns on the records of the bucket it raises [UnboundLocalError] on
    [tops_limit], before any output and before any request to the server.
    With one of the two call modes it returns a listing. *)
Theorem get_top_callmode (cfg : config) (r : rcon) (callmode calltype : string)
    (bucket : list stat) (sortkey : stat -> result Q)
    (first_data second_data third_data fourth_data : string)
    (all : list stat) :
  (callmode <> "chat" -> callmode <> "matchend" ->
   (forall output r',
      get_top cfg r callmode calltype bucket sortkey
        first_data second_data third_data fourth_data all
      <> (Ok output, r'))
   /\ (returns sortkey bucket ->
       get_top cfg r callmode calltype bucket sortkey
         first_data second_data third_data fourth_data all
       = (Raise (UnboundLocalError "tops_limit"), r)))
  /\ (callmode = "chat" \/ callmode = "matchend" ->
      returns sortkey bucket ->
      has_key first_data = true ->
      has_key second_data = true ->
      has_key third_data = true ->
      exists output r',
        get_top cfg r callmode calltype bucket sortkey
          first_data second_data third_data fourth_data all
        = (Ok output, r')).
Proof.
  split.
  - intros Hc Hm. apply String.eqb_neq in Hc, Hm.
    unfold get_top. rewrite Hc, Hm. split.
    + intros output r'.
      destruct (sorted_reverse bucket sortkey); discriminate.
    + intros Hret.
      rewrite (sorted_reverse_eq sortkey (score_of sortkey) bucket
                 (returns_score _ _ Hret)).
      reflexivity.
  - intros Hmode Hret H1 H2 H3.
    assert (Hlimit : exists limit, mode_limit cfg callmode = Some limit).
    { unfold mode_limit. destruct Hmode as [-> | ->]; cbn; eauto. }
    destruct Hlimit as [limit Hlimit].
    destruct (get_top_ok cfg r callmode calltype bucket sortkey first_data
                second_data third_data fourth_data all limit Hret H1 H2 H3
                Hlimit) as (output & r' & Hget & _).
    eauto.
Qed.

Lemma get_top_callmode_witness :
  get_top shipped quiet_server "seed" "player" five_players
    (teamplay shipped) "name" "combat" "support" "" five_players
  = (Raise (UnboundLocalError "tops_limit"), quiet_server)
  /\ exists output r',
       get_top shipped quiet_server "matchend" "player" five_players
         (teamplay shipped) "name" "combat" "support" "" five_players
       = (Ok output, r').
Proof.
  split.
  - apply (proj1 (get_top_callmode shipped quiet_server "seed" "player"
                    five_players (teamplay shipped) "name" "combat" "support"
                    "" five_players));
      [discriminate | discriminate | apply teamplay_returns].
  - apply (proj2 (get_top_callmode shipped quiet_server "matchend" "player"
                    five_players (teamplay shipped) "name" "combat" "support"
                    "" five_players));
      [now right | apply teamplay_returns | reflexivity ..].
Defined.

(** ** What a returned listing is made of *)

Section LoopShape.

Variable cfg : config.
Variables callmode calltype : string.
Variable sortkey : stat -> result Q.
Variables first_data second_data third_data fourth_data : string.
Variable squadtype_allplayers : list stat.
Variable vars : locals.
Variable sorted_data : list stat.

Local Abbreviation entry' :=
  (entry sortkey first_data second_data third_data fourth_data).
Local Abbreviation listing' :=
  (listing calltype sortkey first_data second_data third_data fourth_data
     squadtype_allplayers vars sorted_data).
Local Abbreviation vip_gate' := (vip_gate cfg callmode calltype second_data vars).
Local Abbreviation turn' :=
  (turn cfg callmode calltype sortkey first_data second_data third_data
     fourth_data squadtype_allplayers vars sorted_data).
Local Abbreviation loop' :=
  (loop cfg callmode calltype sortkey first_data second_data third_data
     fourth_data squadtype_allplayers vars sorted_data).

(** A line in what the listing block appends is the line of the record. *)
Lemma listing_inv (sample : stat) (iteration : Z) (lines : list chunk) :
  listing' sample iteration = Ok lines ->
  forall c, In c lines -> is_line c = true -> entry' sample = Ok c.
Proof.
  unfold listing, sample_line, squad_members, entry.
  destruct (sortkey sample) as [k |]; [| discriminate]. cbn [bind].
  destruct (negb (Qeq_bool k 0)).
  2:{ intros [= <-] c []. }
  intros H c Hc Hline.
  assert (Hmembers : forall members,
             (if calltype =? "squad"
              then show <- local "show_members" (show_members vars) ;;
                   (if (0 <? show)%Z && (iteration <=? show)%Z
                    then Ok (map (best_players squadtype_allplayers)
                               (slice_to show sorted_data))
                    else Ok [])
              else Ok []) = Ok members ->
             filter is_line members = []).
  { intros members. destruct (calltype =? "squad"); [| now intros [= <-]].
    destruct (show_members vars) as [show |]; [| discriminate].
    cbn [local bind].
    destruct ((0 <? show)%Z && (iteration <=? show)%Z); intros [= <-];
      [apply filter_is_line_map_best | reflexivity]. }
  assert (Hin : forall (mark members : list chunk) (e : chunk),
             filter is_line mark = [] -> filter is_line members = [] ->
             In c ((mark ++ [e]) ++ members) -> c = e).
  { intros mark members e Hmark Hmem Hc'.
    assert (Hf : In c (filter is_line ((mark ++ [e]) ++ members)))
      by (apply filter_In; now split).
    rewrite !filter_app, Hmark, Hmem, app_nil_r in Hf. cbn in Hf.
    destruct (is_line e); cbn in Hf; intuition. }
  destruct (fourth_data =? "").
  - destruct (getitem sample first_data) as [v1 |]; [| discriminate].
    destruct (getitem sample second_data) as [v2 |]; [| discriminate].
    destruct (getitem sample third_data) as [v3 |]; [| discriminate].
    cbn [bind] in *.
    match type of H with
    | (members <- ?m ;; _) = _ =>
        destruct m as [members |] eqn:Em; [| discriminate]
    end.
    cbn [bind] in H. injection H as <-.
    f_equal. symmetry.
    apply (Hin (if calltype =? "squad" then [SquadMark] else []) members _
             ltac:(now destruct (calltype =? "squad"))
             (Hmembers _ eq_refl) Hc).
  - destruct (getitem sample first_data) as [v1 |]; [| discriminate].
    cbn [bind] in *.
    match type of H with
    | (members <- ?m ;; _) = _ =>
        destruct m as [members |] eqn:Em; [| discriminate]
    end.
    cbn [bind] in H. injection H as <-.
    f_equal. symmetry.
    apply (Hin [] members _ eq_refl (Hmembers _ eq_refl) Hc).
Qed.

(** A turn that returns has appended the listing of the record and then
    only texts about a VIP. *)
Lemma turn_inv (sample : stat) (iteration iteration' : Z)
    (output output' : list chunk) (r r' : rcon) :
  turn' sample iteration output r = (Ok (iteration', output'), r') ->
  exists lines extra,
    listing' sample iteration = Ok lines
    /\ output' = (output ++ lines ++ extra)%list
    /\ filter is_line extra = [].
Proof.
  unfold turn.
  destruct (listing' sample iteration) as [lines |]; [| discriminate].
  destruct (vip_gate' iteration) as [[|] |]; [| | discriminate].
  - destruct (late_commander cfg sample).
    + intros [= <- <- <-]. exists lines, []. now rewrite app_nil_r.
    + unfold is_vip_for_less_than_xh, give_xh_vip. cbn [get_vip_ids].
      destruct (vip_scan _ _ _); intros [= <- <- <-];
        eexists lines, [_]; rewrite app_assoc; repeat split; reflexivity.
  - intros [= <- <- <-]. exists lines, []. now rewrite app_nil_r.
Qed.

Lemma loop_inv (samples : list stat) :
  forall iteration output r output' r',
    loop' samples iteration output r = (Ok output', r') ->
    forall c, In c output' -> is_line c = true ->
    In c output \/ exists sample, In sample samples /\ entry' sample = Ok c.
Proof.
  induction samples as [| sample rest IH];
    intros iteration output r output' r' Hloop c Hc Hline.
  - injection Hloop as <- <-. now left.
  - cbn [loop] in Hloop.
    destruct (turn' sample iteration output r) as [[[it1 out1] |] r1] eqn:Ht;
      [| discriminate].
    apply turn_inv in Ht. destruct Ht as (lines & extra & Hl & -> & He).
    destruct (IH _ _ _ _ _ Hloop c Hc Hline) as [Hin | (s & Hs & Hentry)].
    + apply in_app_or in Hin. destruct Hin as [Hin | Hin]; [now left |].
      apply in_app_or in Hin. destruct Hin as [Hin | Hin].
      * right. exists sample. split; [now left |].
        now apply (listing_inv sample iteration lines Hl).
      * exfalso.
        assert (Hf : In c (filter is_line extra)) by (apply filter_In; now split).
        now rewrite He in Hf.
    + right. exists s. split; [now right | exact Hentry].
Qed.

End LoopShape.

Lemma mapM_keyed_In (sortkey : stat -> result Q) (l : list stat) :
  forall decorated, mapM (keyed sortkey) l = Ok decorated ->
  forall p, In p decorated -> In (snd p) l.
Proof.
  induction l as [| x l IH]; intros decorated H p Hp.
  - injection H as <-. destruct Hp.
  - cbn [mapM] in H. unfold keyed at 1 in H.
    destruct (sortkey x) as [k |]; [| discriminate]. cbn [bind] in H.
    destruct (mapM (keyed sortkey) l) as [bs |]; [| discriminate].
    cbn [bind] in H. injection H as <-.
    destruct Hp as [<- | Hp]; [now left | right; now apply (IH bs)].
Qed.

Lemma sorted_reverse_In (sortkey : stat -> result Q) (bucket sorted : list stat) :
  sorted_reverse bucket sortkey = Ok sorted ->
  forall obj, In obj sorted -> In obj bucket.
Proof.
  unfold sorted_reverse. intros H obj Hobj.
  destruct (mapM (keyed sortkey) bucket) as [decorated |] eqn:Em;
    [| discriminate].
  cbn [bind] in H. injection H as <-.
  apply in_map_iff in Hobj. destruct Hobj as (p & <- & Hp).
  apply (mapM_keyed_In sortkey bucket decorated Em).
  eapply Permutation_in; [symmetry; apply sort_desc_perm | exact Hp].
Qed.

(** Every line of a listing that [get_top] returns is the line of a record
    of the bucket. *)
Lemma get_top_lines (cfg : config) (r r' : rcon) (callmode calltype : string)
    (bucket : list stat) (sortkey : stat -> result Q)
    (first_data second_data third_data fourth_data : string)
    (all : list stat) (output : list chunk) :
  get_top cfg r callmode calltype bucket sortkey
    first_data second_data third_data fourth_data all = (Ok output, r') ->
  forall c, In c output -> is_line c = true ->
  exists sample,
    In sample bucket
    /\ entry sortkey first_data second_data third_data fourth_data sample = Ok c.
Proof.
  unfold get_top. intros H c Hc Hline.
  destruct (sorted_reverse bucket sortkey) as [sorted |] eqn:Es.
  2:{ destruct (callmode =? "matchend"); discriminate. }
  assert (Hloop : exists vars limit r1,
             loop cfg callmode calltype sortkey first_data second_data
               third_data fourth_data all vars sorted
               (slice_to limit sorted) 1 [] r1 = (Ok output, r')).
  { destruct (callmode =? "matchend"); cbn [get_status local tops_limit] in H.
    - eauto.
    - destruct (callmode =? "chat"); cbn [local tops_limit unbound] in H;
        [eauto | discriminate]. }
  destruct Hloop as (vars & limit & r1 & Hloop).
  destruct (loop_inv _ _ _ _ _ _ _ _ _ _ _ _ _ _ _ _ _ Hloop c Hc Hline)
    as [[] | (sample & Hs & He)].
  exists sample. split; [| exact He].
  apply (sorted_reverse_In sortkey bucket sorted Es).
  now apply In_slice_to in Hs.
Qed.

(** ** The nine listings *)

Lemma get_top_fields (cfg : config) (r r' : rcon) (callmode calltype : string)
    (bucket : list stat) (sortkey : stat -> result Q)
    (second_data third_data : string) (second third : stat -> Z)
    (all : list stat) (output : list chunk) :
  (forall p, getitem p second_data = Ok (VInt (second p))) ->
  (forall p, getitem p third_data = Ok (VInt (third p))) ->
  get_top cfg r callmode calltype bucket sortkey
    "name" second_data third_data "" all = (Ok output, r') ->
  lines_are (fields_of second third bucket) output.
Proof.
  intros H2 H3 Hget c Hc Hline.
  destruct (get_top_lines _ _ _ _ _ _ _ _ _ _ _ _ _ Hget c Hc Hline)
    as (p & Hp & He).
  exists p. split; [exact Hp |].
  unfold entry in He. rewrite H2, H3 in He. cbn in He. congruence.
Qed.

Lemma get_top_score (cfg : config) (r r' : rcon) (callmode calltype : string)
    (bucket : list stat) (sortkey : stat -> result Q)
    (second_data third_data : string)
    (all : list stat) (output : list chunk) :
  get_top cfg r callmode calltype bucket sortkey
    "name" second_data third_data "defense" all = (Ok output, r') ->
  lines_are (score_by sortkey bucket) output.
Proof.
  intros Hget c Hc Hline.
  destruct (get_top_lines _ _ _ _ _ _ _ _ _ _ _ _ _ Hget c Hc Hline)
    as (p & Hp & He).
  unfold entry in He. cbn in He.
  destruct (sortkey p) as [score |] eqn:Es; [| discriminate].
  cbn [bind] in He.
  exists p, score. repeat split; [exact Hp | exact Es | congruence].
Qed.

(** C9, as the code has it.  In the nine listings of [stats_gather], the
    lines of the kills/min listing show the score [killrate] gives to the
    player; the lines of every other listing, the one of the kills/deaths
    ratio among them, show two fields of the record as they are: kills and
    deaths for the ratio, offense and defense, or combat and support. *)
Theorem listing_lines_forms (cfg : config) (r r' : rcon) (callmode : string)
    (view : team_view) (boards : tops) :
  stats_gather cfg r callmode view = (Ok boards, r') ->
  lines_are (score_by killrate (all_players_infantry view))
    (top_infantry_killrate boards)
  /\ lines_are (fields_of kills deaths (all_players_infantry view))
       (top_infantry_ratio boards)
  /\ lines_are (fields_of combat support (all_commanders view))
       (top_commanders_teamplay boards)
  /\ lines_are (fields_of offense defense (all_players_infantry view))
       (top_infantry_offdef boards)
  /\ lines_are (fields_of combat support (all_players_infantry view))
       (top_infantry_teamplay boards)
  /\ lines_are (fields_of offense defense (all_squads_infantry view))
       (top_squads_infantry_offdef boards)
  /\ lines_are (fields_of combat support (all_squads_infantry view))
       (top_squads_infantry_teamplay boards)
  /\ lines_are (fields_of offense defense (all_squads_armor view))
       (top_squads_armor_offdef boards)
  /\ lines_are (fields_of combat support (all_squads_armor view))
       (top_squads_armor_teamplay boards).
Proof.
  unfold stats_gather. intros H.
  do 9 next_top H.
  injection H as <- <-. cbn.
  repeat split;
    first [ eapply get_top_score; eassumption
          | eapply get_top_fields; [| | eassumption]; reflexivity ].
Qed.

Lemma listing_lines_forms_witness :
  lines_are (score_by killrate [sniper])
    [ScoreLine (VStr "Fay") axis (1 # 10)]
  /\ lines_are (fields_of kills deaths [sniper])
       [FieldsLine (VStr "Fay") axis (VInt 5) (VInt 2)].
Proof.
  pose proof (listing_lines_forms shipped quiet_server
                (logged GetStatus
                   (logged GetStatus
                      (logged GetStatus
                         (logged GetStatus
                            (logged GetStatus
                               (logged GetStatus
                                  (logged GetStatus
                                     (logged GetStatus
                                        (logged GetStatus quiet_server)))))))))
                "matchend" one_sniper
                {| top_commanders_teamplay := [];
                   top_infantry_offdef :=
                     [FieldsLine (VStr "Fay") axis (VInt 600) (VInt 400)];
                   top_infantry_teamplay :=
                     [FieldsLine (VStr "Fay") axis (VInt 90) (VInt 0)];
                   top_infantry_ratio :=
                     [FieldsLine (VStr "Fay") axis (VInt 5) (VInt 2)];
                   top_infantry_killrate :=
                     [ScoreLine (VStr "Fay") axis (1 # 10)];
                   top_squads_infantry_offdef := [];
                   top_squads_infantry_teamplay := [];
                   top_squads_armor_offdef := [];
                   top_squads_armor_teamplay := [] |}
                eq_refl) as H.
  split; [apply H | apply H].
Defined.

(** C9, as it is stated, fails.  The listing of the kills/deaths ratio
    does not show the ratio: for a player with 5 kills and 2 deaths, whose ratio is 2.5, the line shows 5
    and 2. *)
Lemma ratio_listing_shows_fields :
  ~ (forall cfg r r' callmode view boards,
       stats_gather cfg r callmode view = (Ok boards, r') ->
       lines_are (score_by ratio (all_players_infantry view))
         (top_infantry_ratio boards)).
Proof.
  intros H.
  destruct (H shipped quiet_server quiet_server "chat" one_sniper
              {| top_commanders_teamplay := [];
                 top_infantry_offdef :=
                   [FieldsLine (VStr "Fay") axis (VInt 600) (VInt 400)];
                 top_infantry_teamplay :=
                   [FieldsLine (VStr "Fay") axis (VInt 90) (VInt 0)];
                 top_infantry_ratio :=
                   [FieldsLine (VStr "Fay") axis (VInt 5) (VInt 2)];
                 top_infantry_killrate :=
                   [ScoreLine (VStr "Fay") axis (1 # 10)];
                 top_squads_infantry_offdef := [];
                 top_squads_infantry_teamplay := [];
                 top_squads_armor_offdef := [];
                 top_squads_armor_teamplay := [] |}
              eq_refl
              (FieldsLine (VStr "Fay") axis (VInt 5) (VInt 2))
              (or_introl eq_refl) eq_refl)
    as (p & score & _ & _ & Hc).
  discriminate Hc.
Qed.

(** The two lines as text. *)
Example ratio_line_text (strftime_local : Z -> string) :
  render shipped strftime_local
    [FieldsLine (VStr "Fay") axis (VInt 5) (VInt 2)]
  = "Fay (axi): 5 ; 2" ++ newline.
Proof. reflexivity. Qed.

Example killrate_line_text (strftime_local : Z -> string) :
  render shipped strftime_local [ScoreLine (VStr "Fay") axis (1 # 10)]
  = "Fay (axi): 0.1" ++ newline.
Proof. reflexivity. Qed.

(** ** The gate of the VIP *)

Lemma get_top_matchend (cfg : config) (r : rcon) (calltype : string)
    (bucket : list stat) (sortkey : stat -> result Q)
    (first_data second_data third_data fourth_data : string)
    (all : list stat) :
  returns sortkey bucket ->
  get_top cfg r "matchend" calltype bucket sortkey
    first_data second_data third_data fourth_data all
  = loop cfg "matchend" calltype sortkey
      first_data second_data third_data fourth_data all
      (matchend_vars cfg r) (ranked sortkey bucket)
      (slice_to (TOPS_MATCHEND cfg) (ranked sortkey bucket)) 1 []
      (logged GetStatus r).
Proof.
  intros Hret. unfold get_top.
  rewrite (sorted_reverse_eq sortkey (score_of sortkey) bucket
             (returns_score _ _ Hret)).
  reflexivity.
Qed.

Section PlayerLoop.

Variable cfg : config.
Variable callmode : string.
Variable sortkey : stat -> result Q.
Variables first_data second_data third_data fourth_data : string.
Variable squadtype_allplayers : list stat.
Variable vars : locals.
Variable sorted_data : list stat.

Local Abbreviation entry' :=
  (entry sortkey first_data second_data third_data fourth_data).
Local Abbreviation listing' :=
  (listing "player" sortkey first_data second_data third_data fourth_data
     squadtype_allplayers vars sorted_data).
Local Abbreviation vip_gate' := (vip_gate cfg callmode "player" second_data vars).
Local Abbreviation turn' :=
  (turn cfg callmode "player" sortkey first_data second_data third_data
     fourth_data squadtype_allplayers vars sorted_data).
Local Abbreviation loop' :=
  (loop cfg callmode "player" sortkey first_data second_data third_data
     fourth_data squadtype_allplayers vars sorted_data).

(** For players the listing block does not look at [iteration]. *)
Lemma listing_player_iteration (sample : stat) (i j : Z) :
  listing' sample i = listing' sample j.
Proof. reflexivity. Qed.

(** For players the listing block appends the line of the record and
    nothing else. *)
Lemma listing_player (sample : stat) (iteration : Z) (lines : list chunk) :
  listing' sample iteration = Ok lines ->
  map Ok lines
  = map entry' (if shown (score_of sortkey sample) then [sample] else []).
Proof.
  unfold listing, sample_line, squad_members, entry, score_of.
  destruct (sortkey sample) as [k |] eqn:Ek; [| discriminate]. cbn [bind].
  fold (shown k). destruct (shown k); [| now intros [= <-]].
  cbn [map]. rewrite ?Ek.
  destruct (fourth_data =? "").
  - destruct (getitem sample first_data) as [v1 |]; [| discriminate].
    destruct (getitem sample second_data) as [v2 |]; [| discriminate].
    destruct (getitem sample third_data) as [v3 |]; [| discriminate].
    cbn. now intros [= <-].
  - destruct (getitem sample first_data) as [v1 |]; [| discriminate].
    cbn. now intros [= <-].
Qed.

(** Once the gate is shut at an index it is shut at every later one. *)
Lemma gate_stays_shut (i j : Z) :
  vip_gate' i = Ok false -> i <= j -> vip_gate' j = Ok false.
Proof.
  unfold vip_gate. intros H Hij.
  match goal with
  | |- (if ?c then _ else _) = _ => destruct c
  end; [| reflexivity].
  destruct (server_status vars) as [players |]; [| discriminate].
  cbn [local bind] in *. injection H as H. f_equal.
  apply andb_false_iff in H. apply andb_false_iff.
  destruct H as [H | H]; [now left | right].
  apply Z.leb_gt in H. apply Z.leb_gt. lia.
Qed.

(** With the gate shut the loop does not depend on the index it starts
    from. *)
Lemma loop_shut_iteration (samples : list stat) :
  forall i j output r,
    vip_gate' i = Ok false -> i <= j ->
    loop' samples i output r = loop' samples j output r.
Proof.
  induction samples as [| sample rest IH]; intros i j output r Hi Hij;
    [reflexivity |].
  cbn [loop]. unfold turn.
  rewrite (listing_player_iteration sample i j).
  rewrite Hi, (gate_stays_shut i j Hi Hij).
  destruct (listing' sample j) as [lines |]; [| reflexivity].
  apply IH; [| lia].
  apply (gate_stays_shut i (i + 1) Hi). lia.
Qed.

(** With the gate shut at every index the loop appends the lines of the
    records whose score is not 0 and leaves the server as it is. *)
Lemma loop_shut (samples : list stat) :
  (forall i, vip_gate' i = Ok false) ->
  forall iteration output r output' r',
    loop' samples iteration output r = (Ok output', r') ->
    r' = r
    /\ exists lines,
         output' = (output ++ lines)%list
         /\ map Ok lines
            = map entry'
                (filter (fun obj => shown (score_of sortkey obj)) samples).
Proof.
  intros Hshut.
  induction samples as [| sample rest IH];
    intros iteration output r output' r' Hloop.
  - injection Hloop as <- <-. split; [reflexivity |].
    exists []. now rewrite app_nil_r.
  - cbn [loop] in Hloop. unfold turn in Hloop. rewrite Hshut in Hloop.
    destruct (listing' sample iteration) as [lines |] eqn:Hl; [| discriminate].
    apply IH in Hloop. destruct Hloop as (-> & rest_lines & -> & Hrest).
    split; [reflexivity |].
    exists (lines ++ rest_lines)%list. split; [now rewrite app_assoc |].
    rewrite map_app, Hrest, (listing_player sample iteration lines Hl).
    cbn [filter]. destruct (shown (score_of sortkey sample)); reflexivity.
Qed.

End PlayerLoop.

Lemma gate_shut (cfg : config) (r : rcon) (second_data : string) :
  VIP_WINNERS cfg = 0 \/ VIP_HOURS cfg = 0
  \/ 0 < SEED_LIMIT cfg /\ current_players r < SEED_LIMIT cfg ->
  forall iteration,
    vip_gate cfg "matchend" "player" second_data (matchend_vars cfg r) iteration
    = Ok false.
Proof.
  intros H iteration. unfold vip_gate, matchend_vars.
  cbn [String.eqb Ascii.eqb Bool.eqb andb server_status local bind].
  destruct (Z.ltb_spec 0 (VIP_WINNERS cfg)) as [Hw | Hw]; [| reflexivity].
  destruct (Z.ltb_spec 0 (VIP_HOURS cfg)) as [Hh | Hh]; [| reflexivity].
  cbn [andb].
  destruct H as [H | [H | [_ H]]]; [lia | lia |].
  apply Z.leb_gt in H. now rewrite H.
Qed.

(** C5. At match end and for players: when [VIP_WINNERS] is 0, or
    [VIP_HOURS] is 0, or there are fewer players in game than a positive
    [SEED_LIMIT], [get_top] returns the lines of the listing and nothing
    else, asks the server for nothing but its status and leaves the VIP
    list alone; the lines are those of the listing under any other values
    of the VIP settings.  With a [SEED_LIMIT] of 0 the number of players
    does not enter the gate. *)
Theorem vip_gate_shut (cfg : config) (r : rcon) (bucket : list stat)
    (sortkey : stat -> result Q)
    (first_data second_data third_data fourth_data : string)
    (all : list stat) :
  returns sortkey bucket ->
  has_key first_data = true ->
  has_key second_data = true ->
  has_key third_data = true ->
  (VIP_WINNERS cfg = 0 \/ VIP_HOURS cfg = 0
   \/ 0 < SEED_LIMIT cfg /\ current_players r < SEED_LIMIT cfg ->
   exists output,
     get_top cfg r "matchend" "player" bucket sortkey
       first_data second_data third_data fourth_data all
     = (Ok output, logged GetStatus r)
     /\ map Ok output
        = map (entry sortkey first_data second_data third_data fourth_data)
            (filter (fun obj => shown (score_of sortkey obj))
               (slice_to (TOPS_MATCHEND cfg) (ranked sortkey bucket)))
     /\ forall cfg2 r2,
          TOPS_MATCHEND cfg2 = TOPS_MATCHEND cfg ->
          exists output2 r2',
            get_top cfg2 r2 "matchend" "player" bucket sortkey
              first_data second_data third_data fourth_data all
            = (Ok output2, r2')
            /\ filter is_line output2 = output)
  /\ (SEED_LIMIT cfg = 0 -> 0 <= current_players r ->
      forall iteration,
        vip_gate cfg "matchend" "player" second_data (matchend_vars cfg r)
          iteration
        = Ok ((0 <? VIP_WINNERS cfg)%Z && (0 <? VIP_HOURS cfg)%Z
              && negb (second_data =? "kills")
              && (iteration <=? VIP_WINNERS cfg)%Z)).
Proof.
  intros Hret H1 H2 H3. split.
  - intros Hshut.
    destruct (get_top_ok cfg r "matchend" "player" bucket sortkey first_data
                second_data third_data fourth_data all (TOPS_MATCHEND cfg)
                Hret H1 H2 H3 eq_refl) as (output & r' & Hget & _).
    pose proof Hget as Hloop. rewrite (get_top_matchend _ _ _ _ _ _ _ _ _ _ Hret) in Hloop.
    apply (loop_shut cfg "matchend" sortkey first_data second_data third_data
             fourth_data all (matchend_vars cfg r) (ranked sortkey bucket) _
             (gate_shut cfg r second_data Hshut)) in Hloop.
    destruct Hloop as (-> & lines & -> & Hlines). cbn [app] in *.
    exists lines. repeat split; [exact Hget | exact Hlines |].
    intros cfg2 r2 Hlimit.
    destruct (get_top_ok cfg2 r2 "matchend" "player" bucket sortkey first_data
                second_data third_data fourth_data all (TOPS_MATCHEND cfg2)
                Hret H1 H2 H3 eq_refl) as (output2 & r2' & Hget2 & Hlines2).
    exists output2, r2'. split; [exact Hget2 |].
    apply map_Ok_inj. now rewrite Hlines2, Hlimit, Hlines.
  - intros Hseed Hplayers iteration. unfold vip_gate, matchend_vars.
    cbn [String.eqb Ascii.eqb Bool.eqb andb server_status local bind].
    rewrite Hseed.
    replace (0 <=? current_players r)%Z with true
      by (symmetry; now apply Z.leb_le).
    destruct ((0 <? VIP_WINNERS cfg)%Z && (0 <? VIP_HOURS cfg)%Z); reflexivity.
Qed.

(** With 65 players and a seed limit of 70 no VIP is given and the listing
    is there; with the seed limit at 0 the gate is open for the first
    player. *)
Lemma vip_gate_shut_witness :
  get_top shipped seeding_server "matchend" "player" five_players
    (teamplay shipped) "name" "combat" "support" "" five_players
  = (Ok [FieldsLine (VStr "Ann") allies (VInt 50) (VInt 0);
         FieldsLine (VStr "Bob") allies (VInt 50) (VInt 0);
         FieldsLine (VStr "Cid") allies (VInt 30) (VInt 0)],
     logged GetStatus seeding_server)
  /\ vip_gate no_seed_limit "matchend" "player" "combat"
       (matchend_vars no_seed_limit quiet_server) 1 = Ok true.
Proof.
  split.
  - destruct (proj1 (vip_gate_shut shipped seeding_server five_players
                       (teamplay shipped) "name" "combat" "support" ""
                       five_players (teamplay_returns shipped five_players)
                       eq_refl eq_refl eq_refl))
      as (output & Hget & Hlines & _).
    + right; right. cbn. lia.
    + rewrite Hget. f_equal. f_equal. apply map_Ok_inj. rewrite Hlines.
      vm_compute. reflexivity.
  - rewrite (proj2 (vip_gate_shut no_seed_limit quiet_server five_players
                      (teamplay no_seed_limit) "name" "combat" "support" ""
                      five_players
                      (teamplay_returns no_seed_limit five_players)
                      eq_refl eq_refl eq_refl) eq_refl).
    + reflexivity.
    + cbn. lia.
Defined.

(** ** The commander who came in late *)

Lemma Qltb_lt (a b : Q) : (a < b)%Q -> Qltb a b = true.
Proof.
  intros H. unfold Qltb. apply negb_true_iff.
  destruct (Qle_bool b a) eqn:E; [| reflexivity].
  apply Qle_bool_iff in E. now apply Qlt_not_le in H.
Qed.

(** C4. At match end and for players, a commander whose
    (offense + defense) / 20 is under [VIP_COMMANDER_MIN_PLAYTIME_MINS], or
    whose support is under [VIP_COMMANDER_MIN_SUPPORT_SCORE], gets no VIP
    and no text about a VIP, whatever the index: the turn appends only the
    listing of the record, asks the server for nothing, and the records
    after it are handled from the same index. *)
Theorem late_commander_skipped (cfg : config) (r0 : rcon)
    (sortkey : stat -> result Q)
    (first_data second_data third_data fourth_data : string)
    (all sorted_data : list stat) (sample : stat) (rest : list stat)
    (iteration : Z) (output : list chunk) (r : rcon) :
  role sample = "armycommander" ->
  (inject_Z (offense sample + defense sample) / 20
   < inject_Z (VIP_COMMANDER_MIN_PLAYTIME_MINS cfg))%Q
  \/ support sample < VIP_COMMANDER_MIN_SUPPORT_SCORE cfg ->
  (exists k, sortkey sample = Ok k) ->
  has_key first_data = true ->
  has_key second_data = true ->
  has_key third_data = true ->
  exists lines,
    listing "player" sortkey first_data second_data third_data fourth_data
      all (matchend_vars cfg r0) sorted_data sample iteration = Ok lines
    /\ filter is_vip_text lines = []
    /\ loop cfg "matchend" "player" sortkey
         first_data second_data third_data fourth_data
         all (matchend_vars cfg r0) sorted_data
         (sample :: rest) iteration output r
       = loop cfg "matchend" "player" sortkey
           first_data second_data third_data fourth_data
           all (matchend_vars cfg r0) sorted_data
           rest iteration (output ++ lines)%list r.
Proof.
  intros Hrole Hlate [k Hk] H1 H2 H3.
  assert (Hc : late_commander cfg sample = true).
  { unfold late_commander. apply andb_true_iff. split.
    - now apply String.eqb_eq.
    - apply orb_true_iff. destruct Hlate as [Hq | Hs].
      + left. now apply Qltb_lt.
      + right. now apply Z.ltb_lt. }
  destruct (listing_ok "player" sortkey first_data second_data third_data
              fourth_data all (matchend_vars cfg r0) sorted_data H1 H2 H3
              ltac:(discriminate) sample iteration k Hk)
    as (lines & Hl & _ & Hv & _).
  exists lines. repeat split; [exact Hl | exact Hv |].
  destruct (vip_gate_ok cfg "matchend" "player" second_data
              (matchend_vars cfg r0) ltac:(discriminate) iteration)
    as [b Hb].
  cbn [loop]. unfold turn. rewrite Hl, Hb.
  destruct b.
  - now rewrite Hc.
  - symmetry. apply loop_shut_iteration; [exact Hb | lia].
Qed.

(** A commander who played 30 minutes is first of the two: he gets his line
    and no VIP, and the other commander is handled at the index 1. *)
Lemma late_commander_skipped_witness :
  loop shipped "matchend" "player" (teamplay shipped)
    "name" "combat" "support" "" [late_officer; officer]
    (matchend_vars shipped full_server) [late_officer; officer]
    [late_officer; officer] 1 [] (logged GetStatus full_server)
  = loop shipped "matchend" "player" (teamplay shipped)
      "name" "combat" "support" "" [late_officer; officer]
      (matchend_vars shipped full_server) [late_officer; officer]
      [officer] 1 [FieldsLine (VStr "Gus") allies (VInt 900) (VInt 9000)]
      (logged GetStatus full_server).
Proof.
  destruct (late_commander_skipped shipped full_server (teamplay shipped)
              "name" "combat" "support" "" [late_officer; officer]
              [late_officer; officer] late_officer [officer] 1 []
              (logged GetStatus full_server) eq_refl)
    as (lines & Hl & _ & Hloop).
  - left. reflexivity.
  - apply (teamplay_returns shipped [late_officer]). now left.
  - reflexivity.
  - reflexivity.
  - reflexivity.
  - rewrite Hloop. vm_compute in Hl. injection Hl as <-. now vm_compute.
Defined.

(** ** The VIP a player already has *)

(** A player who is not on the list is for less than any delay. *)
Lemma vip_scan_absent (items : list vip_item) (player_id : string)
    (deadline : Z) :
  (forall item, In item items -> vip_player_id item <> player_id) ->
  vip_scan items player_id deadline = true.
Proof.
  induction items as [| item rest IH]; intros H; [reflexivity |].
  cbn [vip_scan].
  assert (E : (vip_player_id item =? player_id) = false)
    by (apply String.eqb_neq, H; now left).
  rewrite E.
  apply IH; intros i Hi; apply H; now right.
Qed.

(** The first entry of the player that has an expiration decides. *)
Lemma vip_scan_entry (before after : list vip_item) (item : vip_item)
    (player_id : string) (expiration deadline : Z) :
  (forall i, In i before -> vip_player_id i <> player_id) ->
  vip_player_id item = player_id ->
  vip_expiration item = Some expiration ->
  vip_scan (before ++ item :: after) player_id deadline
  = (expiration <? deadline)%Z.
Proof.
  intros Hbefore Hid Hexp.
  induction before as [| b before IH]; cbn [app vip_scan].
  - rewrite Hexp, Hid, String.eqb_refl. now destruct (expiration <? deadline)%Z.
  - assert (E : (vip_player_id b =? player_id) = false)
      by (apply String.eqb_neq, Hbefore; now left).
    rewrite E.
    apply IH; intros i Hi; apply Hbefore; now right.
Qed.

(** An entry without expiration is passed over: a player whose entries
    never expire is for less than any delay. *)
Lemma vip_scan_lifetime (items : list vip_item) (player_id : string)
    (deadline : Z) :
  (forall item, In item items -> vip_player_id item = player_id ->
                vip_expiration item = None) ->
  vip_scan items player_id deadline = true.
Proof.
  induction items as [| item rest IH]; intros H; [reflexivity |].
  cbn [vip_scan].
  destruct (String.eqb_spec (vip_player_id item) player_id) as [E | E].
  - rewrite (H item (or_introl eq_refl) E).
    apply IH. intros i Hi. apply H. now right.
  - apply IH. intros i Hi. apply H. now right.
Qed.

(** A VIP that ends in 20 hours: the player is told so and nothing is
    given.  A VIP that ends in 5 hours: 14 hours are given. *)
Example vip_in_20_hours :
  get_top shipped (vip_server 20) "matchend" "player" five_players
    (teamplay shipped) "name" "combat" "support" "" five_players
  = (Ok [FieldsLine (VStr "Ann") allies (VInt 50) (VInt 0);
         AlreadyVip;
         FieldsLine (VStr "Bob") allies (VInt 50) (VInt 0);
         FieldsLine (VStr "Cid") allies (VInt 30) (VInt 0)],
     logged GetVipIds (logged GetStatus (vip_server 20))).
Proof. vm_compute. reflexivity. Qed.

Example vip_in_5_hours :
  get_top shipped (vip_server 5) "matchend" "player" five_players
    (teamplay shipped) "name" "combat" "support" "" five_players
  = (Ok [FieldsLine (VStr "Ann") allies (VInt 50) (VInt 0);
         VipUntil (1700000000 + hours 14);
         FieldsLine (VStr "Bob") allies (VInt 50) (VInt 0);
         FieldsLine (VStr "Cid") allies (VInt 30) (VInt 0)],
     add_vip "Ann" "Ann Top-Player" (1700000000 + hours 14)
       (logged GetVipIds (logged GetStatus (vip_server 5)))).
Proof. vm_compute. reflexivity. Qed.

(** C1, where the code departs from it.  Ann holds a VIP that never
    expires and is first of the listing at match end: [get_top] gives her a
    VIP of 14 hours, which takes the place of the one she had, and tells
    her until when; it does not tell her that she is a VIP already. *)
Theorem lifetime_vip_is_replaced :
  get_top shipped lifetime_vip_server "matchend" "player" five_players
    (teamplay shipped) "name" "combat" "support" "" five_players
  = (Ok [FieldsLine (VStr "Ann") allies (VInt 50) (VInt 0);
         VipUntil 1700050400;
         FieldsLine (VStr "Bob") allies (VInt 50) (VInt 0);
         FieldsLine (VStr "Cid") allies (VInt 30) (VInt 0)],
     {| vips := [{| vip_player_id := "Ann"; vip_name := "Ann Top-Player";
                    vip_expiration := Some 1700050400 |}];
        current_players := 80;
        now := 1700000000;
        calls := [GetStatus; GetVipIds;
                  AddVip "Ann" "Ann Top-Player" 1700050400] |}).
Proof. vm_compute. reflexivity. Qed.

(** ** A record whose score is 0 *)

(** C2, where the code departs from it.  No player of the bucket has
    a score other than 0: no line shows the first of them, and yet the VIP
    list is read, a VIP of 14 hours is given to her and the text that says
    until when is the whole output. *)
Theorem zero_score_gets_vip :
  real_offdef no_seed_limit attacker = Ok 0%Q
  /\ get_top no_seed_limit quiet_server "matchend" "player"
       [attacker; defender] (real_offdef no_seed_limit)
       "name" "offense" "defense" "" [attacker; defender]
     = (Ok [VipUntil 1700050400],
        {| vips := [{| vip_player_id := "76561198000000009";
                       vip_name := "Ida Top-Player";
                       vip_expiration := Some 1700050400 |}];
           current_players := 12;
           now := 1700000000;
           calls := [GetStatus; GetVipIds;
                     AddVip "76561198000000009" "Ida Top-Player"
                       1700050400] |}).
Proof. split; vm_compute; reflexivity. Qed.

(** ** The members of a squad *)

(** With the members shown for one squad, the first squad is followed by
    the line of its members. *)
Example one_squad_detailed :
  get_top shipped quiet_server "matchend" "squad" two_squads
    (teamplay shipped) "name" "combat" "support" "" three_members
  = (Ok [SquadMark; FieldsLine (VStr "able") allies (VInt 80) (VInt 40);
         MembersLine ["Ann"; "Bob"];
         SquadMark; FieldsLine (VStr "baker") allies (VInt 70) (VInt 20)],
     logged GetStatus quiet_server).
Proof. vm_compute. reflexivity. Qed.

(** C8, where the code departs from it.  With the members shown for two
    squads, each of the two squads is followed by two lines of members, the
    one of the first squad and the one of the second, and not by the line
    of its own members alone. *)
Theorem two_squads_members_repeated :
  get_top two_squads_detailed quiet_server "chat" "squad" two_squads
    (teamplay two_squads_detailed) "name" "combat" "support" "" three_members
  = (Ok [SquadMark; FieldsLine (VStr "able") allies (VInt 80) (VInt 40);
         MembersLine ["Ann"; "Bob"]; MembersLine ["Cid"];
         SquadMark; FieldsLine (VStr "baker") allies (VInt 70) (VInt 20);
         MembersLine ["Ann"; "Bob"]; MembersLine ["Cid"]],
     quiet_server).
Proof. vm_compute. reflexivity. Qed.

(** * Further properties *)

(** ** What a turn of the loop can do *)

Section Turns.

Variable cfg : config.
Variables callmode calltype : string.
Variable sortkey : stat -> result Q.
Variables first_data second_data third_data fourth_data : string.
Variable squadtype_allplayers : list stat.
Variable vars : locals.
Variable sorted_data : list stat.

Local Abbreviation listing' :=
  (listing calltype sortkey first_data second_data third_data fourth_data
     squadtype_allplayers vars sorted_data).
Local Abbreviation vip_gate' := (vip_gate cfg callmode calltype second_data vars).
Local Abbreviation turn' :=
  (turn cfg callmode calltype sortkey first_data second_data third_data
     fourth_data squadtype_allplayers vars sorted_data).
Local Abbreviation loop' :=
  (loop cfg callmode calltype sortkey first_data second_data third_data
     fourth_data squadtype_allplayers vars sorted_data).

(** The listing block appends no text about a VIP and at most one line. *)
Lemma listing_shape (sample : stat) (iteration : Z) (lines : list chunk) :
  listing' sample iteration = Ok lines ->
  filter is_vip_text lines = []
  /\ (List.length (filter is_line lines) <= 1)%nat.
Proof.
  unfold listing, sample_line, squad_members.
  destruct (sortkey sample) as [k |]; [| discriminate]. cbn [bind].
  destruct (negb (Qeq_bool k 0)); [| intros [= <-]; cbn; auto].
  assert (Hmembers : forall members,
             (if calltype =? "squad"
              then show <- local "show_members" (show_members vars) ;;
                   (if (0 <? show)%Z && (iteration <=? show)%Z
                    then Ok (map (best_players squadtype_allplayers)
                               (slice_to show sorted_data))
                    else Ok [])
              else Ok []) = Ok members ->
             filter is_vip_text members = [] /\ filter is_line members = []).
  { intros members. destruct (calltype =? "squad"); [| now intros [= <-]].
    destruct (show_members vars) as [show |]; [| discriminate].
    cbn [local bind].
    destruct ((0 <? show)%Z && (iteration <=? show)%Z); intros [= <-];
      [split; [apply filter_is_vip_map_best | apply filter_is_line_map_best]
      | now split]. }
  destruct (fourth_data =? "").
  - destruct (getitem sample first_data) as [v1 |]; [| discriminate].
    destruct (getitem sample second_data) as [v2 |]; [| discriminate].
    destruct (getitem sample third_data) as [v3 |]; [| discriminate].
    cbn [bind].
    match goal with
    | |- (members <- ?m ;; _) = _ -> _ =>
        destruct m as [members |]; [| discriminate]
    end.
    cbn [bind]. intros [= <-].
    destruct (Hmembers members eq_refl) as [Hv Hl].
    rewrite !filter_app, Hv, Hl.
    destruct (calltype =? "squad"); cbn; auto.
  - destruct (getitem sample first_data) as [v1 |]; [| discriminate].
    cbn [bind].
    match goal with
    | |- (members <- ?m ;; _) = _ -> _ =>
        destruct m as [members |]; [| discriminate]
    end.
    cbn [bind]. intros [= <-].
    destruct (Hmembers members eq_refl) as [Hv Hl].
    cbn. rewrite Hv, Hl. cbn; auto.
Qed.

Lemma turn_ends (sample : stat) (iteration : Z) (output : list chunk)
    (r : rcon) :
  turn_end cfg callmode calltype sortkey first_data second_data third_data
    fourth_data squadtype_allplayers vars sorted_data
    sample iteration output r (turn' sample iteration output r).
Proof.
  unfold turn.
  destruct (listing' sample iteration) as [lines |] eqn:Hl; [| constructor].
  destruct (vip_gate' iteration) as [[|] |] eqn:Hg; [| | constructor].
  - destruct (late_commander cfg sample) eqn:Hc.
    + now apply turn_continue.
    + unfold is_vip_for_less_than_xh, give_xh_vip. cbn [get_vip_ids].
      change (now (logged GetVipIds r)) with (now r).
      destruct (vip_scan (vips r) (player_id sample)
                  (now r + hours (VIP_HOURS cfg))) eqn:Hs.
      * now apply turn_gives.
      * now apply turn_already.
  - now apply turn_gate_shut.
Qed.

(** The gate is open only at an index within [VIP_WINNERS]. *)
Lemma gate_open_index (iteration : Z) :
  vip_gate' iteration = Ok true -> iteration <= VIP_WINNERS cfg.
Proof.
  unfold vip_gate.
  match goal with
  | |- (if ?c then _ else _) = _ -> _ => destruct c
  end; [| discriminate].
  destruct (server_status vars) as [players |]; [| discriminate].
  cbn [local bind]. intros [= H].
  apply andb_true_iff in H. destruct H as [_ H]. now apply Z.leb_le.
Qed.

(** With a gate that never opens the loop leaves the server as it is and
    appends no text about a VIP. *)
Lemma loop_never_open (samples : list stat) :
  (forall i, vip_gate' i <> Ok true) ->
  forall iteration output r,
    snd (loop' samples iteration output r) = r
    /\ forall output',
         fst (loop' samples iteration output r) = Ok output' ->
         filter is_vip_text output' = filter is_vip_text output.
Proof.
  intros Hshut.
  induction samples as [| sample rest IH]; intros iteration output r.
  - cbn. split; [reflexivity | now intros output' [= <-]].
  - cbn [loop].
    destruct (turn_ends sample iteration output r)
      as [e | lines Hl Hg | lines Hl Hg | lines Hl Hg | lines Hl Hg];
      try (now apply Hshut in Hg).
    + cbn. split; [reflexivity | discriminate].
    + destruct (IH (iteration + 1) (output ++ lines)%list r) as [Hr Ho].
      split; [exact Hr |].
      intros output' Hout. rewrite (Ho output' Hout), filter_app.
      destruct (listing_shape sample iteration lines Hl) as [-> _].
      apply app_nil_r.
Qed.

(** The loop gives no more VIPs, and appends no more texts about a VIP,
    than the budget of its index. *)
Lemma loop_budget (samples : list stat) :
  forall iteration output r,
    (vips_given (snd (loop' samples iteration output r))
     <= vips_given r + budget cfg iteration)%nat
    /\ forall output',
         fst (loop' samples iteration output r) = Ok output' ->
         (vip_texts output' <= vip_texts output + budget cfg iteration)%nat.
Proof.
  induction samples as [| sample rest IH]; intros iteration output r.
  - cbn. split; [lia | intros output' [= <-]; lia].
  - cbn [loop].
    destruct (turn_ends sample iteration output r)
      as [e | lines Hl Hg | lines Hl Hg Hc | lines Hl Hg Hc Hs
          | lines Hl Hg Hc Hs].
    + cbn. split; [lia | discriminate].
    + destruct (IH (iteration + 1) (output ++ lines)%list r) as [Hr Ho].
      destruct (listing_shape sample iteration lines Hl) as [Hv _].
      assert (Hb : (budget cfg (iteration + 1) <= budget cfg iteration)%nat)
        by (unfold budget; lia).
      split; [lia |].
      intros output' Hout. specialize (Ho output' Hout).
      unfold vip_texts in *. rewrite filter_app, Hv, app_nil_r in Ho. lia.
    + destruct (IH iteration (output ++ lines)%list r) as [Hr Ho].
      destruct (listing_shape sample iteration lines Hl) as [Hv _].
      split; [exact Hr |].
      intros output' Hout. specialize (Ho output' Hout).
      unfold vip_texts in *. rewrite filter_app, Hv, app_nil_r in Ho. lia.
    + apply gate_open_index in Hg.
      match goal with
      | |- context [loop' rest _ ?o ?r1] =>
          destruct (IH (iteration + 1) o r1) as [Hr Ho]
      end.
      destruct (listing_shape sample iteration lines Hl) as [Hv _].
      assert (Hb : (budget cfg iteration = S (budget cfg (iteration + 1)))%nat)
        by (unfold budget; lia).
      split.
      * unfold vips_given in *. cbn [add_vip logged calls] in Hr.
        rewrite !filter_app in Hr. cbn in Hr.
        rewrite !length_app in Hr. cbn in Hr. lia.
      * intros output' Hout. specialize (Ho output' Hout).
        unfold vip_texts in *. rewrite !filter_app, Hv in Ho. cbn in Ho.
        rewrite !length_app in Ho. cbn in Ho. lia.
    + apply gate_open_index in Hg.
      match goal with
      | |- context [loop' rest _ ?o ?r1] =>
          destruct (IH (iteration + 1) o r1) as [Hr Ho]
      end.
      destruct (listing_shape sample iteration lines Hl) as [Hv _].
      assert (Hb : (budget cfg iteration = S (budget cfg (iteration + 1)))%nat)
        by (unfold budget; lia).
      split.
      * unfold vips_given in *. cbn [logged calls] in Hr.
        rewrite !filter_app in Hr. cbn in Hr.
        rewrite !length_app in Hr. cbn in Hr. lia.
      * intros output' Hout. specialize (Ho output' Hout).
        unfold vip_texts in *. rewrite !filter_app, Hv in Ho. cbn in Ho.
        rewrite !length_app in Ho. cbn in Ho. lia.
Qed.

(** The loop appends at most one line for each record. *)
Lemma loop_lines_count (samples : list stat) :
  forall iteration output r output',
    fst (loop' samples iteration output r) = Ok output' ->
    (List.length (filter is_line output')
     <= List.length (filter is_line output) + List.length samples)%nat.
Proof.
  induction samples as [| sample rest IH]; intros iteration output r output'.
  - cbn. intros [= <-]. lia.
  - cbn [loop].
    destruct (turn_ends sample iteration output r)
      as [e | lines Hl Hg | lines Hl Hg Hc | lines Hl Hg Hc Hs
          | lines Hl Hg Hc Hs];
      [discriminate | | | |];
      intros Hout; apply IH in Hout;
      destruct (listing_shape sample iteration lines Hl) as [_ Hn];
      rewrite !filter_app in Hout; cbn in Hout;
      rewrite ?length_app in Hout; cbn in Hout; cbn [List.length]; lia.
Qed.

End Turns.

(** ** get_top and the server *)

Lemma get_top_unfold (cfg : config) (r : rcon) (callmode calltype : string)
    (bucket : list stat) (sortkey : stat -> result Q)
    (first_data second_data third_data fourth_data : string)
    (all : list stat) :
  get_top cfg r callmode calltype bucket sortkey
    first_data second_data third_data fourth_data all
  = match sorted_reverse bucket sortkey with
    | Raise e => (Raise e, mode_rcon r callmode)
    | Ok sorted_data =>
        match mode_limit cfg callmode with
        | None => (Raise (UnboundLocalError "tops_limit"), mode_rcon r callmode)
        | Some limit =>
            loop cfg callmode calltype sortkey
              first_data second_data third_data fourth_data all
              (mode_vars cfg r callmode) sorted_data
              (slice_to limit sorted_data) 1 [] (mode_rcon r callmode)
        end
    end.
Proof.
  unfold get_top, mode_limit, mode_vars, mode_rcon, matchend_vars.
  destruct (callmode =? "matchend"), (callmode =? "chat");
    destruct (sorted_reverse bucket sortkey); reflexivity.
Qed.

Lemma vip_gate_never_open (cfg : config) (r : rcon)
    (callmode calltype second_data : string) :
  callmode <> "matchend" \/ calltype <> "player" \/ second_data = "kills"
  \/ VIP_WINNERS cfg <= 0 \/ VIP_HOURS cfg <= 0
  \/ current_players r < SEED_LIMIT cfg ->
  forall i,
    vip_gate cfg callmode calltype second_data (mode_vars cfg r callmode) i
    <> Ok true.
Proof.
  intros H i. unfold vip_gate, mode_vars.
  destruct (String.eqb_spec callmode "matchend") as [Em | Em];
    [| cbn [andb]; discriminate].
  destruct (String.eqb_spec calltype "player") as [Ep | Ep];
    [| cbn [andb]; discriminate].
  destruct (Z.ltb_spec 0 (VIP_WINNERS cfg)) as [Hw | Hw];
    [| cbn [andb]; discriminate].
  destruct (Z.ltb_spec 0 (VIP_HOURS cfg)) as [Hh | Hh];
    [| cbn [andb]; discriminate].
  cbn [andb matchend_vars server_status local bind].
  destruct H as [H | [H | [H | [H | [H | H]]]]];
    try contradiction; try lia.
  - rewrite H. cbn. rewrite andb_false_r. discriminate.
  - apply Z.leb_gt in H. rewrite H. discriminate.
Qed.

(** Where the gate cannot open [get_top] goes no further with the server
    than its tests on [callmode], and writes no text about a VIP. *)
Lemma get_top_gate_shut (cfg : config) (r : rcon)
    (callmode calltype : string) (bucket : list stat)
    (sortkey : stat -> result Q)
    (first_data second_data third_data fourth_data : string)
    (all : list stat) :
  callmode <> "matchend" \/ calltype <> "player" \/ second_data = "kills"
  \/ VIP_WINNERS cfg <= 0 \/ VIP_HOURS cfg <= 0
  \/ current_players r < SEED_LIMIT cfg ->
  snd (get_top cfg r callmode calltype bucket sortkey
         first_data second_data third_data fourth_data all)
  = mode_rcon r callmode
  /\ forall output,
       fst (get_top cfg r callmode calltype bucket sortkey
              first_data second_data third_data fourth_data all) = Ok output ->
       filter is_vip_text output = [].
Proof.
  intros Hshut. rewrite get_top_unfold.
  destruct (sorted_reverse bucket sortkey) as [sorted_data |];
    [| split; [reflexivity | discriminate]].
  destruct (mode_limit cfg callmode) as [limit |];
    [| split; [reflexivity | discriminate]].
  now apply loop_never_open, vip_gate_never_open.
Qed.

Lemma get_top_budget (cfg : config) (r : rcon)
    (callmode calltype : string) (bucket : list stat)
    (sortkey : stat -> result Q)
    (first_data second_data third_data fourth_data : string)
    (all : list stat) :
  (vips_given (snd (get_top cfg r callmode calltype bucket sortkey
                      first_data second_data third_data fourth_data all))
   <= vips_given r + Z.to_nat (VIP_WINNERS cfg))%nat
  /\ forall output,
       fst (get_top cfg r callmode calltype bucket sortkey
              first_data second_data third_data fourth_data all) = Ok output ->
       (vip_texts output <= Z.to_nat (VIP_WINNERS cfg))%nat.
Proof.
  rewrite get_top_unfold.
  assert (Hr : vips_given (mode_rcon r callmode) = vips_given r).
  { unfold mode_rcon, vips_given.
    destruct (callmode =? "matchend"); [| reflexivity].
    cbn [logged calls]. rewrite filter_app. cbn. now rewrite app_nil_r. }
  destruct (sorted_reverse bucket sortkey) as [sorted_data |];
    [| cbn [fst snd]; split; [lia | discriminate]].
  destruct (mode_limit cfg callmode) as [limit |];
    [| cbn [fst snd]; split; [lia | discriminate]].
  match goal with
  | |- context [loop _ _ _ _ _ _ _ _ ?a ?v ?s ?l 1 [] ?r1] =>
      destruct (loop_budget cfg callmode calltype sortkey first_data
                  second_data third_data fourth_data a v s l 1 [] r1)
        as [Hg Ht]
  end.
  replace (budget cfg 1) with (Z.to_nat (VIP_WINNERS cfg)) in Hg, Ht
    by (unfold budget; f_equal; lia).
  split; [lia |].
  intros output Hout. apply Ht in Hout. cbn in Hout. exact Hout.
Qed.

(** X1. Called with any mode but ["matchend"], the mode ["chat"] among
    them, [get_top] sends no request to the server and leaves it as it is,
    whether it returns or raises; a listing it returns holds no text about
    a VIP. *)
Theorem get_top_chat_server_untouched (cfg : config) (r : rcon)
    (callmode calltype : string) (bucket : list stat)
    (sortkey : stat -> result Q)
    (first_data second_data third_data fourth_data : string)
    (all : list stat) :
  callmode <> "matchend" ->
  snd (get_top cfg r callmode calltype bucket sortkey
         first_data second_data third_data fourth_data all) = r
  /\ forall output,
       fst (get_top cfg r callmode calltype bucket sortkey
              first_data second_data third_data fourth_data all) = Ok output ->
       filter is_vip_text output = [].
Proof.
  intros Hmode.
  destruct (get_top_gate_shut cfg r callmode calltype bucket sortkey
              first_data second_data third_data fourth_data all
              (or_introl Hmode)) as [Hr Ho].
  split; [| exact Ho].
  rewrite Hr. unfold mode_rcon.
  apply String.eqb_neq in Hmode. now rewrite Hmode.
Qed.

Lemma get_top_chat_server_untouched_witness :
  snd (get_top shipped lifetime_vip_server "chat" "player" five_players
         (teamplay shipped) "name" "combat" "support" "" five_players)
  = lifetime_vip_server.
Proof.
  apply (get_top_chat_server_untouched shipped lifetime_vip_server "chat"
           "player" five_players (teamplay shipped) "name" "combat" "support"
           "" five_players).
  discriminate.
Defined.

(** X2. At match end [get_top] gives no VIP, reads no VIP list and writes
    no text about a VIP when the listing is one of squads, or one of the
    kills listings (ratio, kills/min), or [VIP_WINNERS] or [VIP_HOURS] is
    not positive, or the players in game are fewer than [SEED_LIMIT]: the
    one request is [get_status], whether it returns or raises. *)
Theorem get_top_matchend_no_vip (cfg : config) (r : rcon)
    (calltype : string) (bucket : list stat) (sortkey : stat -> result Q)
    (first_data second_data third_data fourth_data : string)
    (all : list stat) :
  calltype <> "player" \/ second_data = "kills"
  \/ VIP_WINNERS cfg <= 0 \/ VIP_HOURS cfg <= 0
  \/ current_players r < SEED_LIMIT cfg ->
  snd (get_top cfg r "matchend" calltype bucket sortkey
         first_data second_data third_data fourth_data all)
  = logged GetStatus r
  /\ forall output,
       fst (get_top cfg r "matchend" calltype bucket sortkey
              first_data second_data third_data fourth_data all) = Ok output ->
       filter is_vip_text output = [].
Proof.
  intros Hshut.
  apply (get_top_gate_shut cfg r "matchend" calltype bucket sortkey
           first_data second_data third_data fourth_data all).
  now right.
Qed.

Lemma get_top_matchend_no_vip_witness :
  snd (get_top two_squads_detailed full_server "matchend" "squad" two_squads
         (teamplay two_squads_detailed) "name" "combat" "support" ""
         three_members)
  = logged GetStatus full_server.
Proof.
  apply (get_top_matchend_no_vip two_squads_detailed full_server "squad"
           two_squads (teamplay two_squads_detailed) "name" "combat"
           "support" "" three_members).
  left. discriminate.
Defined.

(** X3. One call of [get_top] gives at most [VIP_WINNERS] VIPs, whether it
    returns or raises, and a listing it returns holds at most [VIP_WINNERS]
    texts about a VIP. *)
Theorem get_top_vips_bounded (cfg : config) (r : rcon)
    (callmode calltype : string) (bucket : list stat)
    (sortkey : stat -> result Q)
    (first_data second_data third_data fourth_data : string)
    (all : list stat) :
  (vips_given (snd (get_top cfg r callmode calltype bucket sortkey
                      first_data second_data third_data fourth_data all))
   <= vips_given r + Z.to_nat (VIP_WINNERS cfg))%nat
  /\ forall output,
       fst (get_top cfg r callmode calltype bucket sortkey
              first_data second_data third_data fourth_data all) = Ok output ->
       (vip_texts output <= Z.to_nat (VIP_WINNERS cfg))%nat.
Proof. apply get_top_budget. Qed.

Lemma mapM_length {A B : Type} (f : A -> result B) (l : list A) :
  forall l', mapM f l = Ok l' -> List.length l' = List.length l.
Proof.
  induction l as [| a l IH]; intros l' H.
  - injection H as <-. reflexivity.
  - cbn [mapM] in H. destruct (f a) as [b |]; [| discriminate].
    cbn [bind] in H. destruct (mapM f l) as [bs |]; [| discriminate].
    cbn [bind] in H. injection H as <-. cbn. f_equal. now apply IH.
Qed.

Lemma sorted_reverse_length (sortkey : stat -> result Q)
    (bucket sorted : list stat) :
  sorted_reverse bucket sortkey = Ok sorted ->
  List.length sorted = List.length bucket.
Proof.
  unfold sorted_reverse. intros H.
  destruct (mapM (keyed sortkey) bucket) as [decorated |] eqn:Em;
    [| discriminate].
  cbn [bind] in H. injection H as <-.
  rewrite length_map, <- (Permutation_length (sort_desc_perm decorated)).
  now apply mapM_length in Em.
Qed.

Lemma slice_to_length {A : Type} (n : Z) (l : list A) :
  (List.length (slice_to n l) <= List.length l)%nat
  /\ (0 <= n -> (List.length (slice_to n l) <= Z.to_nat n)%nat).
Proof.
  unfold slice_to. destruct (Z.ltb_spec n 0); rewrite length_firstn; lia.
Qed.

(** X4. A listing that [get_top] returns has at most one line for each
    record of the bucket, and at most [tops_limit] lines when the limit of
    the mode is not negative. *)
Theorem get_top_lines_bounded (cfg : config) (r : rcon)
    (callmode calltype : string) (bucket : list stat)
    (sortkey : stat -> result Q)
    (first_data second_data third_data fourth_data : string)
    (all : list stat) (output : list chunk) :
  fst (get_top cfg r callmode calltype bucket sortkey
         first_data second_data third_data fourth_data all) = Ok output ->
  (List.length (filter is_line output) <= List.length bucket)%nat
  /\ forall limit,
       mode_limit cfg callmode = Some limit -> 0 <= limit ->
       (List.length (filter is_line output) <= Z.to_nat limit)%nat.
Proof.
  rewrite get_top_unfold.
  destruct (sorted_reverse bucket sortkey) as [sorted_data |] eqn:Es;
    [| discriminate].
  destruct (mode_limit cfg callmode) as [limit |]; [| discriminate].
  intros Hout. apply loop_lines_count in Hout. cbn [filter List.length] in Hout.
  destruct (slice_to_length limit sorted_data) as [Hall Hlimit].
  rewrite (sorted_reverse_length _ _ _ Es) in Hall.
  split; [lia |].
  intros limit' [= <-] Hpos. specialize (Hlimit Hpos). lia.
Qed.

Lemma get_top_lines_bounded_witness :
  (List.length
     (filter is_line
        [FieldsLine (VStr "Ann") allies (VInt 50) (VInt 0);
         VipUntil 1700050400;
         FieldsLine (VStr "Bob") allies (VInt 50) (VInt 0);
         FieldsLine (VStr "Cid") allies (VInt 30) (VInt 0)]) <= 3)%nat.
Proof.
  refine (proj2 (get_top_lines_bounded shipped full_server "matchend" "player"
                   five_players (teamplay shipped) "name" "combat" "support"
                   "" five_players
                   [FieldsLine (VStr "Ann") allies (VInt 50) (VInt 0);
                    VipUntil 1700050400;
                    FieldsLine (VStr "Bob") allies (VInt 50) (VInt 0);
                    FieldsLine (VStr "Cid") allies (VInt 30) (VInt 0)] _)
            3 eq_refl _).
  - vm_compute. reflexivity.
  - lia.
Defined.

(** ** stats_gather and the server *)

Lemma mode_rcon_other (r : rcon) (callmode : string) :
  callmode <> "matchend" -> mode_rcon r callmode = r.
Proof.
  intros H. unfold mode_rcon. apply String.eqb_neq in H. now rewrite H.
Qed.

Lemma vips_given_logged_status (r : rcon) :
  vips_given (logged GetStatus r) = vips_given r.
Proof.
  unfold vips_given. cbn [logged calls]. rewrite filter_app. cbn.
  now rewrite app_nil_r.
Qed.

(** Takes the next call of [stats_gather] with what is known of it. *)
Ltac next_call Hshut Hgive :=
  match goal with
  | |- context [and_then (get_top ?c ?r ?m ?t ?b ?k ?f1 ?f2 ?f3 ?f4 ?a) _] =>
      pose proof (get_top_gate_shut c r m t b k f1 f2 f3 f4 a) as Hshut;
      pose proof (get_top_budget c r m t b k f1 f2 f3 f4 a) as Hgive;
      destruct (get_top c r m t b k f1 f2 f3 f4 a) as [[? | ?] ?];
      cbn [and_then fst snd] in *
  end.

Lemma stats_gather_quiet (cfg : config) (r : rcon)
    (callmode : string) (view : team_view) :
  callmode <> "matchend" ->
  snd (stats_gather cfg r callmode view) = r.
Proof.
  intros Hmode. unfold stats_gather.
  do 9 (let Hs := fresh "Hs" in
        let Hg := fresh "Hg" in
        next_call Hs Hg;
        destruct (Hs (or_introl Hmode)) as [Hr _]; clear Hs Hg;
        rewrite (mode_rcon_other _ _ Hmode) in Hr; subst;
        [| reflexivity]).
  reflexivity.
Qed.

(** X5. On a chat command, and with any mode but ["matchend"],
    [stats_gather] sends no request to the server and leaves it as it is,
    whether the nine listings are returned or one of them raises. *)
Theorem stats_gather_chat_server_untouched (cfg : config) (r : rcon)
    (callmode : string) (view : team_view) :
  callmode <> "matchend" ->
  snd (stats_gather cfg r callmode view) = r.
Proof. apply stats_gather_quiet. Qed.

Lemma stats_gather_chat_server_untouched_witness :
  snd (stats_gather shipped lifetime_vip_server "chat" one_sniper)
  = lifetime_vip_server.
Proof.
  apply (stats_gather_chat_server_untouched shipped lifetime_vip_server
           "chat" one_sniper).
  discriminate.
Defined.

(** X6. At match end [stats_gather] gives at most three times
    [VIP_WINNERS] VIPs, whether it returns or raises: they come from the
    listing of the commanders and the two first listings of the infantry;
    the six other listings hold no text about a VIP. *)
Theorem stats_gather_matchend_vips (cfg : config) (r : rcon)
    (view : team_view) :
  (vips_given (snd (stats_gather cfg r "matchend" view))
   <= vips_given r + 3 * Z.to_nat (VIP_WINNERS cfg))%nat
  /\ forall boards,
       fst (stats_gather cfg r "matchend" view) = Ok boards ->
       filter is_vip_text (top_infantry_ratio boards) = []
       /\ filter is_vip_text (top_infantry_killrate boards) = []
       /\ filter is_vip_text (top_squads_infantry_offdef boards) = []
       /\ filter is_vip_text (top_squads_infantry_teamplay boards) = []
       /\ filter is_vip_text (top_squads_armor_offdef boards) = []
       /\ filter is_vip_text (top_squads_armor_teamplay boards) = [].
Proof.
  unfold stats_gather.
  next_call Hs1 Hg1; [| split; [lia | discriminate]].
  next_call Hs2 Hg2; [| split; [lia | discriminate]].
  next_call Hs3 Hg3; [| split; [lia | discriminate]].
  clear Hs1 Hs2 Hs3.
  next_call Hs4 Hg4;
    destruct Hs4 as [Hr4 Ht4]; [auto | | auto |];
    change (mode_rcon ?x "matchend") with (logged GetStatus x) in Hr4;
    subst; rewrite ?vips_given_logged_status in *;
    [| split; [lia | discriminate]].
  next_call Hs5 Hg5;
    destruct Hs5 as [Hr5 Ht5]; [auto | | auto |];
    change (mode_rcon ?x "matchend") with (logged GetStatus x) in Hr5;
    subst; rewrite ?vips_given_logged_status in *;
    [| split; [lia | discriminate]].
  next_call Hs6 Hg6;
    destruct Hs6 as [Hr6 Ht6];
    [right; left; discriminate | | right; left; discriminate |];
    change (mode_rcon ?x "matchend") with (logged GetStatus x) in Hr6;
    subst; rewrite ?vips_given_logged_status in *;
    [| split; [lia | discriminate]].
  next_call Hs7 Hg7;
    destruct Hs7 as [Hr7 Ht7];
    [right; left; discriminate | | right; left; discriminate |];
    change (mode_rcon ?x "matchend") with (logged GetStatus x) in Hr7;
    subst; rewrite ?vips_given_logged_status in *;
    [| split; [lia | discriminate]].
  next_call Hs8 Hg8;
    destruct Hs8 as [Hr8 Ht8];
    [right; left; discriminate | | right; left; discriminate |];
    change (mode_rcon ?x "matchend") with (logged GetStatus x) in Hr8;
    subst; rewrite ?vips_given_logged_status in *;
    [| split; [lia | discriminate]].
  next_call Hs9 Hg9;
    destruct Hs9 as [Hr9 Ht9];
    [right; left; discriminate | | right; left; discriminate |];
    change (mode_rcon ?x "matchend") with (logged GetStatus x) in Hr9;
    subst; rewrite ?vips_given_logged_status in *;
    [| split; [lia | discriminate]].
  split; [lia |].
  intros boards [= <-]. cbn. repeat split; auto.
Qed.

(** ** The scores *)

Lemma py_int_mono (x y : Q) : (x <= y)%Q -> py_int x <= py_int y.
Proof.
  intros Hxy. unfold py_int.
  destruct (Qle_bool 0 x) eqn:Ex, (Qle_bool 0 y) eqn:Ey.
  - now apply Qfloor_resp_le.
  - apply Qle_bool_iff in Ex.
    assert (Hy : (0 <= y)%Q) by (now apply Qle_trans with x).
    apply Qle_bool_iff in Hy. congruence.
  - apply Qle_bool_iff in Ey.
    assert (Hx : (x <= 0)%Q).
    { apply Qnot_lt_le. intros H. apply Qlt_le_weak in H.
      apply Qle_bool_iff in H. congruence. }
    apply Z.le_trans with 0.
    + apply (Qceiling_resp_le x 0 Hx).
    + apply (Qfloor_resp_le 0 y Ey).
  - now apply Qceiling_resp_le.
Qed.

Lemma py_int_nonneg (x : Q) : (0 <= x)%Q -> 0 <= py_int x.
Proof. intros H. apply (py_int_mono 0 x H). Qed.

Lemma round1_nonneg (x : Q) : (0 <= x)%Q -> (0 <= round1 x)%Q.
Proof.
  intros H. unfold round1. rewrite Qred_correct.
  assert (Hn : 0 <= round_half_even (x * 10)).
  { apply round_half_even_ge. change (inject_Z 0) with 0%Q. lra. }
  unfold Qle. cbn. lia.
Qed.

(** X7. For a record whose counters are not negative the four metrics
    return a score that is not negative. *)
Theorem scores_nonneg (cfg : config) (obj : stat) :
  counters_nonneg obj ->
  (0 <= score_of ratio obj)%Q
  /\ (0 <= score_of killrate obj)%Q
  /\ (0 <= score_of (real_offdef cfg) obj)%Q
  /\ (0 <= score_of (teamplay cfg) obj)%Q
  /\ returns ratio [obj] /\ returns killrate [obj].
Proof.
  intros (Hk & Hd & Hc & Ho & Hf & Hs).
  pose proof (ratio_value obj Hd) as Hr.
  pose proof (killrate_value obj Ho Hf) as Hkr.
  pose proof inject_Z_nonneg as Hq.
  repeat split.
  - unfold score_of. rewrite Hr. apply round1_nonneg, binary64_nonneg.
    apply Qdiv_nonneg; apply Hq; lia.
  - unfold score_of. rewrite Hkr.
    destruct ((kills obj =? 0)%Z || ((offense obj =? 0)%Z && (defense obj =? 0)%Z));
      [apply Qle_refl |].
    apply round1_nonneg, binary64_nonneg.
    apply Qdiv_nonneg; apply binary64_nonneg.
    + now apply Hq.
    + apply Qdiv_nonneg; [apply Hq; lia | discriminate].
  - unfold score_of, real_offdef.
    destruct (Qeq_bool (OFFENSEDEFENSE_RATIO cfg) 0); apply Hq; [nia |].
    apply py_int_nonneg, binary64_nonneg.
    apply Qmult_le_0_compat; apply binary64_nonneg; [now apply Hq |].
    apply Qmult_le_0_compat; apply binary64_nonneg;
      [now apply Hq | apply Qabs_nonneg].
  - unfold score_of, teamplay.
    destruct (Qeq_bool (COMBATSUPPORT_RATIO cfg) 0); apply Hq; [lia |].
    apply py_int_nonneg, binary64_nonneg.
    apply (Qplus_le_compat 0 _ 0 _); apply binary64_nonneg; [now apply Hq |].
    apply Qmult_le_0_compat; apply binary64_nonneg;
      [now apply Hq | apply Qabs_nonneg].
  - intros o [<- | []]. rewrite Hr. eauto.
  - intros o [<- | []]. rewrite Hkr.
    destruct (_ || _); eauto.
Qed.

Lemma scores_nonneg_witness :
  (0 <= score_of ratio sniper)%Q /\ (0 <= score_of killrate sniper)%Q.
Proof.
  destruct (scores_nonneg shipped sniper) as (Hr & Hk & _).
  - unfold counters_nonneg. cbn. lia.
  - split; assumption.
Defined.

(** X8. The two weighted scores never go down when a counter goes up:
    [teamplay] in combat and in support, whatever their signs, and
    [real_offdef] in offense and in defense of records where these two are
    not negative. *)
Theorem weighted_scores_monotone (cfg : config) (a b : stat) :
  (combat a <= combat b -> support a <= support b ->
   (score_of (teamplay cfg) a <= score_of (teamplay cfg) b)%Q)
  /\ (0 <= offense a <= offense b -> 0 <= defense a <= defense b ->
      (score_of (real_offdef cfg) a <= score_of (real_offdef cfg) b)%Q).
Proof.
  assert (Hq : forall m n, m <= n -> (inject_Z m <= inject_Z n)%Q)
    by (intros m n H; now rewrite <- Zle_Qle).
  assert (Hf : forall m n, m <= n -> (float_of_int m <= float_of_int n)%Q)
    by (intros m n H; now apply binary64_mono, Hq).
  assert (Hw : forall w, (0 <= binary64 (Qabs w))%Q)
    by (intros w; apply binary64_nonneg, Qabs_nonneg).
  split.
  - intros Hc Hs. unfold score_of, teamplay.
    destruct (Qeq_bool (COMBATSUPPORT_RATIO cfg) 0); apply Hq; [lia |].
    apply py_int_mono, binary64_mono.
    apply Qplus_le_compat; [now apply Hf |].
    apply binary64_mono.
    apply Qmult_le_compat_r; [now apply Hf | apply Hw].
  - intros [Ho0 Ho] [Hd0 Hd]. unfold score_of, real_offdef.
    destruct (Qeq_bool (OFFENSEDEFENSE_RATIO cfg) 0); apply Hq; [nia |].
    apply py_int_mono, binary64_mono.
    set (w := binary64 (Qabs (OFFENSEDEFENSE_RATIO cfg))).
    assert (Ha : (0 <= float_of_int (offense a))%Q)
      by now apply binary64_nonneg, inject_Z_nonneg.
    assert (Hb : (0 <= fmul (float_of_int (defense b)) w)%Q).
    { apply binary64_nonneg, Qmult_le_0_compat; [| apply Hw].
      apply binary64_nonneg, inject_Z_nonneg. lia. }
    apply Qle_trans
      with (float_of_int (offense a) * fmul (float_of_int (defense b)) w)%Q.
    + rewrite !(Qmult_comm (float_of_int (offense a))).
      apply Qmult_le_compat_r; [| exact Ha].
      apply binary64_mono.
      apply Qmult_le_compat_r; [now apply Hf | apply Hw].
    + apply Qmult_le_compat_r; [now apply Hf | exact Hb].
Qed.

Lemma weighted_scores_monotone_witness :
  (score_of (teamplay shipped) officer
   <= score_of (teamplay shipped) late_officer)%Q
  /\ (score_of (real_offdef shipped) late_officer
      <= score_of (real_offdef shipped) officer)%Q.
Proof.
  split.
  - apply (proj1 (weighted_scores_monotone shipped officer late_officer));
      cbn; lia.
  - apply (proj2 (weighted_scores_monotone shipped late_officer officer));
      cbn; lia.
Defined.

(** ** The records that are shown *)

Lemma StronglySorted_firstn {A : Type} (R : A -> A -> Prop) (n : nat)
    (l : list A) :
  StronglySorted R l -> StronglySorted R (firstn n l).
Proof.
  revert n. induction l as [| x l IH]; intros [| n] Hs; cbn;
    try constructor.
  - apply IH. now inversion Hs.
  - inversion Hs as [| ? ? _ Hx]; subst.
    rewrite Forall_forall in *. intros y Hy. apply Hx.
    rewrite <- (firstn_skipn n l). apply in_or_app. now left.
Qed.

Lemma Forall_firstn {A : Type} (P : A -> Prop) (n : nat) (l : list A) :
  Forall P l -> Forall P (firstn n l).
Proof.
  intros H. rewrite Forall_forall in *. intros x Hx. apply H.
  rewrite <- (firstn_skipn n l). apply in_or_app. now left.
Qed.

Lemma filter_none {A : Type} (f : A -> bool) (l : list A) :
  Forall (fun x => f x = false) l -> filter f l = [].
Proof.
  induction 1 as [| x l Hx _ IH]; cbn [filter]; [reflexivity | now rewrite Hx].
Qed.

(** In a list in descending order of scores that are not negative, the
    records whose score is not 0 come first. *)
Lemma shown_firstn (key : stat -> Q) (l : list stat) :
  StronglySorted (by_key_desc key) l ->
  Forall (fun obj => (0 <= key obj)%Q) l ->
  filter (fun obj => shown (key obj)) l
  = firstn (List.length (filter (fun obj => shown (key obj)) l)) l.
Proof.
  induction 1 as [| x l Hl IH Hx]; intros Hpos; [reflexivity |].
  inversion Hpos as [| ? ? Hx0 Hl0]; subst.
  cbn [filter]. destruct (shown (key x)) eqn:Ex.
  - cbn [List.length firstn]. f_equal. now apply IH.
  - assert (Hnone : filter (fun obj => shown (key obj)) l = []).
    { apply filter_none.
      rewrite Forall_forall in *. intros y Hy.
      unfold shown in *. apply negb_false_iff in Ex. apply Qeq_bool_eq in Ex.
      apply negb_false_iff. apply Qeq_bool_iff.
      apply Qle_antisym; [| now apply Hl0].
      specialize (Hx y Hy). unfold by_key_desc in Hx. now rewrite Ex in Hx. }
    rewrite Hnone. reflexivity.
Qed.

(** X9. Where no record of the bucket has a negative score, the lines of
    the listing are those of the [k] first records of the ranking, for some
    [k]: no record is passed over, the records of score 0 come after all
    the records that are shown. *)
Theorem get_top_shows_a_prefix (cfg : config) (r : rcon)
    (callmode calltype : string) (bucket : list stat)
    (sortkey : stat -> result Q)
    (first_data second_data third_data fourth_data : string)
    (all : list stat) (limit : Z) :
  returns sortkey bucket ->
  (forall obj, In obj bucket -> (0 <= score_of sortkey obj)%Q) ->
  has_key first_data = true ->
  has_key second_data = true ->
  has_key third_data = true ->
  mode_limit cfg callmode = Some limit ->
  exists output r' k,
    get_top cfg r callmode calltype bucket sortkey
      first_data second_data third_data fourth_data all = (Ok output, r')
    /\ map Ok (filter is_line output)
       = map (entry sortkey first_data second_data third_data fourth_data)
           (firstn k (ranked sortkey bucket))
    /\ Forall (fun obj => shown (score_of sortkey obj) = true)
         (firstn k (ranked sortkey bucket)).
Proof.
  intros Hret Hpos H1 H2 H3 Hlimit.
  destruct (get_top_ok cfg r callmode calltype bucket sortkey first_data
              second_data third_data fourth_data all limit Hret H1 H2 H3 Hlimit)
    as (output & r' & Hget & Hlines).
  assert (Hslice : exists m, slice_to limit (ranked sortkey bucket)
                             = firstn m (ranked sortkey bucket)).
  { unfold slice_to. destruct (limit <? 0)%Z; eauto. }
  destruct Hslice as [m Hm].
  assert (Hfilter :
            filter (fun obj => shown (score_of sortkey obj))
              (firstn m (ranked sortkey bucket))
            = firstn
                (List.length
                   (filter (fun obj => shown (score_of sortkey obj))
                      (firstn m (ranked sortkey bucket))))
                (firstn m (ranked sortkey bucket))).
  { apply shown_firstn.
    - apply StronglySorted_firstn, sorted_desc.
    - apply Forall_firstn. apply Forall_forall. intros obj Hobj.
      apply Hpos. eapply Permutation_in; [symmetry; apply sorted_perm |].
      exact Hobj. }
  rewrite firstn_firstn in Hfilter.
  eexists output, r', _. split; [exact Hget |].
  rewrite Hlines, Hm. split.
  - now rewrite Hfilter at 1.
  - rewrite <- Hfilter. apply Forall_forall. intros obj Hobj.
    now apply filter_In in Hobj.
Qed.

Lemma get_top_shows_a_prefix_witness :
  exists output r' k,
    get_top shipped quiet_server "chat" "player" five_players
      (teamplay shipped) "name" "combat" "support" "" five_players
    = (Ok output, r')
    /\ map Ok (filter is_line output)
       = map (entry (teamplay shipped) "name" "combat" "support" "")
           (firstn k (ranked (teamplay shipped) five_players))
    /\ Forall (fun obj => shown (score_of (teamplay shipped) obj) = true)
         (firstn k (ranked (teamplay shipped) five_players)).
Proof.
  apply (get_top_shows_a_prefix shipped quiet_server "chat" "player"
           five_players (teamplay shipped) "name" "combat" "support" ""
           five_players 3 (teamplay_returns shipped five_players));
    try reflexivity.
  intros obj Hobj.
  repeat (destruct Hobj as [<- | Hobj]; [vm_compute; discriminate |]).
  destruct Hobj.
Defined.

(** ** A field the records do not have *)

Lemma getitem_missing (obj : stat) (key : string) :
  has_key key = false -> getitem obj key = Raise (KeyError key).
Proof.
  unfold has_key, getitem. cbn [existsb].
  repeat (destruct (key =? _); [discriminate |]).
  reflexivity.
Qed.

Lemma loop_missing_first (cfg : config) (calltype : string)
    (sortkey : stat -> result Q)
    (first_data second_data third_data fourth_data : string)
    (all : list stat) (vars : locals) (sorted_data samples : list stat) :
  (forall obj, In obj samples ->
     getitem obj first_data = Raise (KeyError first_data)) ->
  (forall obj, In obj samples -> sortkey obj = Ok (score_of sortkey obj)) ->
  forall iteration output r,
    loop cfg "chat" calltype sortkey first_data second_data third_data
      fourth_data all vars sorted_data samples iteration output r
    = (if existsb (fun obj => shown (score_of sortkey obj)) samples
       then Raise (KeyError first_data) else Ok output, r).
Proof.
  induction samples as [| sample rest IH];
    intros Hkey Hret iteration output r; [reflexivity |].
  cbn [loop existsb]. unfold turn, listing, sample_line.
  rewrite (Hret sample) by now left. cbn [bind].
  fold (shown (score_of sortkey sample)).
  destruct (shown (score_of sortkey sample)).
  - rewrite (Hkey sample) by now left.
    destruct (fourth_data =? ""); reflexivity.
  - cbn [orb]. change (vip_gate cfg "chat" calltype second_data vars iteration)
      with (@Ok bool false).
    rewrite app_nil_r.
    apply IH; intros obj Hobj; [apply Hkey | apply Hret]; now right.
Qed.

(** X10. On a chat command, when reading the first display field raises
    [KeyError] on the records of the bucket (the field is not one of their
    keys): [get_top] raises that [KeyError] as soon as one of the first
    [TOPS_CHAT] records of the ranking has a score other than 0, and returns
    the empty listing when none has, for the field is read only for a record
    that is shown; the server is left as it is.  A name that is none of the
    keys the plugin reads of a record is such a field. *)
Theorem get_top_missing_field (cfg : config) (r : rcon) (calltype : string)
    (bucket : list stat) (sortkey : stat -> result Q)
    (first_data second_data third_data fourth_data : string)
    (all : list stat) :
  (forall obj, In obj bucket ->
     getitem obj first_data = Raise (KeyError first_data)) ->
  returns sortkey bucket ->
  get_top cfg r "chat" calltype bucket sortkey
    first_data second_data third_data fourth_data all
  = (if existsb (fun obj => shown (score_of sortkey obj))
          (slice_to (TOPS_CHAT cfg) (ranked sortkey bucket))
     then Raise (KeyError first_data) else Ok [], r).
Proof.
  intros Hkey Hret. rewrite get_top_unfold.
  rewrite (sorted_reverse_eq sortkey (score_of sortkey) bucket
             (returns_score _ _ Hret)).
  fold (ranked sortkey bucket).
  change (mode_limit cfg "chat") with (Some (TOPS_CHAT cfg)).
  change (mode_rcon r "chat") with r. cbv iota beta.
  assert (Hin : forall obj,
            In obj (slice_to (TOPS_CHAT cfg) (ranked sortkey bucket)) ->
            In obj bucket).
  { intros obj Hobj. apply In_slice_to in Hobj.
    eapply Permutation_in; [symmetry; apply sorted_perm | exact Hobj]. }
  apply loop_missing_first; intros obj Hobj.
  - apply Hkey, Hin, Hobj.
  - apply (returns_score _ _ Hret), Hin, Hobj.
Qed.

Lemma get_top_missing_field_witness :
  get_top shipped quiet_server "chat" "player" five_players
    (teamplay shipped) "nickname" "combat" "support" "" five_players
  = (Raise (KeyError "nickname"), quiet_server)
  /\ get_top shipped quiet_server "chat" "player" [rifleman "Dan" 0]
       (teamplay shipped) "nickname" "combat" "support" "" five_players
     = (Ok [], quiet_server).
Proof.
  split.
  - rewrite (get_top_missing_field shipped quiet_server "player" five_players
               (teamplay shipped) "nickname" "combat" "support" ""
               five_players
               (fun obj _ => getitem_missing obj "nickname" eq_refl)
               (teamplay_returns shipped five_players)).
    reflexivity.
  - rewrite (get_top_missing_field shipped quiet_server "player"
               [rifleman "Dan" 0] (teamplay shipped) "nickname" "combat"
               "support" "" five_players
               (fun obj _ => getitem_missing obj "nickname" eq_refl)
               (teamplay_returns shipped [rifleman "Dan" 0])).
    reflexivity.
Defined.

(** ** The ranking of a ranked bucket *)

Lemma insert_desc_head (x : Q * stat) (l : list (Q * stat)) :
  Forall (desc x) l -> insert_desc x l = x :: l.
Proof.
  intros H. destruct l as [| y l]; [reflexivity |].
  cbn [insert_desc]. inversion H as [| ? ? Hy _]; subst.
  unfold desc in Hy. unfold Qltb.
  apply Qle_bool_iff in Hy. now rewrite Hy.
Qed.

Lemma sort_desc_sorted_id (l : list (Q * stat)) :
  StronglySorted desc l -> sort_desc l = l.
Proof.
  induction 1 as [| x l Hl IH Hx]; [reflexivity |].
  cbn [sort_desc]. rewrite IH. now apply insert_desc_head.
Qed.

(** X11. Ranking is idempotent: the bucket that [sorted] returns is left
    as it is when it is ranked again under the same metric. *)
Theorem sorted_reverse_idempotent (sortkey : stat -> result Q)
    (bucket sorted_data : list stat) :
  sorted_reverse bucket sortkey = Ok sorted_data ->
  sorted_reverse sorted_data sortkey = Ok sorted_data.
Proof.
  intros Hs.
  assert (Hret : returns sortkey bucket).
  { intros obj Hobj. unfold sorted_reverse in Hs.
    destruct (mapM (keyed sortkey) bucket) as [decorated |] eqn:Em;
      [| discriminate].
    clear Hs. revert decorated Em.
    induction bucket as [| x bucket IH]; intros decorated Em; [destruct Hobj |].
    cbn [mapM] in Em. unfold keyed at 1 in Em.
    destruct (sortkey x) as [k |] eqn:Ek; [| discriminate].
    cbn [bind] in Em.
    destruct (mapM (keyed sortkey) bucket) as [bs |]; [| discriminate].
    destruct Hobj as [<- | Hobj]; [eauto | now apply (IH Hobj bs)]. }
  pose proof (returns_score _ _ Hret) as Hscore.
  rewrite (sorted_reverse_eq sortkey (score_of sortkey) bucket Hscore) in Hs.
  injection Hs as <-.
  rewrite (sorted_reverse_eq sortkey (score_of sortkey)).
  - f_equal. unfold decorate at 1.
    assert (Hco := decorate_coherent (score_of sortkey) bucket).
    assert (Hso := sort_desc_sorted (decorate (score_of sortkey) bucket)).
    set (L := sort_desc (decorate (score_of sortkey) bucket)) in *.
    assert (Hmap : map (fun obj => (score_of sortkey obj, obj)) (map snd L) = L).
    { clear Hso. induction Hco as [| p L Hp HL IH]; [reflexivity |].
      cbn [map]. rewrite IH. f_equal. rewrite <- Hp. now destruct p. }
    rewrite Hmap, (sort_desc_sorted_id L Hso). reflexivity.
  - intros obj Hobj. apply Hscore.
    eapply Permutation_in; [symmetry; apply sorted_perm | exact Hobj].
Qed.

Lemma sorted_reverse_idempotent_witness :
  sorted_reverse
    [rifleman "Ann" 50; rifleman "Bob" 50; rifleman "Cid" 30;
     rifleman "Eve" 10; rifleman "Dan" 0] (teamplay shipped)
  = Ok [rifleman "Ann" 50; rifleman "Bob" 50; rifleman "Cid" 30;
        rifleman "Eve" 10; rifleman "Dan" 0].
Proof.
  apply (sorted_reverse_idempotent (teamplay shipped) five_players).
  vm_compute. reflexivity.
Defined.

(** ** The VIP list is read, not written *)

Lemma in_first_entry (items : list vip_item) (item : vip_item) :
  NoDup (map vip_player_id items) -> In item items ->
  exists before after,
    items = (before ++ item :: after)%list
    /\ forall i, In i before -> vip_player_id i <> vip_player_id item.
Proof.
  intros Hnd Hin. apply in_split in Hin. destruct Hin as (before & after & ->).
  exists before, after. split; [reflexivity |].
  intros i Hi Heq. rewrite map_app in Hnd. cbn [map] in Hnd.
  apply NoDup_remove_2 in Hnd. apply Hnd.
  apply in_or_app. left. rewrite <- Heq. now apply in_map.
Qed.

(** X12. [is_vip_for_less_than_xh] asks the server for the VIP list and
    changes nothing.  On a list with one entry for each player at most, its
    answer for a player whose entry ends at [e] is whether [e] comes before
    now + the delay, and for a player without entry it is [True]. *)
Theorem is_vip_for_less_than_xh_answer (r : rcon) (player_id : string)
    (vip_delay_hours : Z) :
  NoDup (map vip_player_id (vips r)) ->
  snd (is_vip_for_less_than_xh r player_id vip_delay_hours)
  = logged GetVipIds r
  /\ (forall item e,
        In item (vips r) -> vip_player_id item = player_id ->
        vip_expiration item = Some e ->
        fst (is_vip_for_less_than_xh r player_id vip_delay_hours)
        = (e <? now r + hours vip_delay_hours)%Z)
  /\ ((forall item, In item (vips r) -> vip_player_id item <> player_id) ->
      fst (is_vip_for_less_than_xh r player_id vip_delay_hours) = true).
Proof.
  intros Hnd. unfold is_vip_for_less_than_xh. cbn [get_vip_ids fst snd].
  change (now (logged GetVipIds r)) with (now r).
  split; [reflexivity | split].
  - intros item e Hin Hid Hexp.
    destruct (in_first_entry (vips r) item Hnd Hin)
      as (before & after & -> & Hbefore).
    rewrite Hid in Hbefore.
    now apply vip_scan_entry.
  - apply vip_scan_absent.
Qed.

Lemma is_vip_for_less_than_xh_answer_witness :
  fst (is_vip_for_less_than_xh (vip_server 20) "Ann" 14) = false
  /\ fst (is_vip_for_less_than_xh (vip_server 5) "Ann" 14) = true
  /\ fst (is_vip_for_less_than_xh (vip_server 5) "Bob" 14) = true.
Proof.
  assert (Hnd : forall h, NoDup (map vip_player_id (vips (vip_server h)))).
  { intros h. cbn. constructor; [intros [] | constructor]. }
  split; [| split].
  - rewrite (proj1 (proj2 (is_vip_for_less_than_xh_answer (vip_server 20)
                             "Ann" 14 (Hnd 20)))
               _ (1700000000 + hours 20) (or_introl eq_refl) eq_refl eq_refl).
    reflexivity.
  - rewrite (proj1 (proj2 (is_vip_for_less_than_xh_answer (vip_server 5)
                             "Ann" 14 (Hnd 5)))
               _ (1700000000 + hours 5) (or_introl eq_refl) eq_refl eq_refl).
    reflexivity.
  - apply (proj2 (proj2 (is_vip_for_less_than_xh_answer (vip_server 5)
                           "Bob" 14 (Hnd 5)))).
    intros item [<- | []]. discriminate.
Defined.

(** ** team_view_stats *)

Lemma gathered_app_nothing (a : gathered) : gathered_app a nothing_gathered = a.
Proof.
  destruct a. unfold gathered_app. cbn. now rewrite !app_nil_r.
Qed.

Lemma gathered_app_assoc (a b c : gathered) :
  gathered_app (gathered_app a b) c = gathered_app a (gathered_app b c).
Proof. unfold gathered_app. cbn. now rewrite <- !app_assoc. Qed.

Lemma brought_app (gs gs' : list (team_side * (string * squad_data))) :
  brought (gs ++ gs') = gathered_app (brought gs) (brought gs').
Proof.
  unfold brought, gathered_app. cbn.
  now rewrite !filter_app, !flat_map_app, !map_app.
Qed.

Lemma gather_squads (team : team_side) (items : list (string * squad_data)) :
  forall acc,
    fold_left (gather_squad team) items acc
    = gathered_app acc (brought (map (pair team) items)).
Proof.
  induction items as [| [squad data] items IH]; intros acc.
  - cbn. now rewrite gathered_app_nothing.
  - cbn [fold_left map]. rewrite IH.
    change (pair team (squad, data) :: map (pair team) items)
      with ([(team, (squad, data))] ++ map (pair team) items)%list.
    rewrite brought_app, <- gathered_app_assoc. f_equal.
    unfold gather_squad, brought, gathered_app, is_armor, is_infantry,
      players_in, entry_of.
    cbn [filter snd fst].
    destruct ((squad_type data =? "infantry") || (squad_type data =? "recon")).
    + cbn. now rewrite !app_nil_r.
    + cbn [negb andb]. destruct (squad_type data =? "armor").
      * cbn. now rewrite !app_nil_r.
      * destruct acc. cbn. now rewrite !app_nil_r.
Qed.

Lemma gather_team_eq (get_team_view : team_side -> option team_data)
    (acc : gathered) (team : team_side) :
  gather_team get_team_view acc team
  = gathered_app acc
      (gathered_app
         {| commanders := commander_of get_team_view team;
            players_infantry := []; players_armor := [];
            squads_infantry := []; squads_armor := [] |}
         (brought (squads_of get_team_view team))).
Proof.
  unfold gather_team, commander_of, squads_of.
  destruct (get_team_view team) as [info |].
  - rewrite gather_squads, <- gathered_app_assoc. f_equal.
    destruct (commander info); destruct acc; unfold gathered_app; cbn;
      now rewrite ?app_nil_r.
  - destruct acc. unfold gathered_app. cbn. now rewrite !app_nil_r.
Qed.

Lemma gathered_lists (get_team_view : team_side -> option team_data) :
  team_view_stats get_team_view
  = gathered_app
      {| commanders :=
           commander_of get_team_view allies ++ commander_of get_team_view axis;
         players_infantry := []; players_armor := [];
         squads_infantry := []; squads_armor := [] |}
      (brought (all_squads get_team_view)).
Proof.
  unfold team_view_stats, all_squads. cbn [fold_left].
  rewrite !gather_team_eq, brought_app.
  unfold gathered_app, brought. cbn.
  now rewrite !app_nil_r.
Qed.

(** X13. What [team_view_stats] returns.  The commanders are the one of
    the allies then the one of the axis, for the teams that have one.  The
    infantry players are the players of the squads of type infantry or
    recon, squad after squad, the allies first; the armor players those of
    the squads of type armor; and the two lists of squads are these same
    squads, in the same order, each under its name and with its team. *)
Theorem team_view_stats_lists (get_team_view : team_side -> option team_data) :
  commanders (team_view_stats get_team_view)
  = (commander_of get_team_view allies ++ commander_of get_team_view axis)%list
  /\ players_infantry (team_view_stats get_team_view)
     = flat_map players_in (filter is_infantry (all_squads get_team_view))
  /\ players_armor (team_view_stats get_team_view)
     = flat_map players_in (filter is_armor (all_squads get_team_view))
  /\ squads_infantry (team_view_stats get_team_view)
     = map entry_of (filter is_infantry (all_squads get_team_view))
  /\ squads_armor (team_view_stats get_team_view)
     = map entry_of (filter is_armor (all_squads get_team_view)).
Proof.
  rewrite gathered_lists. cbn. rewrite app_nil_r. repeat split; reflexivity.
Qed.

Lemma team_view_stats_lists_witness :
  map name (commanders (team_view_stats small_match)) = ["Gus"]
  /\ map name (players_infantry (team_view_stats small_match))
     = ["Ann"; "Bob"; "Cid"]
  /\ map name (players_armor (team_view_stats small_match)) = ["Kai"]
  /\ map fst (squads_infantry (team_view_stats small_match)) = ["able"; "baker"]
  /\ map fst (squads_armor (team_view_stats small_match)) = ["able"].
Proof.
  destruct (team_view_stats_lists small_match) as (-> & -> & -> & -> & ->).
  repeat split.
Defined.

(** X14. What [team_view_stats] never does.  A squad in the infantry list
    has the type infantry or recon, one in the armor list the type armor,
    and each carries the team under which the server lists a squad of that
    name; a player is in the infantry list, or the armor list, only as a
    player of a squad of such a type.  So a squad of any other type puts
    nothing in any list. *)
Theorem team_view_stats_types (get_team_view : team_side -> option team_data) :
  (forall e, In e (squads_infantry (team_view_stats get_team_view)) ->
     (stats_type (snd e) = "infantry" \/ stats_type (snd e) = "recon")
     /\ exists info data,
          get_team_view (stats_team (snd e)) = Some info
          /\ In (fst e, data) (squads info)
          /\ snd e = detached (stats_team (snd e)) data)
  /\ (forall e, In e (squads_armor (team_view_stats get_team_view)) ->
        stats_type (snd e) = "armor"
        /\ exists info data,
             get_team_view (stats_team (snd e)) = Some info
             /\ In (fst e, data) (squads info)
             /\ snd e = detached (stats_team (snd e)) data)
  /\ (forall p, In p (players_infantry (team_view_stats get_team_view)) ->
        exists g, In g (all_squads get_team_view) /\ In p (players_in g)
                  /\ (squad_type (snd (snd g)) = "infantry"
                      \/ squad_type (snd (snd g)) = "recon"))
  /\ (forall p, In p (players_armor (team_view_stats get_team_view)) ->
        exists g, In g (all_squads get_team_view) /\ In p (players_in g)
                  /\ squad_type (snd (snd g)) = "armor").
Proof.
  rewrite gathered_lists. cbn [gathered_app brought commanders players_infantry
    players_armor squads_infantry squads_armor app].
  assert (Hall : forall g, In g (all_squads get_team_view) ->
            exists info, get_team_view (fst g) = Some info
                         /\ In (snd g) (squads info)).
  { intros g Hg. unfold all_squads, squads_of in Hg.
    apply in_app_or in Hg.
    destruct Hg as [Hg | Hg];
      [destruct (get_team_view allies) as [info |] eqn:E
      | destruct (get_team_view axis) as [info |] eqn:E];
      try destruct Hg;
      apply in_map_iff in Hg; destruct Hg as (item & <- & Hitem);
      exists info; now split. }
  assert (Hinf : forall g, is_infantry g = true ->
            squad_type (snd (snd g)) = "infantry"
            \/ squad_type (snd (snd g)) = "recon").
  { intros g Hg. unfold is_infantry in Hg. apply orb_true_iff in Hg.
    destruct Hg as [Hg | Hg]; apply String.eqb_eq in Hg; auto. }
  assert (Harm : forall g, is_armor g = true ->
            squad_type (snd (snd g)) = "armor").
  { intros g Hg. unfold is_armor in Hg. apply andb_true_iff in Hg.
    destruct Hg as [_ Hg]. now apply String.eqb_eq in Hg. }
  assert (Hentry : forall g, In g (all_squads get_team_view) ->
            exists info data,
              get_team_view (stats_team (snd (entry_of g))) = Some info
              /\ In (fst (entry_of g), data) (squads info)
              /\ snd (entry_of g)
                 = detached (stats_team (snd (entry_of g))) data).
  { intros g Hg. destruct (Hall g Hg) as (info & Hinfo & Hin).
    exists info, (snd (snd g)). destruct g as [t [n d]]. now repeat split. }
  split; [| split; [| split]].
  - intros e He. apply in_map_iff in He. destruct He as (g & <- & Hg).
    apply filter_In in Hg. destruct Hg as [Hg Ht].
    split; [now apply Hinf | now apply Hentry].
  - intros e He. apply in_map_iff in He. destruct He as (g & <- & Hg).
    apply filter_In in Hg. destruct Hg as [Hg Ht].
    split; [now apply Harm | now apply Hentry].
  - intros p Hp. apply in_flat_map in Hp. destruct Hp as (g & Hg & Hp).
    apply filter_In in Hg. destruct Hg as [Hg Ht].
    exists g. repeat split; auto.
  - intros p Hp. apply in_flat_map in Hp. destruct Hp as (g & Hg & Hp).
    apply filter_In in Hg. destruct Hg as [Hg Ht].
    exists g. repeat split; auto.
Qed.

(** ** The members of a squad, from what the server reports *)

Lemma team_eqb_eq (a b : team_side) : team_eqb a b = true <-> a = b.
Proof. destruct a, b; cbn; split; congruence. Qed.

Lemma NoDup_map_pair {A B : Type} (a : A) (l : list B) :
  NoDup l -> NoDup (map (pair a) l).
Proof.
  induction 1 as [| x l Hx Hl IH]; cbn; constructor; [| exact IH].
  intros Hin. apply in_map_iff in Hin. destruct Hin as (y & [= ->] & Hy).
  contradiction.
Qed.

Lemma keys_unique_filter {Item Key : Type} (key : Item -> Key)
    (keep : Item -> bool) (items : list Item) :
  NoDup (map key items) -> NoDup (map key (filter keep items)).
Proof.
  intros Hnd. induction items as [| item items IH]; [constructor |].
  cbn [map filter] in *. inversion Hnd as [| ? ? Hitem Hitems]; subst.
  destruct (keep item); [| now apply IH].
  cbn [map]. constructor; [| now apply IH].
  intros Hin. apply Hitem. apply in_map_iff in Hin.
  destruct Hin as (other & Hkey & Hin). apply filter_In in Hin.
  apply in_map_iff. exists other. tauto.
Qed.

Lemma squad_keys_unique (get_team_view : team_side -> option team_data) :
  squad_names_unique get_team_view ->
  NoDup (map squad_key (all_squads get_team_view)).
Proof.
  intros Hu. unfold all_squads. rewrite map_app.
  assert (Hkeys : forall team,
            map squad_key (squads_of get_team_view team)
            = map (pair team)
                (match get_team_view team with
                 | Some info => map fst (squads info)
                 | None => []
                 end)).
  { intros team. unfold squads_of.
    destruct (get_team_view team) as [info |]; [| reflexivity].
    rewrite !map_map. reflexivity. }
  rewrite !Hkeys.
  apply NoDup_app.
  - apply NoDup_map_pair.
    destruct (get_team_view allies) as [info |] eqn:E;
      [now apply (Hu allies) | constructor].
  - apply NoDup_map_pair.
    destruct (get_team_view axis) as [info |] eqn:E;
      [now apply (Hu axis) | constructor].
  - intros k Ha Hx. apply in_map_iff in Ha, Hx.
    destruct Ha as (n & <- & _), Hx as (n' & [=] & _).
Qed.

Section Groups.

Variable gs : list (team_side * (string * squad_data)).

Hypothesis tagged :
  forall g p, In g gs -> In p (players_in g) ->
              team p = fst g /\ unit_name p = fst (snd g).

Lemma no_member_elsewhere (k : team_side * string)
    (l : list (team_side * (string * squad_data))) :
  incl l gs -> ~ In k (map squad_key l) ->
  filter (fun data => team_eqb (team data) (fst k) && (unit_name data =? snd k))
    (flat_map players_in l) = [].
Proof.
  intros Hincl Hk. apply filter_none, Forall_forall. intros p Hp.
  apply in_flat_map in Hp. destruct Hp as (g & Hg & Hp).
  destruct (tagged g p (Hincl g Hg) Hp) as [Ht Hn].
  destruct (team_eqb (team p) (fst k)) eqn:Et; [| reflexivity].
  destruct (String.eqb_spec (unit_name p) (snd k)) as [En | En];
    [| reflexivity].
  exfalso. apply Hk. apply in_map_iff. exists g. split; [| exact Hg].
  apply team_eqb_eq in Et. unfold squad_key. rewrite <- Ht, <- Hn, Et, En.
  now destruct k.
Qed.

Lemma members_of_group (l : list (team_side * (string * squad_data))) :
  incl l gs -> NoDup (map squad_key l) ->
  forall g, In g l ->
    filter (fun data => team_eqb (team data) (fst g)
                        && (unit_name data =? fst (snd g)))
      (flat_map players_in l) = players_in g.
Proof.
  induction l as [| g0 l IH]; intros Hincl Hnd g Hg; [destruct Hg |].
  cbn [map] in Hnd. inversion Hnd as [| ? ? Hk Hl]; subst.
  cbn [flat_map]. rewrite filter_app.
  assert (Hl_incl : incl l gs) by (intros x Hx; apply Hincl; now right).
  destruct Hg as [-> | Hg].
  - pose proof (no_member_elsewhere (squad_key g) l Hl_incl Hk) as Hnone.
    cbn [squad_key fst snd] in Hnone. rewrite Hnone, app_nil_r.
    apply forallb_filter_id. apply forallb_forall. intros p Hp.
    destruct (tagged g p (Hincl g (or_introl eq_refl)) Hp) as [-> ->].
    rewrite String.eqb_refl, andb_true_r. now apply team_eqb_eq.
  - rewrite (IH Hl_incl Hl g Hg).
    replace (filter _ (players_in g0)) with (@nil stat); [reflexivity |].
    symmetry. apply filter_none, Forall_forall. intros p Hp.
    destruct (tagged g0 p (Hincl g0 (or_introl eq_refl)) Hp) as [Ht Hn].
    destruct (team_eqb (team p) (fst g)) eqn:Et; [| reflexivity].
    destruct (String.eqb_spec (unit_name p) (fst (snd g))) as [En | En];
      [| reflexivity].
    exfalso. apply Hk. apply in_map_iff. exists g. split; [| exact Hg].
    apply team_eqb_eq in Et. unfold squad_key. congruence.
Qed.

End Groups.

(** X15. Where every player the server lists in a squad carries the team
    and the name of that squad, and a team has one squad of a name, the
    line of members that [get_top] writes for a squad of the infantry, or
    of the armor, holds the names of the players of that squad, all of them
    and in their order, and no other name. *)
Theorem squad_members_are_its_players
    (get_team_view : team_side -> option team_data) :
  players_tagged get_team_view ->
  squad_names_unique get_team_view ->
  forall g,
    In g (all_squads get_team_view) ->
    (is_infantry g = true ->
     best_players (players_infantry (team_view_stats get_team_view))
       (named (entry_of g))
     = MembersLine (map name (players_in g)))
    /\ (is_armor g = true ->
        best_players (players_armor (team_view_stats get_team_view))
          (named (entry_of g))
        = MembersLine (map name (players_in g))).
Proof.
  intros Htag Hunique g Hg.
  pose proof (squad_keys_unique get_team_view Hunique) as Hnd.
  rewrite gathered_lists.
  cbn [gathered_app brought players_infantry players_armor app].
  unfold best_players.
  assert (Hnamed : team (named (entry_of g)) = fst g
                   /\ name (named (entry_of g)) = fst (snd g))
    by (destruct g as [t [n d]]; now split).
  destruct Hnamed as [-> ->].
  split; intros Ht; f_equal; f_equal;
    apply (members_of_group (all_squads get_team_view) Htag);
    try (intros x Hx; apply filter_In in Hx; tauto);
    try (now apply keys_unique_filter);
    apply filter_In; now split.
Qed.

Lemma squad_members_are_its_players_witness :
  best_players (players_infantry (team_view_stats small_match))
    (named (entry_of (allies, ("able", able_squad))))
  = MembersLine ["Ann"; "Bob"]
  /\ best_players (players_armor (team_view_stats small_match))
       (named (entry_of (axis, ("able", tank_squad))))
     = MembersLine ["Kai"].
Proof.
  assert (Htag : players_tagged small_match).
  { intros g p Hg Hp. cbn in Hg.
    repeat (destruct Hg as [<- | Hg];
            [cbn in Hp;
             repeat (destruct Hp as [<- | Hp]; [now split |]); destruct Hp |]).
    destruct Hg. }
  assert (Hunique : squad_names_unique small_match).
  { intros [|] info [= <-]; cbn;
      repeat (constructor; [cbn; intuition discriminate |]); constructor. }
  split.
  - apply (proj1 (squad_members_are_its_players small_match Htag Hunique
                    (allies, ("able", able_squad))
                    (or_introl eq_refl)) eq_refl).
  - apply (proj2 (squad_members_are_its_players small_match Htag Hunique
                    (axis, ("able", tank_squad))
                    (or_intror (or_intror (or_introl eq_refl)))) eq_refl).
Defined.

(** ** The report *)

Lemma append_nil_r (s : string) : s ++ "" = s.
Proof. induction s as [| c s IH]; cbn; [reflexivity | now rewrite IH]. Qed.

Lemma append_assoc (a b c : string) : (a ++ b) ++ c = a ++ (b ++ c).
Proof. induction a as [| x a IH]; cbn; [reflexivity | now rewrite IH]. Qed.

Lemma nonempty_false (t : string) : nonempty t = false -> t = "".
Proof. destruct t; [reflexivity | discriminate]. Qed.

Lemma occurs_here (t post : string) : occurs t (t ++ post).
Proof. now exists "", post. Qed.

Lemma occurs_l (t a b : string) : occurs t a -> occurs t (a ++ b).
Proof.
  intros (pre & post & ->). exists pre, (post ++ b).
  now rewrite !append_assoc.
Qed.

Lemma occurs_r (t a b : string) : occurs t b -> occurs t (a ++ b).
Proof.
  intros (pre & post & ->). exists (a ++ pre), post.
  now rewrite !append_assoc.
Qed.

Lemma occurs_empty (s : string) : occurs "" s.
Proof. now exists "", s. Qed.

Create HintDb occurs.
#[local] Hint Resolve occurs_here occurs_l occurs_r : occurs.

Section DisplayFacts.

Variable cfg : config.
Variable str_number : Q -> string.

Lemma display_players_head (t1 t2 t3 t4 t5 : string) :
  (nonempty t1 || nonempty t2 || nonempty t3 || nonempty t4 || nonempty t5
   = false
   /\ display_players cfg str_number t1 t2 t3 t4 t5 = "")
  \/ exists rest,
       display_players cfg str_number t1 t2 t3 t4 t5
       = String "226"%char rest.
Proof.
  unfold display_players.
  destruct (nonempty t1 || nonempty t2 || nonempty t3 || nonempty t4
            || nonempty t5); [right | left; now split].
  destruct (nonempty t1);
    destruct (nonempty t2 || nonempty t3 || nonempty t4 || nonempty t5);
    destruct (nonempty t2), (nonempty t3), (nonempty t4), (nonempty t5);
    cbn [append]; eexists; reflexivity.
Qed.

Lemma display_squads_tail (message t6 t7 t8 t9 : string) :
  (nonempty t6 || nonempty t7 || nonempty t8 || nonempty t9 = false
   /\ display_squads cfg message t6 t7 t8 t9 = message)
  \/ exists rest,
       display_squads cfg message t6 t7 t8 t9
       = message ++ String "010"%char rest.
Proof.
  unfold display_squads.
  destruct (nonempty t6 || nonempty t7 || nonempty t8 || nonempty t9);
    [right | left; now split].
  destruct (nonempty t6 || nonempty t7), (nonempty t8 || nonempty t9);
    destruct (nonempty t6), (nonempty t7), (nonempty t8), (nonempty t9);
    rewrite ?append_assoc; cbn [append newline]; eexists; reflexivity.
Qed.

Lemma nostatsyet_head (c : ascii) (rest : string) :
  c = "226"%char \/ c = "010"%char ->
  String c rest <> TRANSL_nostatsyet (LANG cfg).
Proof.
  unfold TRANSL_nostatsyet, pick.
  intros [-> | ->]; destruct (LANG cfg); discriminate.
Qed.

(** The report is the message whenever the message is not empty. *)
Lemma stats_display_message (t1 t2 t3 t4 t5 t6 t7 t8 t9 : string) :
  (nonempty t1 || nonempty t2 || nonempty t3 || nonempty t4 || nonempty t5
   = false
   /\ nonempty t6 || nonempty t7 || nonempty t8 || nonempty t9 = false
   /\ stats_display cfg str_number t1 t2 t3 t4 t5 t6 t7 t8 t9
      = TRANSL_nostatsyet (LANG cfg))
  \/ (stats_display cfg str_number t1 t2 t3 t4 t5 t6 t7 t8 t9
      = display_squads cfg (display_players cfg str_number t1 t2 t3 t4 t5)
          t6 t7 t8 t9
      /\ exists c rest,
           (c = "226"%char \/ c = "010"%char)
           /\ stats_display cfg str_number t1 t2 t3 t4 t5 t6 t7 t8 t9
              = String c rest).
Proof.
  unfold stats_display.
  destruct (display_players_head t1 t2 t3 t4 t5) as [[Hp ->] | [rest ->]];
    destruct (display_squads_tail "" t6 t7 t8 t9) as [[Hs Hd] | [rest' Hd]];
    try destruct (display_squads_tail (String "226"%char rest) t6 t7 t8 t9)
      as [[Hs' Hd'] | [rest'' Hd']].
  - left. rewrite Hd. now repeat split.
  - right. rewrite Hd. cbn. split; [reflexivity |]. eauto.
  - right. rewrite Hd'. cbn. split; [reflexivity |]. eauto.
  - right. rewrite Hd'. cbn. split; [reflexivity |]. eauto.
  - right. rewrite Hd'. cbn. split; [reflexivity |]. eauto.
  - right. rewrite Hd'. cbn. split; [reflexivity |]. eauto.
Qed.

End DisplayFacts.

(** X16. [stats_display] returns the text for "no stats yet" when the nine
    listings are empty, and only then: with one listing or more that is not
    empty the report is another text, which starts with a heading. *)
Theorem stats_display_no_stats (cfg : config) (str_number : Q -> string)
    (t1 t2 t3 t4 t5 t6 t7 t8 t9 : string) :
  stats_display cfg str_number t1 t2 t3 t4 t5 t6 t7 t8 t9
  = TRANSL_nostatsyet (LANG cfg)
  <-> t1 = "" /\ t2 = "" /\ t3 = "" /\ t4 = "" /\ t5 = ""
      /\ t6 = "" /\ t7 = "" /\ t8 = "" /\ t9 = "".
Proof.
  split.
  - intros H.
    destruct (stats_display_message cfg str_number t1 t2 t3 t4 t5 t6 t7 t8 t9)
      as [(Hp & Hs & _) | (_ & c & rest & Hc & Hm)].
    + repeat (apply orb_false_iff in Hp; destruct Hp as [Hp ?]).
      repeat (apply orb_false_iff in Hs; destruct Hs as [Hs ?]).
      repeat split; now apply nonempty_false.
    + rewrite Hm in H. now apply nostatsyet_head in H.
  - intros (-> & -> & -> & -> & -> & -> & -> & -> & ->). reflexivity.
Qed.

Ltac occurs_search :=
  first [ apply occurs_here
        | apply occurs_r; occurs_search
        | apply occurs_l; occurs_search ].

Section DisplayListings.

Variable cfg : config.
Variable str_number : Q -> string.

Lemma display_squads_keeps (t message t6 t7 t8 t9 : string) :
  occurs t message -> occurs t (display_squads cfg message t6 t7 t8 t9).
Proof.
  intros H.
  destruct (display_squads_tail cfg message t6 t7 t8 t9)
    as [[_ ->] | [rest ->]]; [exact H | now apply occurs_l].
Qed.

Lemma display_players_listings (t1 t2 t3 t4 t5 : string) :
  (nonempty t1 = true -> occurs t1 (display_players cfg str_number t1 t2 t3 t4 t5))
  /\ (nonempty t2 = true -> occurs t2 (display_players cfg str_number t1 t2 t3 t4 t5))
  /\ (nonempty t3 = true -> occurs t3 (display_players cfg str_number t1 t2 t3 t4 t5))
  /\ (nonempty t4 = true -> occurs t4 (display_players cfg str_number t1 t2 t3 t4 t5))
  /\ (nonempty t5 = true -> occurs t5 (display_players cfg str_number t1 t2 t3 t4 t5)).
Proof.
  unfold display_players, offdef_block, teamplay_block.
  destruct (nonempty t1), (nonempty t2), (nonempty t3), (nonempty t4),
    (nonempty t5); cbn [orb];
    repeat split; intros H; try discriminate H; occurs_search.
Qed.

Lemma display_squads_listings (message t6 t7 t8 t9 : string) :
  (nonempty t6 = true -> occurs t6 (display_squads cfg message t6 t7 t8 t9))
  /\ (nonempty t7 = true -> occurs t7 (display_squads cfg message t6 t7 t8 t9))
  /\ (nonempty t8 = true -> occurs t8 (display_squads cfg message t6 t7 t8 t9))
  /\ (nonempty t9 = true -> occurs t9 (display_squads cfg message t6 t7 t8 t9)).
Proof.
  unfold display_squads, offdef_block, teamplay_block.
  destruct (nonempty t6), (nonempty t7), (nonempty t8), (nonempty t9);
    cbn [orb];
    repeat split; intros H; try discriminate H; occurs_search.
Qed.

End DisplayListings.

(** X17. No listing is lost: each of the nine listings occurs, as it is, in
    the report that [stats_display] returns. *)
Theorem stats_display_keeps_listings (cfg : config)
    (str_number : Q -> string) (t1 t2 t3 t4 t5 t6 t7 t8 t9 : string) :
  Forall
    (fun t => occurs t (stats_display cfg str_number t1 t2 t3 t4 t5 t6 t7 t8 t9))
    [t1; t2; t3; t4; t5; t6; t7; t8; t9].
Proof.
  assert (Hempty : forall t s, nonempty t = false -> occurs t s).
  { intros t s H. apply nonempty_false in H. subst. apply occurs_empty. }
  destruct (stats_display_message cfg str_number t1 t2 t3 t4 t5 t6 t7 t8 t9)
    as [(Hp & Hs & _) | (-> & _)].
  - repeat (apply orb_false_iff in Hp; destruct Hp as [Hp ?]).
    repeat (apply orb_false_iff in Hs; destruct Hs as [Hs ?]).
    repeat constructor; now apply Hempty.
  - destruct (display_players_listings cfg str_number t1 t2 t3 t4 t5)
      as (H1 & H2 & H3 & H4 & H5).
    destruct (display_squads_listings cfg
                (display_players cfg str_number t1 t2 t3 t4 t5) t6 t7 t8 t9)
      as (H6 & H7 & H8 & H9).
    repeat constructor;
      match goal with
      | |- occurs ?t _ =>
          destruct (nonempty t) eqn:E; [| now apply Hempty];
          first [ solve [apply display_squads_keeps; auto] | solve [auto] ]
      end.
Qed.

(** ** The messages *)

Lemma message_each_eq (all_players_list : list (string * string))
    (message : string) :
  forall g,
    message_each all_players_list message g
    = {| link := link g; reported := reported g; connected := connected g;
         unreachable := unreachable g;
         inbox := inbox g ++ delivered g all_players_list message;
         asked := asked g ++ messages_to all_players_list message |}.
Proof.
  induction all_players_list as [| player rest IH]; intros g.
  - unfold delivered, messages_to. cbn. rewrite !app_nil_r. now destruct g.
  - cbn [message_each]. unfold message_player, delivered, messages_to.
    cbn [filter map asking unreachable].
    destruct (unreachable g (snd player)) eqn:E; cbn [negb].
    + rewrite IH.
      cbn [link reported connected unreachable inbox asked asking map].
      unfold delivered, messages_to. cbn [unreachable].
      now rewrite <- app_assoc.
    + rewrite IH.
      cbn [link reported connected unreachable inbox asked asking map].
      unfold delivered, messages_to. cbn [unreachable].
      now rewrite <- !app_assoc.
Qed.

(** X18. [message_all_players] asks for the connected players and then
    sends the message to each of them, in the order of the list: it is
    delivered once to each player who can be reached and to none of the
    others; a player who cannot be reached stops nothing.  The connection
    that [get_top] uses and the list of the players are left as they
    are. *)
Theorem message_all_players_delivers (g : game) (message : string) :
  inbox (message_all_players g message)
  = (inbox g ++ delivered g (connected g) message)%list
  /\ link (message_all_players g message) = link g
  /\ connected (message_all_players g message) = connected g
  /\ asked (message_all_players g message)
     = (asked g ++ GetPlayerIds :: messages_to (connected g) message)%list
  /\ forall player_id,
       In (player_id, message) (delivered g (connected g) message)
       <-> unreachable g player_id = false
           /\ exists player_name, In (player_name, player_id) (connected g).
Proof.
  unfold message_all_players, get_playerids. rewrite message_each_eq.
  cbn [link reported connected unreachable inbox asked asking].
  split; [reflexivity | split; [reflexivity | split; [reflexivity |]]].
  split; [now rewrite <- app_assoc |].
  intros pid. unfold delivered. rewrite in_map_iff. split.
  - intros ([player_name id] & [= <-] & Hp). apply filter_In in Hp.
    cbn [snd] in Hp. destruct Hp as [Hin Hr]. apply negb_true_iff in Hr.
    split; [exact Hr | now exists player_name].
  - intros [Hr [player_name Hin]].
    exists (player_name, pid). split; [reflexivity |].
    apply filter_In. split; [exact Hin |]. cbn. now rewrite Hr.
Qed.

(** ** The two hooks *)

Lemma get_top_empty (cfg : config) (r : rcon) (callmode calltype : string)
    (sortkey : stat -> result Q)
    (first_data second_data third_data fourth_data : string)
    (all : list stat) (limit : Z) :
  mode_limit cfg callmode = Some limit ->
  get_top cfg r callmode calltype [] sortkey
    first_data second_data third_data fourth_data all
  = (Ok [], mode_rcon r callmode).
Proof.
  intros Hlimit. rewrite get_top_unfold, Hlimit. cbn [sorted_reverse mapM bind
    sort_desc map].
  unfold slice_to. now rewrite !firstn_nil, Tauto.if_same.
Qed.

Lemma stats_gather_empty (cfg : config) (r : rcon) :
  stats_gather cfg r "matchend" (buckets nothing_gathered)
  = (Ok {| top_commanders_teamplay := [];
           top_infantry_offdef := [];
           top_infantry_teamplay := [];
           top_infantry_ratio := [];
           top_infantry_killrate := [];
           top_squads_infantry_offdef := [];
           top_squads_infantry_teamplay := [];
           top_squads_armor_offdef := [];
           top_squads_armor_teamplay := [] |},
     status_asked 9 r).
Proof.
  unfold stats_gather. cbn [buckets nothing_gathered all_commanders
    all_players_infantry all_players_armor all_squads_infantry
    all_squads_armor commanders players_infantry players_armor
    squads_infantry squads_armor map].
  repeat (rewrite (get_top_empty _ _ "matchend" _ _ _ _ _ _ _ (TOPS_MATCHEND cfg))
            by reflexivity;
          cbn [and_then]).
  reflexivity.
Qed.

Lemma with_link_same (g : game) : with_link (link g) g = g.
Proof. now destruct g. Qed.

Lemma stats_gather_on_chat (cfg : config) (g : game) :
  stats_gather_on cfg g "chat"
  = (fst (stats_gather_live cfg (link g) "chat" (reported g)),
     asking GetTeamView g).
Proof.
  unfold stats_gather_on, get_team_view. cbn [link asking].
  assert (Hlink : snd (stats_gather_live cfg (link g) "chat" (reported g))
                  = link g)
    by (apply stats_gather_quiet; discriminate).
  destruct (stats_gather_live cfg (link g) "chat" (reported g))
    as [boards r]; cbn [fst snd] in *; subst r.
  reflexivity.
Qed.

Lemma existsb_eqb_In (x : string) (l : list string) :
  existsb (String.eqb x) l = true <-> In x l.
Proof.
  rewrite existsb_exists. split.
  - intros (y & Hy & Heq). apply String.eqb_eq in Heq. now subst.
  - intros H. exists x. split; [exact H | apply String.eqb_refl].
Qed.

Section HookFacts.

Variable cfg : config.
Variable hooks : hook_settings.
Variable strftime_local : Z -> string.
Variable str_number : Q -> string.
Variable server_number : string.

Local Abbreviation stats_on_chat_command' :=
  (stats_on_chat_command cfg hooks strftime_local str_number server_number).
Local Abbreviation stats_on_match_end' :=
  (stats_on_match_end cfg hooks strftime_local str_number server_number).
Local Abbreviation report' := (report cfg strftime_local str_number).

(** The four ways a line of chat goes: nothing is done; [stats_gather]
    raises; the report cannot be delivered; the report is delivered. *)
Lemma chat_command_cases (g : game) (log : struct_log) :
  stats_on_chat_command' g log = (Returned, g)
  \/ (In server_number (ENABLE_ON_SERVERS hooks)
      /\ sub_content log = Some (CHAT_COMMAND hooks)
      /\ exists player_id,
           player_id_1 log = Some player_id
           /\ ((exists e,
                  stats_on_chat_command' g log
                  = (Raised e, asking GetTeamView g))
               \/ exists boards,
                    stats_gather_live cfg (link g) "chat" (reported g)
                    = (Ok boards, link g)
                    /\ ((unreachable g player_id = true
                         /\ stats_on_chat_command' g log
                            = (MessageFailed,
                               asking (MessagePlayer player_id (report' boards))
                                 (asking GetTeamView g)))
                        \/ (unreachable g player_id = false
                            /\ stats_on_chat_command' g log
                               = (Returned,
                                  {| link := link g; reported := reported g;
                                     connected := connected g;
                                     unreachable := unreachable g;
                                     inbox := inbox g
                                              ++ [(player_id, report' boards)];
                                     asked := asked g
                                              ++ [GetTeamView;
                                                  MessagePlayer player_id
                                                    (report' boards)] |}))))).
Proof.
  unfold stats_on_chat_command.
  destruct (existsb (String.eqb server_number) (ENABLE_ON_SERVERS hooks))
    eqn:Een; [| now left].
  destruct (sub_content log) as [chat_message |]; [| now left].
  destruct (player_id_1 log) as [player_id |]; [| now left].
  destruct (String.eqb_spec chat_message (CHAT_COMMAND hooks)) as [-> | _];
    [| now left].
  right. apply existsb_eqb_In in Een.
  split; [exact Een | split; [reflexivity |]].
  exists player_id. split; [reflexivity |].
  rewrite stats_gather_on_chat.
  assert (Hlink : snd (stats_gather_live cfg (link g) "chat" (reported g))
                  = link g)
    by (apply stats_gather_quiet; discriminate).
  destruct (stats_gather_live cfg (link g) "chat" (reported g))
    as [[boards | e] r]; cbn [fst snd] in *; subst r.
  - right. exists boards. split; [reflexivity |].
    unfold message_player. cbn [asking unreachable].
    destruct (unreachable g player_id); [left | right];
      (split; [reflexivity |]); [reflexivity |].
    cbn [asking link reported connected unreachable inbox asked].
    now rewrite <- app_assoc.
  - left. now exists e.
Qed.

(** A line of chat that is not the command, or has no player, or comes in
    on a server where the plugin is off: nothing is done. *)
Lemma chat_command_idle (g : game) (log : struct_log) :
  ~ In server_number (ENABLE_ON_SERVERS hooks)
  \/ sub_content log <> Some (CHAT_COMMAND hooks)
  \/ player_id_1 log = None ->
  stats_on_chat_command' g log = (Returned, g).
Proof.
  intros H. unfold stats_on_chat_command.
  destruct (existsb (String.eqb server_number) (ENABLE_ON_SERVERS hooks))
    eqn:Een; [| reflexivity].
  apply existsb_eqb_In in Een.
  destruct (sub_content log) as [chat_message |]; [| reflexivity].
  destruct (player_id_1 log) as [player_id |]; [| reflexivity].
  destruct (String.eqb_spec chat_message (CHAT_COMMAND hooks)) as [-> | _];
    [| reflexivity].
  destruct H as [H | [H | H]]; [contradiction | congruence | discriminate].
Qed.

(** The end of a match on a server where the plugin is enabled. *)
Lemma match_end_cases (g : game) (log : struct_log) :
  In server_number (ENABLE_ON_SERVERS hooks) ->
  (exists e r,
     stats_gather_live cfg (link g) "matchend" (reported g) = (Raise e, r)
     /\ stats_on_match_end' g log
        = (Raised e, with_link r (asking GetTeamView g)))
  \/ exists boards r,
       stats_gather_live cfg (link g) "matchend" (reported g) = (Ok boards, r)
       /\ ((report' boards = TRANSL_nostatsyet (LANG cfg)
            /\ stats_on_match_end' g log
               = (Returned, with_link r (asking GetTeamView g)))
           \/ (report' boards <> TRANSL_nostatsyet (LANG cfg)
               /\ stats_on_match_end' g log
                  = (Returned,
                     message_all_players (with_link r (asking GetTeamView g))
                       (report' boards)))).
Proof.
  intros Hen. apply existsb_eqb_In in Hen.
  unfold stats_on_match_end, stats_gather_on, get_team_view.
  rewrite Hen. cbn [link asking].
  destruct (stats_gather_live cfg (link g) "matchend" (reported g))
    as [[boards | e] r].
  - right. exists boards, r. split; [reflexivity |].
    destruct (String.eqb_spec (report' boards) (TRANSL_nostatsyet (LANG cfg)))
      as [E | E]; cbn [negb]; [left | right]; now split.
  - left. now exists e, r.
Qed.

End HookFacts.

(** X19. On a line of chat, [stats_on_chat_command] asks neither for the
    status nor for the VIPs and gives no VIP: the connection that [get_top]
    uses is left as it is.  Where the server is not one of
    [ENABLE_ON_SERVERS], or the text is not [CHAT_COMMAND] itself, or the
    line names no player, it returns and has sent no request.  Otherwise it
    asks for the team view and, where [stats_gather] returns, sends the
    report to the player who typed, and to nobody else.  Where that player
    cannot be reached the hook raises and nothing is delivered. *)
Theorem chat_command_effects (cfg : config) (hooks : hook_settings)
    (strftime_local : Z -> string) (str_number : Q -> string)
    (server_number : string) (g : game) (log : struct_log) :
  link (snd (stats_on_chat_command cfg hooks strftime_local str_number
               server_number g log)) = link g
  /\ (inbox (snd (stats_on_chat_command cfg hooks strftime_local str_number
                    server_number g log)) = inbox g
      \/ exists player_id text,
           In server_number (ENABLE_ON_SERVERS hooks)
           /\ sub_content log = Some (CHAT_COMMAND hooks)
           /\ player_id_1 log = Some player_id
           /\ unreachable g player_id = false
           /\ inbox (snd (stats_on_chat_command cfg hooks strftime_local
                            str_number server_number g log))
              = (inbox g ++ [(player_id, text)])%list)
  /\ (fst (stats_on_chat_command cfg hooks strftime_local str_number
             server_number g log) = MessageFailed ->
      exists player_id,
        player_id_1 log = Some player_id /\ unreachable g player_id = true)
  /\ (~ In server_number (ENABLE_ON_SERVERS hooks)
      \/ sub_content log <> Some (CHAT_COMMAND hooks)
      \/ player_id_1 log = None ->
      stats_on_chat_command cfg hooks strftime_local str_number
        server_number g log = (Returned, g))
  /\ (In server_number (ENABLE_ON_SERVERS hooks) ->
      sub_content log = Some (CHAT_COMMAND hooks) ->
      forall player_id,
        player_id_1 log = Some player_id ->
        (asked (snd (stats_on_chat_command cfg hooks strftime_local
                       str_number server_number g log))
         = (asked g ++ [GetTeamView])%list
         /\ exists e,
              fst (stats_on_chat_command cfg hooks strftime_local
                     str_number server_number g log) = Raised e)
        \/ exists boards,
             stats_gather_live cfg (link g) "chat" (reported g)
             = (Ok boards, link g)
             /\ asked (snd (stats_on_chat_command cfg hooks strftime_local
                              str_number server_number g log))
                = (asked g
                   ++ [GetTeamView;
                       MessagePlayer player_id
                         (report cfg strftime_local str_number boards)])%list
             /\ (fst (stats_on_chat_command cfg hooks strftime_local
                        str_number server_number g log) = Returned
                 <-> unreachable g player_id = false)).
Proof.
  split; [| split; [| split; [| split]]].
  4: apply chat_command_idle.
  4: { intros Hen Hsub pid Hpid.
       destruct (chat_command_cases cfg hooks strftime_local str_number
                   server_number g log)
         as [Hout | (_ & _ & player_id & Hid
                     & [[e ->] | (boards & Hb & [[Hu ->] | [Hu ->]])])];
         cbn [fst snd asked asking].
       - exfalso. unfold stats_on_chat_command in Hout.
         apply existsb_eqb_In in Hen. rewrite Hen, Hsub, Hpid in Hout.
         rewrite String.eqb_refl, stats_gather_on_chat in Hout.
         destruct (fst (stats_gather_live cfg (link g) "chat" (reported g)))
           as [boards | e]; [| discriminate Hout].
         unfold message_player in Hout. cbn [asking unreachable] in Hout.
         destruct (unreachable g pid); [discriminate Hout |].
         injection Hout as Hout. apply (f_equal asked) in Hout.
         cbn [asked asking] in Hout. rewrite <- app_assoc in Hout.
         apply (f_equal (@List.length request)) in Hout.
         rewrite length_app in Hout. cbn in Hout. lia.
       - left. split; [reflexivity | now exists e].
       - right. exists boards. rewrite Hid in Hpid. injection Hpid as <-.
         split; [exact Hb |]. split; [now rewrite <- app_assoc |].
         rewrite Hu. split; discriminate.
       - right. exists boards. rewrite Hid in Hpid. injection Hpid as <-.
         split; [exact Hb |]. split; [reflexivity |].
         rewrite Hu. now split. }
  all: destruct (chat_command_cases cfg hooks strftime_local str_number
                   server_number g log)
         as [-> | (Hen & Hsub & player_id & Hid
                   & [[e ->] | (boards & Hb & [[Hu ->] | [Hu ->]])])];
         cbn [fst snd link inbox asked asking];
         try reflexivity; try (now left); try discriminate.
  - right. exists player_id, (report cfg strftime_local str_number boards).
    now repeat split.
  - intros _. now exists player_id.
Qed.

Lemma chat_command_effects_witness :
  exists text,
    inbox (snd (stats_on_chat_command shipped shipped_hooks
                  (fun _ => "") (fun _ => "1.5") "1" small_game top_command))
    = [("Cid", text)]
    /\ asked (snd (stats_on_chat_command shipped shipped_hooks
                     (fun _ => "") (fun _ => "1.5") "1" small_game
                     top_command))
       = [GetTeamView; MessagePlayer "Cid" text].
Proof.
  destruct (chat_command_effects shipped shipped_hooks (fun _ => "")
              (fun _ => "1.5") "1" small_game top_command)
    as (_ & [Hin | (player_id & text & _ & _ & [= <-] & _ & Hin)] & _ & _
        & Hask).
  - vm_compute in Hin. discriminate Hin.
  - exists text. split; [exact Hin |].
    destruct (Hask (or_introl eq_refl) eq_refl "Cid" eq_refl)
      as [[Hraised _] | (boards & Hb & Hsent & _)].
    + vm_compute in Hraised. discriminate Hraised.
    + rewrite Hsent. cbn [asked small_game app]. do 2 f_equal.
      vm_compute in Hin. vm_compute in Hb.
      injection Hin as <-. injection Hb as <-. now vm_compute.
Defined.



(** ** The VIPs that are given *)

Lemma announced_no_vip (l : list chunk) :
  filter is_vip_text l = [] -> announced l = [].
Proof.
  induction l as [| c l IH]; [reflexivity |].
  cbn [filter].
  destruct c; cbn [is_vip_text]; intros H; try discriminate H;
    unfold announced; cbn [flat_map app]; now apply IH.
Qed.

Section Requests.

Variable cfg : config.
Variables callmode calltype : string.
Variable sortkey : stat -> result Q.
Variables first_data second_data third_data fourth_data : string.
Variable squadtype_allplayers : list stat.
Variable vars : locals.
Variable sorted_data : list stat.
Variable pool : list stat.

Local Abbreviation loop' :=
  (loop cfg callmode calltype sortkey first_data second_data third_data
     fourth_data squadtype_allplayers vars sorted_data).

Lemma loop_requests (samples : list stat) :
  incl samples pool ->
  forall iteration output r,
  exists added,
    calls (snd (loop' samples iteration output r)) = (calls r ++ added)%list
    /\ now (snd (loop' samples iteration output r)) = now r
    /\ Forall (request_for cfg pool (now r)) added
    /\ forall output',
         fst (loop' samples iteration output r) = Ok output' ->
         announced output' = (announced output ++ granted added)%list.
Proof.
  induction samples as [| sample rest IH]; intros Hincl iteration output r.
  - exists []. cbn. rewrite !app_nil_r. repeat split; [constructor |].
    now intros output' [= <-].
  - assert (Hrest : incl rest pool) by (intros x Hx; apply Hincl; now right).
    assert (Hsample : In sample pool) by (apply Hincl; now left).
    cbn [loop].
    destruct (turn_ends cfg callmode calltype sortkey first_data second_data
                third_data fourth_data squadtype_allplayers vars sorted_data
                sample iteration output r)
      as [e | lines Hl Hg | lines Hl Hg Hc | lines Hl Hg Hc Hs
          | lines Hl Hg Hc Hs].
    + exists []. cbn. rewrite app_nil_r.
      repeat split; [constructor | discriminate].
    + destruct (IH Hrest (iteration + 1) (output ++ lines)%list r)
        as (added & Hcalls & Hnow & Hreq & Hout).
      exists added. repeat split; auto.
      intros output' Ho. rewrite (Hout output' Ho).
      unfold announced at 1. rewrite flat_map_app. fold (announced output).
      fold (announced lines).
      destruct (listing_shape calltype sortkey first_data second_data
                  third_data fourth_data squadtype_allplayers vars sorted_data
                  sample iteration lines Hl) as [Hv _].
      now rewrite (announced_no_vip lines Hv), app_nil_r.
    + destruct (IH Hrest iteration (output ++ lines)%list r)
        as (added & Hcalls & Hnow & Hreq & Hout).
      exists added. repeat split; auto.
      intros output' Ho. rewrite (Hout output' Ho).
      unfold announced at 1. rewrite flat_map_app. fold (announced output).
      fold (announced lines).
      destruct (listing_shape calltype sortkey first_data second_data
                  third_data fourth_data squadtype_allplayers vars sorted_data
                  sample iteration lines Hl) as [Hv _].
      now rewrite (announced_no_vip lines Hv), app_nil_r.
    + match goal with
      | |- context [loop' rest _ ?o ?r1] =>
          destruct (IH Hrest (iteration + 1) o r1)
            as (added & Hcalls & Hnow & Hreq & Hout)
      end.
      cbn [add_vip logged calls now] in Hcalls, Hnow, Hreq.
      exists ([GetVipIds;
               AddVip (player_id sample) (name sample ++ " Top-Player")
                 (now r + hours (VIP_HOURS cfg))] ++ added)%list.
      split; [rewrite Hcalls, <- !app_assoc; reflexivity |].
      split; [exact Hnow |].
      split.
      * constructor; [exact I |]. constructor; [| exact Hreq].
        exists sample. now repeat split.
      * intros output' Ho. rewrite (Hout output' Ho).
        unfold announced at 1. rewrite !flat_map_app.
        fold (announced output). fold (announced lines).
        destruct (listing_shape calltype sortkey first_data second_data
                    third_data fourth_data squadtype_allplayers vars
                    sorted_data sample iteration lines Hl) as [Hv _].
        rewrite (announced_no_vip lines Hv), app_nil_r. cbn.
        now rewrite <- app_assoc.
    + match goal with
      | |- context [loop' rest _ ?o ?r1] =>
          destruct (IH Hrest (iteration + 1) o r1)
            as (added & Hcalls & Hnow & Hreq & Hout)
      end.
      cbn [logged calls now] in Hcalls, Hnow, Hreq.
      exists ([GetVipIds] ++ added)%list.
      split; [rewrite Hcalls, <- !app_assoc; reflexivity |].
      split; [exact Hnow |].
      split; [constructor; [exact I | exact Hreq] |].
      intros output' Ho. rewrite (Hout output' Ho).
      unfold announced at 1. rewrite !flat_map_app.
      fold (announced output). fold (announced lines).
      destruct (listing_shape calltype sortkey first_data second_data
                  third_data fourth_data squadtype_allplayers vars
                  sorted_data sample iteration lines Hl) as [Hv _].
      rewrite (announced_no_vip lines Hv), app_nil_r. cbn.
      now rewrite app_nil_r.
Qed.

End Requests.

(** X21. What [get_top] asks of the server is added at the end of what was
    asked before.  Each VIP it gives goes to a record of the bucket that is
    no late commander, under the name of the player followed by
    " Top-Player", and ends [VIP_HOURS] after now; and the texts
    "VIP until" of a listing it returns announce the ends of the VIPs it has
    given, one text for each and in the same order. *)
Theorem get_top_vips_announced (cfg : config) (r : rcon)
    (callmode calltype : string) (bucket : list stat)
    (sortkey : stat -> result Q)
    (first_data second_data third_data fourth_data : string)
    (all : list stat) :
  exists added,
    calls (snd (get_top cfg r callmode calltype bucket sortkey
                  first_data second_data third_data fourth_data all))
    = (calls r ++ added)%list
    /\ Forall (request_for cfg bucket (now r)) added
    /\ forall output,
         fst (get_top cfg r callmode calltype bucket sortkey
                first_data second_data third_data fourth_data all)
         = Ok output ->
         announced output = granted added.
Proof.
  rewrite get_top_unfold.
  assert (Hmode : exists first,
             calls (mode_rcon r callmode) = (calls r ++ first)%list
             /\ now (mode_rcon r callmode) = now r
             /\ Forall (request_for cfg bucket (now r)) first
             /\ granted first = []).
  { unfold mode_rcon. destruct (callmode =? "matchend").
    - exists [GetStatus]. repeat split. now constructor.
    - exists []. rewrite app_nil_r. repeat split. constructor. }
  destruct Hmode as (first & Hfirst & Hclock & Hreq0 & Hgr0).
  destruct (sorted_reverse bucket sortkey) as [sorted_data |] eqn:Es.
  2:{ exists first. cbn [fst snd]. repeat split; auto. discriminate. }
  destruct (mode_limit cfg callmode) as [limit |].
  2:{ exists first. cbn [fst snd]. repeat split; auto. discriminate. }
  match goal with
  | |- context [loop _ _ _ _ _ _ _ _ ?a ?v ?s ?l 1 [] ?r1] =>
      destruct (loop_requests cfg callmode calltype sortkey first_data
                  second_data third_data fourth_data a v s bucket l
                  ltac:(intros x Hx; apply In_slice_to in Hx;
                        now apply (sorted_reverse_In sortkey bucket s Es))
                  1 [] r1)
        as (added & Hcalls & _ & Hreq & Hout)
  end.
  exists (first ++ added)%list.
  split; [rewrite Hcalls, Hfirst, app_assoc; reflexivity |].
  split.
  - apply Forall_app. split; [exact Hreq0 |]. now rewrite Hclock in Hreq.
  - intros output Ho. rewrite (Hout output Ho).
    unfold granted at 2. rewrite flat_map_app. fold (granted first).
    now rewrite Hgr0.
Qed.

(** ** The listings and what the server reports *)

Lemma lines_are_impl (P Q : chunk -> Prop) (output : list chunk) :
  (forall c, P c -> Q c) -> lines_are P output -> lines_are Q output.
Proof. intros H HP c Hc Hl. apply H. now apply HP. Qed.

Lemma fields_of_players (get_team_view : team_side -> option team_data)
    (keep : team_side * (string * squad_data) -> bool)
    (second third : stat -> Z) (c : chunk) :
  fields_of second third
    (flat_map players_in (filter keep (all_squads get_team_view))) c ->
  player_line get_team_view keep second third c.
Proof.
  intros (p & Hp & ->). apply in_flat_map in Hp. destruct Hp as (g & Hg & Hp).
  apply filter_In in Hg. exists g, p. tauto.
Qed.

Lemma score_by_players (get_team_view : team_side -> option team_data)
    (keep : team_side * (string * squad_data) -> bool)
    (metric : stat -> result Q) (c : chunk) :
  score_by metric
    (flat_map players_in (filter keep (all_squads get_team_view))) c ->
  player_score get_team_view keep metric c.
Proof.
  intros (p & score & Hp & Hm & ->).
  apply in_flat_map in Hp. destruct Hp as (g & Hg & Hp).
  apply filter_In in Hg. exists g, p, score. tauto.
Qed.

Lemma fields_of_squads (get_team_view : team_side -> option team_data)
    (keep : team_side * (string * squad_data) -> bool)
    (second third : stat -> Z) (second' third' : squad_data -> Z)
    (c : chunk) :
  (forall g, second (named (entry_of g)) = second' (snd (snd g))) ->
  (forall g, third (named (entry_of g)) = third' (snd (snd g))) ->
  fields_of second third
    (map named (map entry_of (filter keep (all_squads get_team_view)))) c ->
  squad_line get_team_view keep second' third' c.
Proof.
  intros H2 H3 (p & Hp & ->).
  apply in_map_iff in Hp. destruct Hp as (e & <- & He).
  apply in_map_iff in He. destruct He as (g & <- & Hg).
  apply filter_In in Hg. exists g. rewrite H2, H3.
  destruct g as [t [n d]]. cbn. tauto.
Qed.

(** X22. The lines of the nine listings that [stats_gather] returns come
    from what the server reports: a line of the commanders shows the
    commander of a team; a line of one of the four infantry listings shows a
    player of a squad of type infantry or recon, with the two counters of
    the listing or, in the listing of the kills per minute, with the
    [killrate] of that player; a line of a listing of squads shows a squad
    of the type of the listing under its name and its team, with its own
    counters.  A squad of any other type, and a player who is only in such
    a squad, has no line. *)
Theorem stats_gather_live_lines (cfg : config) (r r' : rcon)
    (callmode : string) (get_team_view : team_side -> option team_data)
    (boards : tops) :
  stats_gather_live cfg r callmode get_team_view = (Ok boards, r') ->
  lines_are
    (fields_of combat support
       (commander_of get_team_view allies ++ commander_of get_team_view axis))
    (top_commanders_teamplay boards)
  /\ lines_are (player_line get_team_view is_infantry offense defense)
       (top_infantry_offdef boards)
  /\ lines_are (player_line get_team_view is_infantry combat support)
       (top_infantry_teamplay boards)
  /\ lines_are (player_line get_team_view is_infantry kills deaths)
       (top_infantry_ratio boards)
  /\ lines_are (player_score get_team_view is_infantry killrate)
       (top_infantry_killrate boards)
  /\ lines_are (squad_line get_team_view is_infantry squad_offense squad_defense)
       (top_squads_infantry_offdef boards)
  /\ lines_are (squad_line get_team_view is_infantry squad_combat squad_support)
       (top_squads_infantry_teamplay boards)
  /\ lines_are (squad_line get_team_view is_armor squad_offense squad_defense)
       (top_squads_armor_offdef boards)
  /\ lines_are (squad_line get_team_view is_armor squad_combat squad_support)
       (top_squads_armor_teamplay boards).
Proof.
  unfold stats_gather_live, stats_gather.
  rewrite gathered_lists.
  cbn [buckets gathered_app brought commanders players_infantry players_armor
       squads_infantry squads_armor all_commanders all_players_infantry
       all_players_armor all_squads_infantry all_squads_armor app].
  rewrite app_nil_r.
  intros H. do 9 next_top H.
  injection H as <- <-.
  cbn [top_commanders_teamplay top_infantry_offdef top_infantry_teamplay
       top_infantry_ratio top_infantry_killrate top_squads_infantry_offdef
       top_squads_infantry_teamplay top_squads_armor_offdef
       top_squads_armor_teamplay].
  split; [| split; [| split; [| split; [| split; [| split; [| split;
    [| split]]]]]]].
  - eapply get_top_fields; [| | eassumption]; reflexivity.
  - eapply lines_are_impl; [apply fields_of_players |].
    eapply get_top_fields; [| | eassumption]; reflexivity.
  - eapply lines_are_impl; [apply fields_of_players |].
    eapply get_top_fields; [| | eassumption]; reflexivity.
  - eapply lines_are_impl; [apply fields_of_players |].
    eapply get_top_fields; [| | eassumption]; reflexivity.
  - eapply lines_are_impl; [apply score_by_players |].
    eapply get_top_score; eassumption.
  - eapply lines_are_impl;
      [intros c;
       apply (fields_of_squads _ _ offense defense squad_offense squad_defense c);
       intros [side [n d]]; reflexivity |].
    eapply get_top_fields; [| | eassumption]; reflexivity.
  - eapply lines_are_impl;
      [intros c;
       apply (fields_of_squads _ _ combat support squad_combat squad_support c);
       intros [side [n d]]; reflexivity |].
    eapply get_top_fields; [| | eassumption]; reflexivity.
  - eapply lines_are_impl;
      [intros c;
       apply (fields_of_squads _ _ offense defense squad_offense squad_defense c);
       intros [side [n d]]; reflexivity |].
    eapply get_top_fields; [| | eassumption]; reflexivity.
  - eapply lines_are_impl;
      [intros c;
       apply (fields_of_squads _ _ combat support squad_combat squad_support c);
       intros [side [n d]]; reflexivity |].
    eapply get_top_fields; [| | eassumption]; reflexivity.
Qed.

Lemma stats_gather_live_lines_witness :
  exists boards r',
    stats_gather_live shipped quiet_server "chat" small_match = (Ok boards, r')
    /\ lines_are (player_line small_match is_infantry combat support)
         (top_infantry_teamplay boards)
    /\ lines_are (player_score small_match is_infantry killrate)
         (top_infantry_killrate boards)
    /\ lines_are (squad_line small_match is_armor squad_combat squad_support)
         (top_squads_armor_teamplay boards).
Proof.
  destruct (stats_gather_live shipped quiet_server "chat" small_match)
    as [[boards | e] r'] eqn:E.
  - exists boards, r'. split; [reflexivity |].
    destruct (stats_gather_live_lines shipped quiet_server r' "chat"
                small_match boards E)
      as (_ & _ & H3 & _ & H5 & _ & _ & _ & H9).
    now repeat split.
  - vm_compute in E. discriminate E.
Defined.
